(** * Properties-on-export: a shallow embedding of the plugin and its properties

    The repository holds three programs. [src/unnamed/part_000] is the plugin
    with the print and export interception and the temporary file patch; the
    first program of [src/main.ts] is the same plugin without the file patch;
    the second program of [src/main.ts] renders the properties in the
    markdown post-processor, with Luxon for dates. The definitions below follow
    [part_000]; the second program of [src/main.ts] lives in [Module Luxon]. *)

From Stdlib Require Import String Ascii List ZArith Lia Bool.
From stdpp Require Import gmap strings list fin_maps pretty.
Import ListNotations.
Local Open Scope string_scope.
Local Open Scope list_scope.
Set Warnings "-register-all".

(** ** Text *)

(** The double quote: kept out of the literals below. *)
Definition dq : string := String "034"%char EmptyString.

Definition str_concat (l : list string) : string :=
  fold_right String.append EmptyString l.

(** [Array.prototype.join]. *)
Fixpoint join (sep : string) (l : list string) : string :=
  match l with
  | [] => EmptyString
  | [x] => x
  | x :: rest => x +:+ sep +:+ join sep rest
  end.

(** [s.split(',')]: an empty string gives one empty piece. *)
Fixpoint split_comma (s : string) : list string :=
  match s with
  | EmptyString => [EmptyString]
  | String c r =>
      if Ascii.eqb c ","%char then EmptyString :: split_comma r
      else match split_comma r with
           | h :: t => String c h :: t
           | [] => [String c EmptyString]
           end
  end.

(** A text is kept as the bytes of its UTF-8 encoding: a character of the
    first 128 is one byte, and no byte of a longer character is one of them.

    White space of [String.prototype.trim] and of the regular expression
    class [\s]. Of one byte: tab, line feed, vertical tab, form feed, carriage
    return and space. Of two bytes: U+00A0. Of three bytes: U+1680, U+2000 to
    U+200A, U+2028, U+2029, U+202F, U+205F, U+3000 and U+FEFF. *)
Definition isSpace (c : ascii) : bool :=
  let n := nat_of_ascii c in
  (Nat.leb 9 n && Nat.leb n 13) || Nat.eqb n 32.

Definition isSpace2 (a b : ascii) : bool :=
  Nat.eqb (nat_of_ascii a) 194 && Nat.eqb (nat_of_ascii b) 160.

Definition isSpace3 (a b c : ascii) : bool :=
  let x := nat_of_ascii a in
  let y := nat_of_ascii b in
  let z := nat_of_ascii c in
  (Nat.eqb x 225 && Nat.eqb y 154 && Nat.eqb z 128)
  || (Nat.eqb x 226 && Nat.eqb y 128
      && ((Nat.leb 128 z && Nat.leb z 138)
          || Nat.eqb z 168 || Nat.eqb z 169 || Nat.eqb z 175))
  || (Nat.eqb x 226 && Nat.eqb y 129 && Nat.eqb z 159)
  || (Nat.eqb x 227 && Nat.eqb y 128 && Nat.eqb z 128)
  || (Nat.eqb x 239 && Nat.eqb y 187 && Nat.eqb z 191).

(** A text that starts with white space. *)
Definition startsWithSpace (s : string) : bool :=
  match s with
  | String a r =>
      isSpace a
      || match r with
         | String b r' =>
             isSpace2 a b
             || match r' with
                | String c _ => isSpace3 a b c
                | EmptyString => false
                end
         | EmptyString => false
         end
  | EmptyString => false
  end.

(** [trimStart]: the white space at the start is dropped, character by
    character. *)
Fixpoint trimStart (s : string) : string :=
  match s with
  | EmptyString => EmptyString
  | String a r =>
      if isSpace a then trimStart r
      else match r with
           | String b r' =>
               if isSpace2 a b then trimStart r'
               else match r' with
                    | String c r'' => if isSpace3 a b c then trimStart r'' else s
                    | EmptyString => s
                    end
           | EmptyString => s
           end
  end.

(** The same from the end, on the bytes in reverse order: [spaceBack l] says
    that the text ends with white space, and [dropSpacesBack l] drops it. *)
Definition spaceBack (l : list ascii) : bool :=
  match l with
  | c :: r =>
      isSpace c
      || match r with
         | b :: r' =>
             isSpace2 b c
             || match r' with
                | a :: _ => isSpace3 a b c
                | [] => false
                end
         | [] => false
         end
  | [] => false
  end.

Fixpoint dropSpacesBack (l : list ascii) : list ascii :=
  match l with
  | [] => []
  | c :: r =>
      if isSpace c then dropSpacesBack r
      else match r with
           | b :: r' =>
               if isSpace2 b c then dropSpacesBack r'
               else match r' with
                    | a :: r'' => if isSpace3 a b c then dropSpacesBack r'' else l
                    | [] => l
                    end
           | [] => l
           end
  end.

(** [trimEnd] *)
Definition trimEnd (s : string) : string :=
  string_of_list_ascii (rev (dropSpacesBack (rev (list_ascii_of_string s)))).

Definition trim (s : string) : string := trimEnd (trimStart s).

Definition nonEmpty (s : string) : bool :=
  match s with EmptyString => false | _ => true end.

Definition isDigit (c : ascii) : bool :=
  let n := nat_of_ascii c in Nat.leb 48 n && Nat.leb n 57.

Fixpoint startsWith (p s : string) : bool :=
  match p, s with
  | EmptyString, _ => true
  | String a p', String b s' => Ascii.eqb a b && startsWith p' s'
  | String _ _, EmptyString => false
  end.

Fixpoint drop_str (n : nat) (s : string) : string :=
  match n, s with
  | O, _ => s
  | S n', String _ r => drop_str n' r
  | S _, EmptyString => EmptyString
  end.

(** [span p s]: the longest prefix of [s] whose characters satisfy [p], and
    the rest. *)
Fixpoint span (p : ascii -> bool) (s : string) : string * string :=
  match s with
  | EmptyString => (EmptyString, EmptyString)
  | String c r =>
      if p c then let '(a, b) := span p r in (String c a, b)
      else (EmptyString, s)
  end.

(** ** Frontmatter values *)

(** What the metadata cache hands out for a YAML property. Numbers are the
    whole numbers. *)
Inductive value : Type :=
| VNull
| VUndefined
| VBool (b : bool)
| VNum (z : Z)
| VStr (s : string)
| VArr (items : list value)
| VObj (fields : list (string * value)).

(** [String(v)], for the values it prints (see [printable] below). An array
    prints its items joined by a comma, [null] and [undefined] items as
    nothing. *)
Fixpoint toStr (v : value) : string :=
  match v with
  | VNull => "null"
  | VUndefined => "undefined"
  | VBool true => "true"
  | VBool false => "false"
  | VNum z => pretty z
  | VStr s => s
  | VArr items =>
      join "," (map (fun x => match x with
                              | VNull | VUndefined => EmptyString
                              | _ => toStr x
                              end) items)
  | VObj _ => "[object Object]"
  end.

(** A value that [String] prints as [toStr] has it: a whole number short
    enough to be written without an exponent, and no mapping with a key
    [toString], whose value would hide the method [String] calls. *)
Fixpoint printable (v : value) : bool :=
  match v with
  | VNum z => (Z.abs z <? 10 ^ 21)%Z
  | VArr items => forallb printable items
  | VObj fields => forallb (fun kv => negb (String.eqb (fst kv) "toString")) fields
  | _ => true
  end.

(** [escapeHtml]: the five characters and their entities. *)
Definition escapeChar (c : ascii) : string :=
  if Ascii.eqb c "&"%char then "&amp;"
  else if Ascii.eqb c "<"%char then "&lt;"
  else if Ascii.eqb c ">"%char then "&gt;"
  else if Ascii.eqb c "034"%char then "&quot;"
  else if Ascii.eqb c "'"%char then "&#39;"
  else String c EmptyString.

Fixpoint escapeHtml (s : string) : string :=
  match s with
  | EmptyString => EmptyString
  | String c r => escapeChar c +:+ escapeHtml r
  end.

(** *** Dates: [/^(\d{4}-\d{2}-\d{2})[T ](\d{2}):(\d{2})(?::(\d{2}))?$/] *)

Fixpoint digits (n : nat) (s : string) : option (string * string) :=
  match n with
  | O => Some (EmptyString, s)
  | S n' =>
      match s with
      | String c r =>
          if isDigit c
          then match digits n' r with
               | Some (d, rest) => Some (String c d, rest)
               | None => None
               end
          else None
      | EmptyString => None
      end
  end.

Definition lit (c : ascii) (s : string) : option string :=
  match s with
  | String c' r => if Ascii.eqb c c' then Some r else None
  | EmptyString => None
  end.

(** The groups 1, 2 and 3 of the match: date, hours, minutes. *)
Definition dateMatch (s : string) : option (string * string * string) :=
  '(y, s) ← digits 4 s; s ← lit "-"%char s;
  '(m, s) ← digits 2 s; s ← lit "-"%char s;
  '(d, s) ← digits 2 s;
  s ← match s with
      | String c r => if Ascii.eqb c "T"%char || Ascii.eqb c " "%char then Some r else None
      | EmptyString => None
      end;
  '(hh, s) ← digits 2 s; s ← lit ":"%char s;
  '(mm, s) ← digits 2 s;
  let datePart := y +:+ "-" +:+ m +:+ "-" +:+ d in
  match s with
  | EmptyString => Some (datePart, hh, mm)
  | _ => s ← lit ":"%char s;
         '(_, s) ← digits 2 s;
         match s with
         | EmptyString => Some (datePart, hh, mm)
         | _ => None
         end
  end.

(** [parseInt(hhStr, 10)] on a string of digits. *)
Definition parseInt (s : string) : nat :=
  fold_left (fun acc c => 10 * acc + (nat_of_ascii c - 48)) (list_ascii_of_string s) 0.

(** [String(hh).padStart(2, '0')]. *)
Definition padStart2 (n : nat) : string :=
  let s : string := pretty n in
  if Nat.ltb (String.length s) 2 then "0" +:+ s else s.

(** *** Wikilinks: [s.replace(/\[\[([^\]]+)\]\]/g, ...)] *)

Definition notClose (c : ascii) : bool := negb (Ascii.eqb c "]"%char).

(** A match of the expression at the head of [s]: the captured path and what
    follows the match. *)
Definition wikiMatch (s : string) : option (string * string) :=
  if startsWith "[[" s then
    let '(path, rest) := span notClose (drop_str 2 s) in
    if nonEmpty path && startsWith "]]" rest then Some (path, drop_str 2 rest)
    else None
  else None.

Definition wikiAnchor (path : string) : string :=
  "<a class=" +:+ dq +:+ "internal-link" +:+ dq +:+ " href=" +:+ dq +:+ "#" +:+ dq
  +:+ " style=" +:+ dq
  +:+ "color:var(--text-accent, #388bfd);text-decoration:underline;" +:+ dq +:+ ">"
  +:+ escapeHtml path +:+ "</a>".

(** The global replace scans from the left and resumes after each match; the
    fuel is the length of the text, which every step shortens. *)
Fixpoint replaceWiki (fuel : nat) (s : string) : string :=
  match fuel with
  | O => s
  | S fuel' =>
      match wikiMatch s with
      | Some (path, rest) => wikiAnchor path +:+ replaceWiki fuel' rest
      | None =>
          match s with
          | EmptyString => EmptyString
          | String c r => String c (replaceWiki fuel' r)
          end
      end
  end.

(** [valueToHtml] of [part_000] and of the first program of [main.ts]. *)
Fixpoint valueToHtml (v : value) : string :=
  match v with
  | VNull | VUndefined => EmptyString
  | VArr items => join ", " (map valueToHtml items)
  | _ =>
      let s := toStr v in
      match dateMatch s with
      | Some (datePart, hhStr, mmStr) =>
          let hh := parseInt hhStr in
          let ampm := if Nat.leb 12 hh then "PM" else "AM" in
          let hh := hh mod 12 in
          let hh := if Nat.eqb hh 0 then 12 else hh in
          escapeHtml datePart +:+ " " +:+ escapeHtml (padStart2 hh +:+ mmStr +:+ ampm)
      | None => replaceWiki (String.length s) s
      end
  end.

(** ** The property map and its two renderings *)

(** A JavaScript object used as an ordered map: the entries in the order
    [Object.keys] lists them. [Object.assign({}, o)] is the same list. *)
Definition props : Type := list (string * value).

(** [delete props[k]]. *)
Definition deleteKey (k : string) (p : props) : props :=
  List.filter (fun kv => negb (String.eqb (fst kv) k)) p.

Record Settings : Type := {
  displayProperties : bool;
  omittedProperties : string;
  insertAfterHeading : bool
}.

Definition DEFAULT_SETTINGS : Settings :=
  {| displayProperties := true; omittedProperties := EmptyString;
     insertAfterHeading := false |}.

(** [omittedProperties.split(',').map(p => p.trim()).filter(p => p.length > 0)] *)
Definition omittedProps (setting : string) : list string :=
  List.filter nonEmpty (map trim (split_comma setting)).

(** [for (const prop of omittedProps) delete props[prop]] *)
Definition deleteOmitted (s : Settings) (p : props) : props :=
  fold_left (fun acc prop => deleteKey prop acc) (omittedProps (omittedProperties s)) p.

(** The markup around the rows, and a row, as [getPropertiesHtml] writes
    them. *)
Definition blockOpen : string :=
  "<div class=" +:+ dq +:+ "export-properties-block" +:+ dq +:+ " style=" +:+ dq
  +:+ "margin-bottom:1em;background:#f9f9f9;page-break-inside:avoid;" +:+ dq +:+ ">"
  +:+ "<table style=" +:+ dq +:+ "width:100%;" +:+ dq +:+ ">".

Definition blockClose : string := "</table></div>".

Definition rowHtml (kv : string * value) : string :=
  "<tr><td style=" +:+ dq +:+ "font-weight:bold;padding:2px 6px;width:25%;" +:+ dq +:+ ">"
  +:+ escapeHtml (fst kv) +:+ "</td><td style=" +:+ dq +:+ "padding:2px 6px;" +:+ dq +:+ ">"
  +:+ valueToHtml (snd kv) +:+ "</td></tr>".

(** [getPropertiesHtml]. The function deletes the omitted names from the
    object it is given, so it returns that object next to the markup. *)
Definition getPropertiesHtml (s : Settings) (p : props) : props * option string :=
  let p := deleteOmitted s p in
  match p with
  | [] => (p, None)
  | _ => (p, Some (blockOpen +:+ str_concat (map rowHtml p) +:+ blockClose))
  end.

Definition nl : string := String "010"%char EmptyString.

(** [Array.isArray(value) ? value.join(', ') : String(value)] *)
Definition valueText (v : value) : string :=
  match v with
  | VArr items => join ", " (map (fun x => match x with
                                          | VNull | VUndefined => EmptyString
                                          | _ => toStr x
                                          end) items)
  | _ => toStr v
  end.

Definition rowMarkdown (kv : string * value) : string :=
  "- **" +:+ escapeHtml (fst kv) +:+ "**: " +:+ escapeHtml (valueText (snd kv)) +:+ nl.

(** The markdown block made of the rows [rows]. *)
Definition markdownOf (rows : props) : string :=
  "<!-- export-properties-start -->" +:+ nl
  +:+ "**Properties**" +:+ nl +:+ nl
  +:+ str_concat (map rowMarkdown rows)
  +:+ nl +:+ "<!-- export-properties-end -->" +:+ nl.

(** [getPropertiesMarkdown], with the object it has filtered. *)
Definition getPropertiesMarkdown (s : Settings) (p : props) : props * option string :=
  let p := deleteOmitted s p in
  match p with
  | [] => (p, None)
  | _ => (p, Some (markdownOf p))
  end.

(** ** The rendered document *)

(** An element carries its identity (the object the scripts hold a reference
    to), its tag and its classes. [Block html] is a [div] with the class
    [export-properties-block] and no other, whose content is the markup
    [html]: what the parser builds inside it is not kept. Text nodes are not
    kept either: no selector sees them. *)
Inductive node : Type :=
| Elem (ref : nat) (tag : string) (classes : list string) (kids : list node)
| Block (html : string).

Definition hasClass (c : string) (n : node) : bool :=
  match n with
  | Elem _ _ cls _ => existsb (String.eqb c) cls
  | Block _ => String.eqb c "export-properties-block"
  end.

Definition hasTag (t : string) (n : node) : bool :=
  match n with
  | Elem _ t' _ _ => String.eqb t t'
  | Block _ => String.eqb t "div"
  end.

Definition hasRef (r : nat) (n : node) : bool :=
  match n with
  | Elem r' _ _ _ => Nat.eqb r r'
  | Block _ => false
  end.

Definition isSection : node -> bool := hasClass "markdown-preview-section".
Definition isBlock : node -> bool := hasClass "export-properties-block".
Definition isH1 : node -> bool := hasTag "h1".

(** The first result in a list, and the first rewriting in a list: the two
    traversals below go through the children of an element with them. *)
Definition first_some {A B : Type} (f : A -> option B) : list A -> option B :=
  fix go (l : list A) : option B :=
    match l with
    | [] => None
    | x :: rest => match f x with Some y => Some y | None => go rest end
    end.

Definition first_rewrite {A : Type} (f : A -> option (list A)) : list A -> option (list A) :=
  fix go (l : list A) : option (list A) :=
    match l with
    | [] => None
    | x :: rest =>
        match f x with
        | Some xs => Some (xs ++ rest)
        | None => match go rest with Some rest' => Some (x :: rest') | None => None end
        end
    end.

(** The first match in document order in a tree, its root included. *)
Fixpoint queryNode (p : node -> bool) (n : node) : option node :=
  if p n then Some n
  else match n with
       | Elem _ _ _ ks => first_some (queryNode p) ks
       | Block _ => None
       end.

(** [querySelector]: the first match in document order among the trees of a
    forest and their descendants. For [el.querySelector] the forest is the
    children of [el]; for [document.querySelector] it is the document. *)
Definition querySelector (p : node -> bool) (l : list node) : option node :=
  first_some (queryNode p) l.

(** The change of the first match of a traversal: [f] gives the nodes that
    take the place of the element ([[]] detaches it, [[n; b]] puts [b] after
    it). *)
Fixpoint rewriteNode (p : node -> bool) (f : node -> option (list node)) (n : node)
  : option (list node) :=
  if p n then f n
  else match n with
       | Elem r t c ks =>
           match first_rewrite (rewriteNode p f) ks with
           | Some ks' => Some [Elem r t c ks']
           | None => None
           end
       | Block _ => None
       end.

(** A query followed by a change of the element found. The result is [None]
    when nothing matches or [f] gives up on the element found. *)
Definition rewriteFirst (p : node -> bool) (f : node -> option (list node))
  (l : list node) : option (list node) :=
  match querySelector p l with
  | None => None
  | Some m =>
      match f m with
      | None => None
      | Some _ => first_rewrite (rewriteNode p f) l
      end
  end.

(** The number of elements that satisfy [q] in a tree and in a forest, and
    the number of elements with the marker class. *)
Fixpoint countNode (q : node -> bool) (n : node) : nat :=
  (if q n then 1 else 0)
  + match n with
    | Elem _ _ _ ks => list_sum (map (countNode q) ks)
    | Block _ => 0
    end.

Definition countIn (q : node -> bool) (l : list node) : nat :=
  list_sum (map (countNode q) l).

Definition countBlocks (l : list node) : nat := countIn isBlock l.

(** The children of the element with reference [r]: [view.contentEl] seen from
    the document. An element that is not in the document has none. *)
Definition childrenOf (r : nat) (doc : list node) : list node :=
  match querySelector (hasRef r) doc with
  | Some (Elem _ _ _ ks) => ks
  | _ => []
  end.

(** A change of the children of the element with reference [r]. *)
Definition rewriteWithin (r : nat) (g : list node -> option (list node))
  (doc : list node) : option (list node) :=
  rewriteFirst (hasRef r)
    (fun n => match n with
              | Elem r' t c ks =>
                  match g ks with
                  | Some ks' => Some [Elem r' t c ks']
                  | None => None
                  end
              | Block _ => None
              end) doc.

(** [block.remove()] on the first marker element of a forest. *)
Definition removeFirstBlock (l : list node) : option (list node) :=
  rewriteFirst isBlock (fun _ => Some []) l.

(** The placement in [topSection] of the nodes [frag] that the parser has
    built from the fragment ([insertAdjacentHTML]): after the first [h1]
    inside the section when the setting asks for that and there is one
    ([afterend]), before its first child otherwise ([afterbegin]). *)
Definition placeBlock (s : Settings) (frag : list node) (topSection : node)
  : option (list node) :=
  match topSection with
  | Elem r t c ks =>
      if insertAfterHeading s then
        match rewriteFirst isH1 (fun h => Some (h :: frag)) ks with
        | Some ks' => Some [Elem r t c ks']
        | None => Some [Elem r t c (frag ++ ks)]
        end
      else Some [Elem r t c (frag ++ ks)]
  | Block _ => None
  end.

(** ** The host and the plugin *)

(** A callback in the command table: a function of the host, known by its
    reference, or one of the closures [onload] creates. *)
Inductive callbackRef : Type :=
| HostFn (n : nat)
| PrintWrapper
| ExportWrapper (id : string).

Record Command : Type := {
  cmdName : string;
  callback : option callbackRef
}.

(** What the plugin reads and writes of the application: the command table
    ([app.commands?.commands]), the active file and view (the view by the
    reference of its [contentEl]), the document, the frontmatter of the
    metadata cache by path, the files of the vault by path, whether a read
    or a write of the vault is rejected, and the parser of the platform: the
    nodes [insertAdjacentHTML] builds from a markup, in the order it inserts
    them. The parser is a function of the markup: the places the plugin
    inserts at (a preview section, the parent of a heading) are taken to be
    flow content, where the parser does not depend on the element around. A
    markup whose values hold tags can give any number of elements, with the
    marker class or without. *)
Record Host : Type := {
  commands : option (gmap string Command);
  activeFile : option string;
  activeView : option nat;
  document : list node;
  frontmatter : gmap string props;
  vault : gmap string string;
  readError : option string;
  writeError : option string;
  parseHTML : string -> list node
}.

(** The fields of [MyPlugin]. *)
Record Plugin : Type := {
  settings : Settings;
  currentFile : option string;
  originalPrintCallback : option callbackRef;
  isPrintPatched : bool;
  fileBackups : gmap string string
}.

(** [console.error] with the message and the error; the [console.log] lines of
    the source are not kept. *)
Inductive logEntry : Type :=
| LogError (msg : string) (e : string).

(** The world: the host, the plugin, the console, and the callbacks called so
    far, in order (a record kept for the properties, not a field of the
    source). *)
Record World : Type := {
  host : Host;
  plugin : Plugin;
  console : list logEntry;
  calls : list callbackRef
}.

Definition withHost (h : Host) (w : World) : World :=
  {| host := h; plugin := plugin w; console := console w; calls := calls w |}.
Definition withPlugin (p : Plugin) (w : World) : World :=
  {| host := host w; plugin := p; console := console w; calls := calls w |}.

Definition setDocument (d : list node) (w : World) : World :=
  let h := host w in
  withHost {| commands := commands h; activeFile := activeFile h; activeView := activeView h;
              document := d; frontmatter := frontmatter h; vault := vault h;
              readError := readError h; writeError := writeError h;
              parseHTML := parseHTML h |} w.

Definition setVault (v : gmap string string) (w : World) : World :=
  let h := host w in
  withHost {| commands := commands h; activeFile := activeFile h; activeView := activeView h;
              document := document h; frontmatter := frontmatter h; vault := v;
              readError := readError h; writeError := writeError h;
              parseHTML := parseHTML h |} w.

Definition setCommands (c : option (gmap string Command)) (w : World) : World :=
  let h := host w in
  withHost {| commands := c; activeFile := activeFile h; activeView := activeView h;
              document := document h; frontmatter := frontmatter h; vault := vault h;
              readError := readError h; writeError := writeError h;
              parseHTML := parseHTML h |} w.

Definition setBackups (b : gmap string string) (w : World) : World :=
  let p := plugin w in
  withPlugin {| settings := settings p; currentFile := currentFile p;
                originalPrintCallback := originalPrintCallback p;
                isPrintPatched := isPrintPatched p; fileBackups := b |} w.

Definition setCurrentFile (f : option string) (w : World) : World :=
  let p := plugin w in
  withPlugin {| settings := settings p; currentFile := f;
                originalPrintCallback := originalPrintCallback p;
                isPrintPatched := isPrintPatched p; fileBackups := fileBackups p |} w.

Definition setPrintPatch (orig : option callbackRef) (w : World) : World :=
  let p := plugin w in
  withPlugin {| settings := settings p; currentFile := currentFile p;
                originalPrintCallback := orig;
                isPrintPatched := true; fileBackups := fileBackups p |} w.

(** *** Effects: the state of the world, and an exception or none *)

Inductive outcome (A : Type) : Type :=
| Ok (a : A)
| Throw (e : string)
| Diverge.
Arguments Ok {A} a.
Arguments Throw {A} e.
Arguments Diverge {A}.

Definition M (A : Type) : Type := World -> outcome A * World.

#[global] Instance M_ret : MRet M := fun A a w => (Ok a, w).
#[global] Instance M_bind : MBind M := fun A B f m w =>
  match m w with
  | (Ok a, w') => f a w'
  | (Throw e, w') => (Throw e, w')
  | (Diverge, w') => (Diverge, w')
  end.

Definition throw {A : Type} (e : string) : M A := fun w => (Throw e, w).

(** [try { m } catch (e) { h e }] *)
Definition tryCatch {A : Type} (m : M A) (h : string -> M A) : M A := fun w =>
  match m w with
  | (Throw e, w') => h e w'
  | r => r
  end.

(** [try { m } finally { f }]: [f] runs after [m] has returned or thrown, and
    an exception of [f] takes the place of the result of [m]. *)
Definition tryFinally {A : Type} (m : M A) (f : M unit) : M A := fun w =>
  match m w with
  | (Diverge, w') => (Diverge, w')
  | (r, w') =>
      match f w' with
      | (Ok _, w'') => (r, w'')
      | (Throw e, w'') => (Throw e, w'')
      | (Diverge, w'') => (Diverge, w'')
      end
  end.

Definition consoleError (msg e : string) : M unit := fun w =>
  (Ok tt, {| host := host w; plugin := plugin w;
             console := console w ++ [LogError msg e]; calls := calls w |}).

(** [this.fileBackups[path] = text] and [delete this.fileBackups[path]] *)
Definition storeBackup (path text : string) : M unit := fun w =>
  (Ok tt, setBackups (<[path := text]> (fileBackups (plugin w))) w).

Definition deleteBackup (path : string) : M unit := fun w =>
  (Ok tt, setBackups (delete path (fileBackups (plugin w))) w).

(** [app.vault.read(file)] *)
Definition vaultRead (path : string) : M string := fun w =>
  match readError (host w) with
  | Some e => (Throw e, w)
  | None =>
      match vault (host w) !! path with
      | Some text => (Ok text, w)
      | None => (Throw "ENOENT", w)
      end
  end.

(** [app.vault.modify(file, text)] *)
Definition vaultModify (path text : string) : M unit := fun w =>
  match writeError (host w) with
  | Some e => (Throw e, w)
  | None => (Ok tt, setVault (<[path := text]> (vault (host w))) w)
  end.

(** ** The temporary patch of the file *)

(** The line terminators of one byte, line feed and carriage return, and
    those of three bytes, U+2028 and U+2029. *)
Definition isLineTerminator (c : ascii) : bool :=
  Ascii.eqb c "010"%char || Ascii.eqb c "013"%char.

Definition isLineTerminator3 (a b c : ascii) : bool :=
  Nat.eqb (nat_of_ascii a) 226 && Nat.eqb (nat_of_ascii b) 128
  && (Nat.eqb (nat_of_ascii c) 168 || Nat.eqb (nat_of_ascii c) 169).

(** The start of the text or the place after a line terminator: where [^]
    matches under the flag [m]. *)
Definition lineStart (pre : string) : bool :=
  match rev (list_ascii_of_string pre) with
  | [] => true
  | c :: before =>
      isLineTerminator c
      || match before with
         | b :: a :: _ => isLineTerminator3 a b c
         | _ => false
         end
  end.

(** [original.search(/^#\s/m)] in [s], the text [before] already passed: the
    result is a position in the whole text. *)
Fixpoint searchHeadingFrom (before s : string) : option nat :=
  match s with
  | EmptyString => None
  | String c r =>
      if lineStart before && Ascii.eqb c "#"%char && startsWithSpace r
      then Some (String.length before)
      else searchHeadingFrom (before +:+ String c EmptyString) r
  end.

Definition searchHeading (s : string) : option nat :=
  searchHeadingFrom EmptyString s.

(** [s.indexOf('\n', from)] *)
Fixpoint indexOfNl (from : nat) (s : string) : option nat :=
  match s with
  | EmptyString => None
  | String c r =>
      match from with
      | O => if Ascii.eqb c "010"%char then Some 0
             else option_map S (indexOfNl 0 r)
      | S from' => option_map S (indexOfNl from' r)
      end
  end.

(** The content [patchFileForExport] writes. *)
Definition patchedContent (s : Settings) (md original : string) : string :=
  if insertAfterHeading s then
    match searchHeading original with
    | Some idx =>
        match indexOfNl idx original with
        | None => original +:+ nl +:+ md
        | Some endOfLine =>
            String.substring 0 (endOfLine + 1) original +:+ md
            +:+ drop_str (endOfLine + 1) original
        end
    | None => md +:+ original
    end
  else md +:+ original.

(** [patchFileForExport]: the properties are filtered in a copy of [p]. *)
Definition patchFileForExport (file : string) (p : props) : M unit := fun w =>
  match snd (getPropertiesMarkdown (settings (plugin w)) p) with
  | None => (Ok tt, w)
  | Some md =>
      tryCatch
        (original ← vaultRead file;
         storeBackup file original ;;
         vaultModify file (patchedContent (settings (plugin w)) md original))
        (fun e =>
           consoleError "Properties-on-export: error patching file for export" e ;;
           deleteBackup file ;;
           throw e) w
  end.

(** ** Injection and removal *)

(** [injectRenderedProperties], for a frontmatter whose values [String]
    prints (see [printable]: for another one [String] throws in
    [valueToHtml], before anything is touched). The document is taken to be
    accessible: a query of it returns, so the [catch] around the search for
    an existing block has nothing to catch. *)
Definition injectRenderedProperties : M unit := fun w =>
  match currentFile (plugin w) with
  | None => (Ok tt, w)
  | Some file =>
  match frontmatter (host w) !! file with
  | None => (Ok tt, w)
  | Some fm =>
  if negb (displayProperties (settings (plugin w))) then (Ok tt, w) else
  match getPropertiesHtml (settings (plugin w)) (deleteKey "position" fm) with
  | (_, None) => (Ok tt, w)
  | (p, Some html) =>
  match activeView (host w) with
  | None => (Ok tt, w)
  | Some view =>
      let doc := document (host w) in
      let inView := querySelector isSection (childrenOf view doc) in
      let topSection :=
        match inView with
        | Some t => Some t
        | None => querySelector isSection doc
        end in
      match topSection with
      | None =>
          tryCatch (patchFileForExport file p)
            (consoleError "Properties-on-export: failed to patch file for export") w
      | Some _ =>
          match querySelector isBlock doc with
          | Some _ => (Ok tt, w)
          | None =>
              let frag := parseHTML (host w) html in
              let place := rewriteFirst isSection (placeBlock (settings (plugin w)) frag) in
              let doc' :=
                match inView with
                | Some _ => rewriteWithin view place doc
                | None => place doc
                end in
              (Ok tt, setDocument (default doc doc') w)
          end
      end
  end end end end.

(** The restore step of [removeInjectedProperties]. The test of the backup
    is a test of its text: an empty text counts as no backup. *)
Definition restoreBackup : M unit := fun w =>
  match activeFile (host w) with
  | None => (Ok tt, w)
  | Some active =>
      match fileBackups (plugin w) !! active with
      | None => (Ok tt, w)
      | Some original =>
          if nonEmpty original then
            (vaultModify active original ;; deleteBackup active) w
          else (Ok tt, w)
      end
  end.

(** [removeInjectedProperties] *)
Definition removeInjectedProperties : M unit := fun w =>
  match activeView (host w) with
  | None => (Ok tt, w)
  | Some view =>
      let doc := document (host w) in
      match rewriteWithin view removeFirstBlock doc with
      | Some doc' => (Ok tt, setDocument doc' w)
      | None =>
          let w := match removeFirstBlock doc with
                   | Some doc' => setDocument doc' w
                   | None => w
                   end in
          tryCatch restoreBackup
            (consoleError "Properties-on-export: failed to restore original file after export") w
      end
  end.

(** ** The command table: [onload] and [onunload] *)

(** [command.callback = cb] on the command registered under [id]. *)
Definition setCallback (id : string) (cb : callbackRef) (cmds : gmap string Command)
  : gmap string Command :=
  alter (fun c => {| cmdName := cmdName c; callback := Some cb |}) id cmds.

(** [if (printCommand && !this.isPrintPatched) { ... }], with [cmds] the table
    read at the start of [onload]. *)
Definition patchPrint (cmds : gmap string Command) (w : World) : World :=
  match cmds !! "editor:print" with
  | Some printCommand =>
      if negb (isPrintPatched (plugin w)) then
        setCommands (Some (setCallback "editor:print" PrintWrapper cmds))
          (setPrintPatch (callback printCommand) w)
      else w
  | None => w
  end.

(** [if (exportPdfCommand) { ... }] and [if (appExportPdf) { ... }] *)
Definition patchExport (cmds : gmap string Command) (id : string) (w : World) : World :=
  match cmds !! id with
  | Some _ => setCommands (setCallback id (ExportWrapper id) <$> commands (host w)) w
  | None => w
  end.

(** The part of [onload] that tracks the file and patches the commands; the
    settings are those already loaded. The three commands are taken to be three
    objects. *)
Definition onload (w : World) : World :=
  let w := setCurrentFile (activeFile (host w)) w in
  match commands (host w) with
  | None => w
  | Some cmds =>
      patchExport cmds "app:export-pdf" (patchExport cmds "export-pdf" (patchPrint cmds w))
  end.

Definition onunload (w : World) : World :=
  match commands (host w) with
  | None => w
  | Some cmds =>
      match cmds !! "editor:print" with
      | Some _ =>
          if isPrintPatched (plugin w) then
            match originalPrintCallback (plugin w) with
            | Some orig => setCommands (Some (setCallback "editor:print" orig cmds)) w
            | None => w
            end
          else w
      | None => w
      end
  end.

(** ** The intercepted commands *)

Section Callbacks.

(** The functions of the host, by reference: what a call does to the host
    and what it returns or throws. *)
Variable host_run : nat -> list value -> Host -> outcome value * Host.

Definition callHost (n : nat) (args : list value) : M value := fun w =>
  let '(r, h) := host_run n args (host w) in (r, withHost h w).

Definition recordCall (cb : callbackRef) : M unit := fun w =>
  (Ok tt, {| host := host w; plugin := plugin w; console := console w;
             calls := calls w ++ [cb] |}).

(** [this.originalPrintCallback.apply(command, args)] when there is one. *)
Definition applyOriginal (call : callbackRef -> list value -> M value)
  (args : list value) : M value := fun w =>
  match originalPrintCallback (plugin w) with
  | Some orig => call orig args w
  | None => (Ok VUndefined, w)
  end.

(** The callback put on [editor:print]. *)
Definition printCallback (call : callbackRef -> list value -> M value)
  (args : list value) : M value :=
  tryCatch injectRenderedProperties
    (consoleError "Error injecting properties before print") ;;
  tryFinally (applyOriginal call args)
    (tryCatch removeInjectedProperties
       (consoleError "Error removing injected properties after print")).

(** The callback put on [export-pdf] and on [app:export-pdf]. *)
Definition exportCallback (id : string) (call : callbackRef -> list value -> M value)
  (args : list value) : M value :=
  tryCatch injectRenderedProperties (consoleError ("inject before " +:+ id)) ;;
  tryFinally (applyOriginal call args ;; mret tt)
    (tryCatch removeInjectedProperties (consoleError ("remove after " +:+ id))) ;;
  mret VUndefined.

(** A call of a callback of the table. A closure of the plugin that finds
    itself as the saved original would call itself without end: the fuel
    bounds the depth of such calls, and a host function needs none. *)
Fixpoint invoke (fuel : nat) (cb : callbackRef) (args : list value) : M value :=
  recordCall cb ;;
  match cb with
  | HostFn n => callHost n args
  | PrintWrapper =>
      match fuel with
      | O => fun w => (Diverge, w)
      | S fuel' => printCallback (invoke fuel') args
      end
  | ExportWrapper id =>
      match fuel with
      | O => fun w => (Diverge, w)
      | S fuel' => exportCallback id (invoke fuel') args
      end
  end.

(** The listeners of [beforeprint] and [afterprint]. *)
Definition beforeprint : M unit :=
  tryCatch injectRenderedProperties
    (consoleError "Error injecting properties during beforeprint").

Definition afterprint : M unit :=
  tryCatch removeInjectedProperties
    (consoleError "Error removing properties during afterprint").

End Callbacks.

(** ** The second program of [src/main.ts] *)

Module Luxon.

Record PluginSettings : Type := {
  displayProperties : bool;
  dateFormat : string;
  excludedProperties : string;
  addPropertiesBlockAfterHeading : bool
}.

Definition DEFAULT_SETTINGS : PluginSettings :=
  {| displayProperties := true; dateFormat := "yyyy-MM-dd";
     excludedProperties := EmptyString; addPropertiesBlockAfterHeading := false |}.

(** [isDateValue]:
    [/^\d{4}-\d{2}-\d{2}(T\d{2}:\d{2}(:\d{2}(\.\d+)?)?(Z|([+-]\d{2}:\d{2}))?)?$/] *)
Definition zoneOrEnd (s : string) : bool :=
  match s with
  | EmptyString => true
  | String c r =>
      if Ascii.eqb c "Z"%char then negb (nonEmpty r)
      else if Ascii.eqb c "+"%char || Ascii.eqb c "-"%char then
        match ('(_, r) ← digits 2 r; r ← lit ":"%char r; digits 2 r) with
        | Some (_, EmptyString) => true
        | _ => false
        end
      else false
  end.

Definition secondsThenZone (s : string) : bool :=
  match ('(_, r) ← (lit ":"%char s ≫= digits 2); Some r) with
  | Some r =>
      match lit "."%char r with
      | Some f =>
          let '(ds, rest) := span isDigit f in
          if nonEmpty ds then zoneOrEnd rest else zoneOrEnd r
      | None => zoneOrEnd r
      end
  | None => zoneOrEnd s
  end.

Definition isDateString (s : string) : bool :=
  match ('(_, s) ← digits 4 s; s ← lit "-"%char s;
         '(_, s) ← digits 2 s; s ← lit "-"%char s;
         '(_, s) ← digits 2 s; Some s) with
  | Some EmptyString => true
  | Some rest =>
      match ('(_, r) ← (lit "T"%char rest ≫= digits 2);
             '(_, r) ← (lit ":"%char r ≫= digits 2); Some r) with
      | Some r => secondsThenZone r
      | None => false
      end
  | None => false
  end.

Definition isDateValue (v : value) : bool :=
  match v with VStr s => isDateString s | _ => false end.

(** [escapeHtml] of this program: the same five characters. *)
Definition escapeHtml : string -> string := escapeHtml.

(** The wikilink expression [/\[\[([^\]|]+)(\|([^\]]+))?\]\]/g]: the link,
    the display text when there is one, and what follows the match. *)
Definition notCloseNorPipe (c : ascii) : bool :=
  negb (Ascii.eqb c "]"%char) && negb (Ascii.eqb c "|"%char).

Definition wikiMatch (s : string) : option (string * option string * string) :=
  if startsWith "[[" s then
    let '(link, rest) := span notCloseNorPipe (drop_str 2 s) in
    if nonEmpty link then
      if startsWith "]]" rest then Some (link, None, drop_str 2 rest)
      else if startsWith "|" rest then
        let '(display, rest') := span notClose (drop_str 1 rest) in
        if nonEmpty display && startsWith "]]" rest'
        then Some (link, Some display, drop_str 2 rest')
        else None
      else None
    else None
  else None.

Definition wikiAnchor (link : string) (display : option string) : string :=
  "<a href=" +:+ dq +:+ "#" +:+ escapeHtml link +:+ dq +:+ " class=" +:+ dq
  +:+ "internal-link" +:+ dq +:+ ">" +:+ escapeHtml (default link display) +:+ "</a>".

Fixpoint replaceWiki (fuel : nat) (s : string) : string :=
  match fuel with
  | O => s
  | S fuel' =>
      match wikiMatch s with
      | Some (link, display, rest) => wikiAnchor link display +:+ replaceWiki fuel' rest
      | None =>
          match s with
          | EmptyString => EmptyString
          | String c r => String c (replaceWiki fuel' r)
          end
      end
  end.

(** A match of [/(<a [^>]+>[^<]*<\/a>)/] at the head of [s]: the anchor and
    what follows it. *)
Definition anchorMatch (s : string) : option (string * string) :=
  if startsWith "<a " s then
    let '(attrs, rest) := span (fun c => negb (Ascii.eqb c ">"%char)) (drop_str 3 s) in
    if nonEmpty attrs && startsWith ">" rest then
      let '(text, rest') := span (fun c => negb (Ascii.eqb c "<"%char)) (drop_str 1 rest) in
      if startsWith "</a>" rest'
      then Some ("<a " +:+ attrs +:+ ">" +:+ text +:+ "</a>", drop_str 4 rest')
      else None
    else None
  else None.

(** [str.split(/(<a [^>]+>[^<]*<\/a>)/g)]: the pieces between the anchors and
    the anchors themselves, in order. [acc] is the piece being read, in
    reverse. *)
Fixpoint splitAnchors (fuel : nat) (acc : string) (s : string) : list string :=
  match fuel with
  | O => [acc +:+ s]
  | S fuel' =>
      match s with
      | EmptyString => [acc]
      | String c r =>
          match anchorMatch s with
          | Some (a, rest) => acc :: a :: splitAnchors fuel' EmptyString rest
          | None => splitAnchors fuel' (acc +:+ String c EmptyString) r
          end
      end
  end.

Section Formatter.

(** Two functions of the platform: [JSON.stringify], and Luxon's
    [DateTime.fromISO(iso).toFormat(fmt)], which gives nothing when the
    date is not valid or the call throws. *)
Variable stringify : value -> string.
Variable luxonFormat : string -> string -> option string.
Variable st : PluginSettings.

Definition isObject (v : value) : bool :=
  match v with VObj _ => true | _ => false end.

(** What [valueToHtml] does with a value that is not an array. *)
Definition scalarToHtml (v : value) : string :=
  let formatted :=
    if isDateValue v then luxonFormat (toStr v) (dateFormat st) else None in
  match formatted with
  | Some d => escapeHtml d
  | None =>
      if isObject v then escapeHtml (stringify v)
      else
        let str := toStr v in
        let str := replaceWiki (String.length str) str in
        str_concat
          (map (fun part => if startsWith "<a " part then part else escapeHtml part)
             (splitAnchors (S (String.length str)) EmptyString str))
  end.

Fixpoint valueToHtml (v : value) : string :=
  match v with
  | VArr items => join ", " (map valueToHtml items)
  | _ => scalarToHtml v
  end.

(** [excludedProperties.split(',').map(s => s.trim()).filter(Boolean)] *)
Definition excluded : list string :=
  List.filter nonEmpty (map trim (split_comma (excludedProperties st))).

(** The entries the post-processor keeps. *)
Definition keptEntries (fm : props) : props :=
  List.filter
    (fun kv => negb (String.eqb (fst kv) "tags")
               && negb (existsb (String.eqb (fst kv)) excluded)) fm.

Definition rowHtml (kv : string * value) : string :=
  let displayValue :=
    match snd kv with VNull | VUndefined => VStr EmptyString | v => v end in
  "<tr><td style=" +:+ dq +:+ "border:1px solid #000;padding:4px 8px;" +:+ dq
  +:+ "><strong>" +:+ escapeHtml (fst kv) +:+ "</strong></td><td style=" +:+ dq
  +:+ "border:1px solid #000;padding:4px 8px;" +:+ dq +:+ ">"
  +:+ valueToHtml displayValue +:+ "</td></tr>".

(** The table the post-processor puts in its block, or nothing. *)
Definition propertiesTable (fm : props) : option string :=
  let rows := str_concat (map rowHtml (keptEntries fm)) in
  if nonEmpty rows
  then Some ("<table style=" +:+ dq +:+ "border-collapse:collapse;margin-bottom:1em;"
             +:+ dq +:+ "><tbody>" +:+ rows +:+ "</tbody></table>")
  else None.

End Formatter.

End Luxon.

(** ** Notions used by the properties *)

(** Induction on a tree with the property known of the children. *)
Section NodeInduction.

Variable P : node -> Prop.
Hypothesis P_block : forall html, P (Block html).
Hypothesis P_elem : forall r t c ks, Forall P ks -> P (Elem r t c ks).

Fixpoint node_forest_ind (n : node) : P n :=
  match n with
  | Block html => P_block html
  | Elem r t c ks =>
      P_elem r t c ks
        ((fix go (l : list node) : Forall P l :=
            match l with
            | [] => @List.Forall_nil node P
            | k :: l' => @List.Forall_cons node P k l' (node_forest_ind k) (go l')
            end) ks)
  end.

End NodeInduction.

(** A selector looks at the element, not at its children. *)
Definition shallow (q : node -> bool) : Prop :=
  forall r t c ks ks', q (Elem r t c ks) = q (Elem r t c ks').

(** There is a fragment to inject and a place to put it. *)
Definition canInject (w : World) : Prop :=
  exists file fm,
    currentFile (plugin w) = Some file
    /\ frontmatter (host w) !! file = Some fm
    /\ displayProperties (settings (plugin w)) = true
    /\ is_Some (snd (getPropertiesHtml (settings (plugin w)) (deleteKey "position" fm)))
    /\ is_Some (activeView (host w))
    /\ is_Some (querySelector isSection (document (host w))).

Ltac unfold_effects :=
  unfold tryCatch, tryFinally, vaultRead, vaultModify, storeBackup, deleteBackup,
    consoleError, throw, mbind, mret, M_bind, M_ret in *.

(** The number of blocks in the document of a world. *)
Definition blocksOf (w : World) : nat := countBlocks (document (host w)).

(** The two operations, and a run of several of them. *)
Inductive operation : Type := Inject | Remove.

Definition perform (o : operation) : M unit :=
  match o with
  | Inject => injectRenderedProperties
  | Remove => removeInjectedProperties
  end.

Fixpoint performAll (ops : list operation) (w : World) : World :=
  match ops with
  | [] => w
  | o :: rest => performAll rest (snd (perform o w))
  end.

(** ** A note to print: the worlds of the examples *)

Definition reportFrontmatter : props :=
  [("title", VStr "Report"); ("position", VObj []); ("tags", VArr [VStr "x"; VStr "y"])].

Definition reportText : string :=
  "intro" +:+ nl +:+ "# Head" +:+ nl +:+ "body".

(** A preview of the note in the active view. *)
Definition previewDocument : list node :=
  [Elem 0 "html" []
     [Elem 1 "body" []
        [Elem 2 "div" ["view-content"]
           [Elem 3 "div" ["markdown-preview-section"]
              [Elem 4 "p" [] []; Elem 5 "h1" [] []; Elem 6 "p" [] []]]]]].

(** The same view with nothing rendered in it. *)
Definition emptyDocument : list node :=
  [Elem 0 "html" [] [Elem 1 "body" [] [Elem 2 "div" ["view-content"] []]]].

Definition reportCommands : gmap string Command :=
  <["editor:print" := {| cmdName := "Print"; callback := Some (HostFn 0) |}]>
    (<["export-pdf" := {| cmdName := "Export to PDF"; callback := Some (HostFn 1) |}]> ∅).

Definition reportHost (doc : list node) (text : string) (werr : option string) : Host :=
  {| commands := Some reportCommands;
     activeFile := Some "report.md"; activeView := Some 2; document := doc;
     frontmatter := <["report.md" := reportFrontmatter]> ∅;
     vault := <["report.md" := text]> ∅;
     readError := None; writeError := werr;
     parseHTML := fun html => [Block html] |}.

Definition reportPlugin (after : bool) (backups : gmap string string) : Plugin :=
  {| settings := {| displayProperties := true; omittedProperties := "tags";
                    insertAfterHeading := after |};
     currentFile := Some "report.md"; originalPrintCallback := None;
     isPrintPatched := false; fileBackups := backups |}.

Definition reportWorld (doc : list node) (text : string) : World :=
  {| host := reportHost doc text None; plugin := reportPlugin true ∅;
     console := []; calls := [] |}.

(** Two stand-ins for the functions of the platform in the examples:
    [JSON.stringify] on the empty object, and Luxon with the format
    [yyyy-MM-dd] on a date that starts with its ten characters. *)
Definition stringifyEmpty (v : value) : string := "{}".

Definition luxonIsoDate (iso fmt : string) : option string :=
  Some (String.substring 0 10 iso).

(** ** Reading a hyperlink *)

(** For a string that is one [a] element: its attributes and its text. *)
Definition anchorParts (s : string) : option (string * string) :=
  if startsWith "<a " s then
    let '(attrs, rest) := span (fun c => negb (Ascii.eqb c ">"%char)) (drop_str 3 s) in
    match rest with
    | String _ rest1 =>
        let '(text, rest2) := span (fun c => negb (Ascii.eqb c "<"%char)) rest1 in
        if String.eqb rest2 "</a>" then Some (attrs, text) else None
    | EmptyString => None
    end
  else None.

(** The value of the attribute [name] in a list of attributes. *)
Fixpoint attrValue (name : string) (attrs : string) : option string :=
  match attrs with
  | EmptyString => None
  | String _ r =>
      if startsWith (name +:+ "=" +:+ dq) attrs
      then Some (fst (span (fun c => negb (Ascii.eqb c "034"%char))
                        (drop_str (String.length name + 2) attrs)))
      else attrValue name r
  end.

Definition linkText (s : string) : option string := snd <$> anchorParts s.

Definition linkHref (s : string) : option string :=
  anchorParts s ≫= fun parts => attrValue "href" (fst parts).

(** A text without an opening bracket. *)
Fixpoint noBracket (s : string) : bool :=
  match s with
  | EmptyString => true
  | String c r => negb (Ascii.eqb c "["%char) && noBracket r
  end.


(** The note after a patch of its file, the backup still there, in a vault
    that rejects the next write or not. *)
Definition patchedWorld (werr : option string) : World :=
  {| host := reportHost emptyDocument
               (markdownOf [("title", VStr "Report")] +:+ reportText) werr;
     plugin := reportPlugin false (<["report.md" := reportText]> ∅);
     console := []; calls := [] |}.

(** The callbacks [onload] puts in the table. *)
Definition isIntercepted (cb : callbackRef) : Prop :=
  cb = PrintWrapper \/ exists id, cb = ExportWrapper id.

(** A host whose function 0 (the print action of the examples) throws, and
    whose other functions return. *)
Definition failingPrint (n : nat) (args : list value) (h : Host) : outcome value * Host :=
  match n with
  | O => (Throw "print failed", h)
  | S _ => (Ok (VNum 1), h)
  end.

(** What a command gives back to its caller for what the original gave: the
    print command hands the result on, the export commands return nothing. *)
Definition exportResult (r : outcome value) : outcome value :=
  match r with
  | Ok _ => Ok VUndefined
  | Throw e => Throw e
  | Diverge => Diverge
  end.

(** ** Notions used by the further properties *)

(** Every character of a text satisfies [p]. *)
Fixpoint allChars (p : ascii -> bool) (s : string) : bool :=
  match s with
  | EmptyString => true
  | String c r => p c && allChars p r
  end.

(** The characters [escapeHtml] replaces, and those of them that open or close
    a tag or an attribute value. *)
Definition isMeta (c : ascii) : bool :=
  Ascii.eqb c "&"%char || Ascii.eqb c "<"%char || Ascii.eqb c ">"%char
  || Ascii.eqb c "034"%char || Ascii.eqb c "'"%char.

Definition isAngleOrQuote (c : ascii) : bool :=
  Ascii.eqb c "<"%char || Ascii.eqb c ">"%char
  || Ascii.eqb c "034"%char || Ascii.eqb c "'"%char.

(** [n] digits. *)
Definition digitsOf (n : nat) (s : string) : Prop :=
  String.length s = n /\ allChars isDigit s = true.

(** The hour and the suffix [valueToHtml] of [part_000] prints for the two
    digits [hh]. *)
Definition hour12 (hh : string) : string :=
  let h := parseInt hh mod 12 in padStart2 (if Nat.eqb h 0 then 12 else h).

Definition ampm (hh : string) : string :=
  if Nat.leb 12 (parseInt hh) then "PM" else "AM".

(** The characters a text must be made of for the expression of the date to
    match it. *)
Definition isDateChar (c : ascii) : bool :=
  isDigit c || Ascii.eqb c "-"%char || Ascii.eqb c "T"%char || Ascii.eqb c " "%char
  || Ascii.eqb c ":"%char.

(** The attributes of the hyperlink [valueToHtml] of [part_000] writes. *)
Definition wikiAttrs : string :=
  "class=" +:+ dq +:+ "internal-link" +:+ dq +:+ " href=" +:+ dq +:+ "#" +:+ dq
  +:+ " style=" +:+ dq
  +:+ "color:var(--text-accent, #388bfd);text-decoration:underline;" +:+ dq.

(** A text without a comma. *)
Definition noComma (s : string) : bool :=
  allChars (fun c => negb (Ascii.eqb c ","%char)) s.

(** The name a piece of the setting stands for, if any. *)
Definition pieceName (piece : string) : list string :=
  if nonEmpty (trim piece) then [trim piece] else [].

(** ** The markdown post-processor of [part_000] *)

(** The outcome of a walk up from an element: the element is not in the tree,
    it is there with no match among itself and its ancestors inside the tree,
    or the nearest match has been rewritten. *)
Inductive search : Type :=
| Absent
| Unmatched
| Rewritten (ns : list node).

Definition first_found (g : node -> search) : list node -> search :=
  fix go (l : list node) : search :=
    match l with
    | [] => Absent
    | x :: rest =>
        match g x with
        | Absent =>
            match go rest with
            | Rewritten rest' => Rewritten (x :: rest')
            | r => r
            end
        | Unmatched => Unmatched
        | Rewritten xs => Rewritten (xs ++ rest)
        end
    end.

(** [el.closest(selector)] followed by a change of the element found: [el] is
    the first element with the reference, the match is [el] itself or the
    nearest of its ancestors. *)
Fixpoint closestNode (el : nat) (p : node -> bool) (f : node -> list node) (n : node)
  : search :=
  if hasRef el n then (if p n then Rewritten (f n) else Unmatched)
  else match n with
       | Elem r t c ks =>
           match first_found (closestNode el p f) ks with
           | Absent => Absent
           | Unmatched => if p n then Rewritten (f n) else Unmatched
           | Rewritten ks' => Rewritten [Elem r t c ks']
           end
       | Block _ => Absent
       end.

Definition rewriteClosest (el : nat) (p : node -> bool) (f : node -> list node)
  (doc : list node) : option (list node) :=
  match first_found (closestNode el p f) doc with
  | Rewritten doc' => Some doc'
  | _ => None
  end.

(** [el.closest(selector)] is not null. *)
Definition hasClosest (el : nat) (p : node -> bool) (doc : list node) : bool :=
  match rewriteClosest el p (fun n => [n]) doc with
  | Some _ => true
  | None => false
  end.

(** The callback given to [registerMarkdownPostProcessor], for an element of
    the document ([el.ownerDocument] is the document): the element is given by
    its reference, and an element that is not in the document has no ancestor
    in it. The body fallback of the source stands after a return on the same
    test and is never reached. *)
Definition postProcessor (sourcePath : option string) (el : nat) : M unit := fun w =>
  match sourcePath with
  | None => (Ok tt, w)
  | Some path =>
  if negb (nonEmpty path) then (Ok tt, w) else
  match vault (host w) !! path with
  | None => (Ok tt, w)
  | Some _ =>
  match frontmatter (host w) !! path with
  | None => (Ok tt, w)
  | Some fm =>
  if negb (displayProperties (settings (plugin w))) then (Ok tt, w) else
  let doc := document (host w) in
  let near := hasClosest el isSection doc in
  let topSection :=
    if near then true
    else match querySelector isSection doc with Some _ => true | None => false end in
  if negb topSection then (Ok tt, w) else
  match querySelector isBlock doc with
  | Some _ => (Ok tt, w)
  | None =>
  match getPropertiesHtml (settings (plugin w)) (deleteKey "position" fm) with
  | (_, None) => (Ok tt, w)
  | (_, Some html) =>
      let place := placeBlock (settings (plugin w)) (parseHTML (host w) html) in
      let doc' :=
        if near then rewriteClosest el isSection (fun t => default [t] (place t)) doc
        else rewriteFirst isSection place doc in
      (Ok tt, setDocument (default doc doc') w)
  end end end end end.

(** What happens around a note: the commands run the two operations, the
    renderer calls the post-processor. *)
Inductive event : Type :=
| Operation (o : operation)
| Rendered (sourcePath : option string) (el : nat).

Definition handle (e : event) : M unit :=
  match e with
  | Operation o => perform o
  | Rendered sourcePath el => postProcessor sourcePath el
  end.

Fixpoint handleAll (evs : list event) (w : World) : World :=
  match evs with
  | [] => w
  | e :: rest => handleAll rest (snd (handle e w))
  end.

(** Two walks that end the same way, whatever they put in the place of the
    match. *)
Definition sameShape (a b : search) : Prop :=
  match a, b with
  | Absent, Absent => True
  | Unmatched, Unmatched => True
  | Rewritten _, Rewritten _ => True
  | _, _ => False
  end.

(** The post-processor has a fragment to place and a place for it. *)
Definition canProcess (path : string) (w : World) : Prop :=
  nonEmpty path = true
  /\ is_Some (vault (host w) !! path)
  /\ (exists fm, frontmatter (host w) !! path = Some fm
        /\ is_Some (snd (getPropertiesHtml (settings (plugin w))
                           (deleteKey "position" fm))))
  /\ displayProperties (settings (plugin w)) = true
  /\ is_Some (querySelector isSection (document (host w))).

(** ** Texts for the formatter of the second program of [main.ts] *)

(** A text in which the expression of the anchors matches nowhere. *)
Fixpoint noAnchor (s : string) : bool :=
  match s with
  | EmptyString => true
  | String c r =>
      match Luxon.anchorMatch (String c r) with
      | Some _ => false
      | None => noAnchor r
      end
  end.

(** A text without [<]. *)
Definition noLt (s : string) : bool :=
  allChars (fun c => negb (Ascii.eqb c "<"%char)) s.

(** The characters a text must be made of for [isDateValue] to accept it. *)
Definition isIsoChar (c : ascii) : bool :=
  isDigit c || Ascii.eqb c "-"%char || Ascii.eqb c "T"%char || Ascii.eqb c ":"%char
  || Ascii.eqb c "."%char || Ascii.eqb c "Z"%char || Ascii.eqb c "+"%char.

(** A wikilink as it is written in a note, with or without a text to
    display. *)
Definition wikiSource (link : string) (display : option string) : string :=
  "[[" +:+ link
  +:+ match display with Some d => "|" +:+ d | None => EmptyString end
  +:+ "]]".

(** The attributes of the hyperlink the second program writes for [link]. *)
Definition luxonAttrs (link : string) : string :=
  "href=" +:+ dq +:+ "#" +:+ escapeHtml link +:+ dq +:+ " class=" +:+ dq
  +:+ "internal-link" +:+ dq.

(** ** The first program of [main.ts]: injection into the view only *)

Module Basic.

(** [if (container && !container.querySelector('.export-properties-block'))
    container.insertAdjacentHTML('afterbegin', html)] *)
Definition placeFirst (frag : list node) (container : node) : option (list node) :=
  match container with
  | Elem r t c ks =>
      match querySelector isBlock ks with
      | Some _ => None
      | None => Some [Elem r t c (frag ++ ks)]
      end
  | Block _ => None
  end.

Definition injectRenderedProperties : M unit := fun w =>
  match currentFile (plugin w) with
  | None => (Ok tt, w)
  | Some file =>
  match frontmatter (host w) !! file with
  | None => (Ok tt, w)
  | Some fm =>
  if negb (displayProperties (settings (plugin w))) then (Ok tt, w) else
  match getPropertiesHtml (settings (plugin w)) (deleteKey "position" fm) with
  | (_, None) => (Ok tt, w)
  | (_, Some html) =>
  match activeView (host w) with
  | None => (Ok tt, w)
  | Some view =>
      match rewriteWithin view
              (rewriteFirst isSection (placeFirst (parseHTML (host w) html)))
              (document (host w)) with
      | Some doc' => (Ok tt, setDocument doc' w)
      | None => (Ok tt, w)
      end
  end end end end.

Definition removeInjectedProperties : M unit := fun w =>
  match activeView (host w) with
  | None => (Ok tt, w)
  | Some view =>
      match rewriteWithin view removeFirstBlock (document (host w)) with
      | Some doc' => (Ok tt, setDocument doc' w)
      | None => (Ok tt, w)
      end
  end.

End Basic.

(** ** The post-processor of the second program of [main.ts] *)

Definition isContainer : node -> bool := hasClass "cm-contentContainer".

(** The selector [h1,h2,h3,h4,h5,h6]. *)
Definition isHeading (n : node) : bool :=
  existsb (fun t => hasTag t n) ["h1"; "h2"; "h3"; "h4"; "h5"; "h6"].

(** [parent.insertBefore(block, ref)] among the children [ks] of [parent],
    for [ref] the first match of [p] below [parent]: the insertion when [ref]
    is one of the children, nothing ([insertBefore] throws) when it lies
    deeper. *)
Fixpoint insertBeforeFirst (p : node -> bool) (block : node) (ks : list node)
  : option (list node) :=
  match ks with
  | [] => None
  | k :: rest =>
      if p k then Some (block :: k :: rest)
      else match queryNode p k with
           | Some _ => None
           | None =>
               match insertBeforeFirst p block rest with
               | Some rest' => Some (k :: rest')
               | None => None
               end
           end
  end.

(** [firstHeading.parentNode.insertBefore(block, firstHeading.nextSibling)]
    for the first heading below an element with children [ks]. *)
Definition insertAfterFirstHeading (block : node) (ks : list node) : option (list node) :=
  rewriteFirst isHeading (fun h => Some [h; block]) ks.

Section Processor.

Variable stringify : value -> string.
Variable luxonFormat : string -> string -> option string.
Variable st : Luxon.PluginSettings.

(** The callback given to [registerMarkdownPostProcessor], on the element it
    is called with: the element after the call, or the exception of
    [insertBefore]. [cache] gives the frontmatter of a file. *)
Definition luxonPostProcessor (currentFile activeFile : option string)
  (cache : gmap string props) (element : node) : outcome node :=
  if negb (hasClass "markdown-preview-view" element
           && hasClass "show-properties" element) then Ok element else
  if negb (Luxon.displayProperties st) then Ok element else
  match (match currentFile with Some f => Some f | None => activeFile end) with
  | None => Ok element
  | Some file =>
  match cache !! file with
  | None => Ok element
  | Some fm =>
  match Luxon.propertiesTable stringify luxonFormat st fm with
  | None => Ok element
  | Some table =>
  match element with
  | Block _ => Ok element
  | Elem r t c ks =>
      let block := Block table in
      let contentContainer := querySelector isContainer ks in
      let afterHeading :=
        if Luxon.addPropertiesBlockAfterHeading st then
          match contentContainer with
          | Some _ =>
              rewriteFirst isContainer
                (fun cnt => match cnt with
                            | Elem r' t' c' ks' =>
                                match insertAfterFirstHeading block ks' with
                                | Some ks'' => Some [Elem r' t' c' ks'']
                                | None => None
                                end
                            | Block _ => None
                            end) ks
          | None => insertAfterFirstHeading block ks
          end
        else None in
      match afterHeading with
      | Some ks' => Ok (Elem r t c ks')
      | None =>
          match contentContainer with
          | Some _ =>
              match insertBeforeFirst isContainer block ks with
              | Some ks' => Ok (Elem r t c ks')
              | None => Throw "NotFoundError"
              end
          | None => Ok (Elem r t c (block :: ks))
          end
      end
  end end end end.

(** The post-processor has a table to show in [element]. *)
Definition shows (currentFile activeFile : option string) (cache : gmap string props)
  (element : node) : Prop :=
  hasClass "markdown-preview-view" element = true
  /\ hasClass "show-properties" element = true
  /\ Luxon.displayProperties st = true
  /\ exists file fm,
       match currentFile with Some f => Some f | None => activeFile end = Some file
       /\ cache !! file = Some fm
       /\ is_Some (Luxon.propertiesTable stringify luxonFormat st fm).

End Processor.

(** A rendered note for the second program. *)
Definition renderedView (ks : list node) : node :=
  Elem 1 "div" ["markdown-preview-view"; "markdown-rendered"; "show-properties"] ks.

(** ** Notions for the markup the parser is given *)

(** The markup [injectRenderedProperties] has to show in [w]: the fragment of
    the current file, when it has frontmatter, the display is on and a
    property is left. *)
Definition fragmentHtml (w : World) : option string :=
  match currentFile (plugin w) with
  | None => None
  | Some file =>
      match frontmatter (host w) !! file with
      | None => None
      | Some fm =>
          if displayProperties (settings (plugin w))
          then snd (getPropertiesHtml (settings (plugin w)) (deleteKey "position" fm))
          else None
      end
  end.

(** What the parser builds from a fragment whose values hold no markup: one
    element, the [div] with the marker class, and no other element with that
    class inside it. *)
Definition oneMarker (frag : list node) : Prop :=
  exists b, frag = [b] /\ isBlock b = true /\ countNode isBlock b = 1.

(** The notes of [w] hold values that [String] prints, and every fragment the
    plugin can make of one of them is parsed into one marker element. *)
Definition tame (w : World) : Prop :=
  forall path fm,
    frontmatter (host w) !! path = Some fm ->
    (forall k v, In (k, v) fm -> printable v = true)
    /\ forall html,
         snd (getPropertiesHtml (settings (plugin w)) (deleteKey "position" fm))
         = Some html ->
         oneMarker (parseHTML (host w) html).

(** Two worlds with the same notes, settings and parser: they make the same
    fragments and parse them the same way. *)
Definition sameNotes (w w' : World) : Prop :=
  frontmatter (host w') = frontmatter (host w)
  /\ parseHTML (host w') = parseHTML (host w)
  /\ settings (plugin w') = settings (plugin w).

(** An element that carries the marker class and can hold other elements:
    a marker element that is not a [Block]. *)
Definition isMarkerElem (n : node) : bool :=
  match n with
  | Elem _ _ cls _ => existsb (String.eqb "export-properties-block") cls
  | Block _ => false
  end.

(** ** A note with markup in its values *)

(** A value that closes the cell, the row, the table and the [div] it is
    written in, and opens a [div] of its own with the marker class. *)
Definition markupValue : string :=
  "</td></tr></table></div><div class=export-properties-block>x</div>".

Definition markupFrontmatter : props :=
  [("a", VStr markupValue); ("b", VStr markupValue)].

(** The note with that value under two keys, in the preview of the active
    view. Of its fragment an HTML parser makes three [div] with the marker
    class, side by side: the one the fragment opens, which the first value
    closes, and the one of each value (the end tags that close nothing and
    the rows outside a table are dropped). *)
Definition markupWorld : World :=
  {| host :=
       {| commands := Some reportCommands;
          activeFile := Some "report.md"; activeView := Some 2;
          document := previewDocument;
          frontmatter := <["report.md" := markupFrontmatter]> ∅;
          vault := <["report.md" := reportText]> ∅;
          readError := None; writeError := None;
          parseHTML := fun _ => [Block "<table></table>"; Block "x"; Block "x"] |};
     plugin := reportPlugin true ∅;
     console := []; calls := [] |}.

(** ** A print that renders and fails, and a note without a view *)

(** The preview of the note as the renderer leaves it, the block of the
    post-processor on top. *)
Definition renderedDocument : list node :=
  [Elem 0 "html" []
     [Elem 1 "body" []
        [Elem 2 "div" ["view-content"]
           [Elem 3 "div" ["markdown-preview-section"]
              [Block "<table></table>"; Elem 4 "p" [] []]]]]].

(** A host whose function 0 (the print action of the examples) renders the
    note in the active view and then throws, and whose other functions
    return. *)
Definition renderingPrint (n : nat) (args : list value) (h : Host) : outcome value * Host :=
  match n with
  | O => (Throw "print failed",
          {| commands := commands h; activeFile := activeFile h;
             activeView := activeView h; document := renderedDocument;
             frontmatter := frontmatter h; vault := vault h;
             readError := readError h; writeError := writeError h;
             parseHTML := parseHTML h |})
  | S _ => (Ok (VNum 1), h)
  end.

(** * Properties of the document *)

Lemma shallow_hasClass c : shallow (hasClass c).
Proof. intros r t cl ks ks'. reflexivity. Qed.

Lemma shallow_hasRef r : shallow (hasRef r).
Proof. intros r' t cl ks ks'. reflexivity. Qed.

Lemma countIn_cons q n l : countIn q (n :: l) = countNode q n + countIn q l.
Proof. reflexivity. Qed.

Lemma countIn_single q n : countIn q [n] = countNode q n.
Proof. unfold countIn. simpl. lia. Qed.

Lemma countIn_app q l1 l2 : countIn q (l1 ++ l2) = countIn q l1 + countIn q l2.
Proof.
  induction l1 as [|n l1 IH]; simpl; [reflexivity|].
  rewrite !countIn_cons, IH. lia.
Qed.

Lemma countNode_elem q r t c ks :
  countNode q (Elem r t c ks) = (if q (Elem r t c ks) then 1 else 0) + countIn q ks.
Proof. reflexivity. Qed.

Lemma countNode_pos q n : q n = true -> 1 <= countNode q n.
Proof. intros H. destruct n; simpl; rewrite H; lia. Qed.

(** *** A query finds something exactly when the count is not zero *)

Lemma queryNode_none_count q n : queryNode q n = None -> countNode q n = 0.
Proof.
  induction n as [html|r t c ks IH] using node_forest_ind; simpl.
  - destruct (q (Block html)); [discriminate|reflexivity].
  - destruct (q (Elem r t c ks)); [discriminate|]. simpl.
    induction IH as [|k ks Hk _ IHks]; simpl; [reflexivity|].
    destruct (queryNode q k) eqn:Ek; [discriminate|].
    intros H. rewrite (Hk eq_refl). simpl. apply IHks, H.
Qed.

Lemma query_none_count q l : querySelector q l = None -> countIn q l = 0.
Proof.
  unfold querySelector.
  induction l as [|k l IH]; simpl; [reflexivity|].
  destruct (queryNode q k) eqn:Ek; [discriminate|].
  intros H. rewrite countIn_cons, (queryNode_none_count _ _ Ek). simpl. apply IH, H.
Qed.

Lemma queryNode_some_sat q n m : queryNode q n = Some m -> q m = true.
Proof.
  revert m.
  induction n as [html|r t c ks IH] using node_forest_ind; simpl; intros m.
  - destruct (q (Block html)) eqn:E; [|discriminate]. intros [= <-]. exact E.
  - destruct (q (Elem r t c ks)) eqn:E; [intros [= <-]; exact E|]. clear E.
    induction IH as [|k ks Hk _ IHks]; simpl; [discriminate|].
    destruct (queryNode q k) eqn:Ek; [intros [= <-]; apply Hk; reflexivity|]. apply IHks.
Qed.

Lemma query_some_sat q l m : querySelector q l = Some m -> q m = true.
Proof.
  unfold querySelector.
  induction l as [|k l IH]; simpl; [discriminate|].
  destruct (queryNode q k) eqn:Ek; [intros [= <-]; eapply queryNode_some_sat, Ek|].
  apply IH.
Qed.

(** The element a query returns is part of what was searched. *)
Lemma queryNode_some_count p q n m :
  queryNode p n = Some m -> countNode q m <= countNode q n.
Proof.
  revert m.
  induction n as [html|r t c ks IH] using node_forest_ind; simpl; intros m.
  - destruct (p (Block html)); [|discriminate]. intros [= <-]. simpl. lia.
  - destruct (p (Elem r t c ks)); [intros [= <-]; simpl; lia|].
    intros H. enough (countNode q m <= list_sum (map (countNode q) ks)) by lia.
    revert H. induction IH as [|k ks Hk _ IHks]; simpl; [discriminate|].
    destruct (queryNode p k) eqn:Ek.
    + intros [= <-]. specialize (Hk _ eq_refl). lia.
    + intros H. specialize (IHks H). lia.
Qed.

Lemma query_some_count p q l m :
  querySelector p l = Some m -> countNode q m <= countIn q l.
Proof.
  unfold querySelector.
  induction l as [|k l IH]; simpl; [discriminate|].
  rewrite countIn_cons.
  destruct (queryNode p k) eqn:Ek.
  - intros [= <-]. pose proof (queryNode_some_count p q _ _ Ek). lia.
  - intros H. specialize (IH H). lia.
Qed.

Lemma query_count_pos q l m : querySelector q l = Some m -> 1 <= countIn q l.
Proof.
  intros H. pose proof (query_some_count q q _ _ H).
  pose proof (countNode_pos q m (query_some_sat _ _ _ H)). lia.
Qed.

Lemma childrenOf_count q r doc : countIn q (childrenOf r doc) <= countIn q doc.
Proof.
  unfold childrenOf.
  destruct (querySelector (hasRef r) doc) as [[r' t c ks|html]|] eqn:E;
    try (unfold countIn at 1; simpl; lia).
  pose proof (query_some_count _ q _ _ E) as H.
  rewrite countNode_elem in H. lia.
Qed.

(** *** What a rewriting does to a count *)

Section RewriteCount.

Variable q : node -> bool.
Hypothesis q_shallow : shallow q.
Variable R : nat -> nat -> Prop.
Hypothesis R_frame : forall a b c, R a b -> R (c + a) (c + b).
Variable p : node -> bool.
Variable f : node -> option (list node).
Hypothesis f_R :
  forall n ns, p n = true -> f n = Some ns -> R (countNode q n) (countIn q ns).

Lemma first_rewrite_count l :
  Forall (fun n => forall ns, rewriteNode p f n = Some ns ->
                              R (countNode q n) (countIn q ns)) l ->
  forall l', first_rewrite (rewriteNode p f) l = Some l' ->
             R (countIn q l) (countIn q l').
Proof.
  induction 1 as [|k ks Hk _ IH]; simpl; intros l'; [discriminate|].
  destruct (rewriteNode p f k) as [xs|] eqn:Ek.
  - intros [= <-]. rewrite countIn_cons, countIn_app.
    rewrite (Nat.add_comm (countNode q k)), (Nat.add_comm (countIn q xs)).
    apply R_frame, Hk. reflexivity.
  - destruct (first_rewrite (rewriteNode p f) ks) as [ks'|] eqn:Eks; [|discriminate].
    intros [= <-]. rewrite !countIn_cons. apply R_frame, IH. reflexivity.
Qed.

Lemma rewriteNode_count n :
  forall ns, rewriteNode p f n = Some ns -> R (countNode q n) (countIn q ns).
Proof.
  induction n as [html|r t c ks IH] using node_forest_ind; simpl; intros ns.
  - destruct (p (Block html)) eqn:E; [|discriminate]. apply f_R, E.
  - destruct (p (Elem r t c ks)) eqn:E; [apply (f_R (Elem r t c ks)), E|].
    destruct (first_rewrite (rewriteNode p f) ks) as [ks'|] eqn:Eks; [|discriminate].
    intros [= <-]. rewrite countIn_single, countNode_elem.
    rewrite (q_shallow r t c ks' ks).
    apply R_frame. apply (first_rewrite_count ks IH ks' Eks).
Qed.

Lemma rewriteFirst_count l l' :
  rewriteFirst p f l = Some l' -> R (countIn q l) (countIn q l').
Proof.
  unfold rewriteFirst. destruct (querySelector p l) as [m|]; [|discriminate].
  destruct (f m); [|discriminate].
  apply first_rewrite_count. apply Forall_forall. intros n _. apply rewriteNode_count.
Qed.

End RewriteCount.

(** *** A rewriting succeeds where the query finds a match *)

Section RewriteQuery.

Variable p : node -> bool.
Variable f : node -> option (list node).

Lemma rewriteNode_none n : queryNode p n = None -> rewriteNode p f n = None.
Proof.
  induction n as [html|r t c ks IH] using node_forest_ind; simpl.
  - destruct (p (Block html)); [discriminate|reflexivity].
  - destruct (p (Elem r t c ks)); [discriminate|].
    intros H.
    enough (first_rewrite (rewriteNode p f) ks = None) as -> by reflexivity.
    revert H. induction IH as [|k ks Hk _ IHks]; simpl; [reflexivity|].
    destruct (queryNode p k) eqn:Ek; [discriminate|].
    intros H. rewrite (Hk eq_refl), (IHks H). reflexivity.
Qed.

Lemma rewriteNode_some n m :
  queryNode p n = Some m -> is_Some (f m) -> is_Some (rewriteNode p f n).
Proof.
  intros Hq Hf. revert Hq.
  induction n as [html|r t c ks IH] using node_forest_ind; simpl.
  - destruct (p (Block html)); [|discriminate]. intros [= <-]. exact Hf.
  - destruct (p (Elem r t c ks)); [intros [= <-]; exact Hf|].
    intros H.
    enough (is_Some (first_rewrite (rewriteNode p f) ks)) as [ks' ->] by eauto.
    revert H. induction IH as [|k ks Hk _ IHks]; simpl; [discriminate|].
    destruct (queryNode p k) eqn:Ek.
    + intros [= <-]. destruct (Hk eq_refl) as [xs ->]. eauto.
    + intros H. rewrite (rewriteNode_none k Ek).
      destruct (IHks H) as [ks' ->]. eauto.
Qed.

Lemma query_none_rewrite l : querySelector p l = None -> rewriteFirst p f l = None.
Proof. unfold rewriteFirst. intros ->. reflexivity. Qed.

Lemma query_some_rewrite_fails l m :
  querySelector p l = Some m -> f m = None -> rewriteFirst p f l = None.
Proof. unfold rewriteFirst. intros -> ->. reflexivity. Qed.

Lemma first_rewrite_some l m :
  querySelector p l = Some m -> is_Some (f m) ->
  is_Some (first_rewrite (rewriteNode p f) l).
Proof.
  unfold querySelector. intros Hq Hf. revert Hq.
  induction l as [|k l IH]; simpl; [discriminate|].
  destruct (queryNode p k) eqn:Ek.
  - intros [= <-]. destruct (rewriteNode_some k _ Ek Hf) as [xs ->]. eauto.
  - intros H. rewrite (rewriteNode_none k Ek).
    destruct (IH H) as [l' ->]. eauto.
Qed.

Lemma query_some_rewrite l m :
  querySelector p l = Some m -> is_Some (f m) -> is_Some (rewriteFirst p f l).
Proof.
  intros Hq Hf. unfold rewriteFirst. rewrite Hq.
  destruct Hf as [x Hx]. rewrite Hx. apply (first_rewrite_some l m Hq). eauto.
Qed.

Lemma rewrite_none_query l :
  (forall n, p n = true -> is_Some (f n)) ->
  rewriteFirst p f l = None -> querySelector p l = None.
Proof.
  intros Hf H. destruct (querySelector p l) as [m|] eqn:Eq; [|reflexivity].
  destruct (query_some_rewrite l m Eq (Hf m (query_some_sat _ _ _ Eq))) as [l' E].
  congruence.
Qed.

End RewriteQuery.

(** *** The element found is still the first match after the change *)

Section RewriteKeepsMatch.

Variable p : node -> bool.
Hypothesis p_shallow : shallow p.
Variable f : node -> option (list node).

Lemma first_some_app (l1 l2 : list node) m :
  first_some (queryNode p) l1 = Some m ->
  first_some (queryNode p) (l1 ++ l2) = Some m.
Proof.
  induction l1 as [|k l1 IH]; simpl; [discriminate|].
  destruct (queryNode p k); [auto|exact IH].
Qed.

Lemma rewriteNode_query n m m' :
  queryNode p n = Some m -> f m = Some [m'] -> p m' = true ->
  forall ns, rewriteNode p f n = Some ns -> first_some (queryNode p) ns = Some m'.
Proof.
  intros Hq Hf Hm'.
  assert (Hself : queryNode p m' = Some m') by (destruct m'; simpl; rewrite Hm'; reflexivity).
  revert Hq.
  induction n as [html|r t c ks IH] using node_forest_ind; simpl.
  - destruct (p (Block html)); [|discriminate]. intros [= <-] ns.
    rewrite Hf. intros [= <-]. simpl. rewrite Hself. reflexivity.
  - destruct (p (Elem r t c ks)) eqn:Ep.
    + intros [= <-] ns. rewrite Hf. intros [= <-]. simpl. rewrite Hself. reflexivity.
    + intros Hq ns.
      destruct (first_rewrite (rewriteNode p f) ks) as [ks'|] eqn:Eks; [|discriminate].
      intros [= <-]. simpl. rewrite (p_shallow r t c ks' ks), Ep.
      enough (first_some (queryNode p) ks' = Some m') as -> by reflexivity.
      clear Ep. revert ks' Hq Eks.
      induction IH as [|k ks Hk _ IHks]; simpl; intros ks'; [discriminate|].
      destruct (queryNode p k) eqn:Ek.
      * intros [= <-]. destruct (rewriteNode p f k) as [xs|] eqn:Ex.
        -- intros [= <-]. apply first_some_app, (Hk eq_refl xs eq_refl).
        -- pose proof (rewriteNode_some p f k _ Ek (ex_intro _ _ Hf)) as [xs Hxs].
           congruence.
      * intros Hq. rewrite (rewriteNode_none p f k Ek).
        destruct (first_rewrite (rewriteNode p f) ks) as [rest'|] eqn:Er; [|discriminate].
        intros [= <-]. simpl. rewrite Ek. apply (IHks rest' Hq eq_refl).
Qed.

Lemma rewriteFirst_query l l' m m' :
  querySelector p l = Some m -> f m = Some [m'] -> p m' = true ->
  rewriteFirst p f l = Some l' -> querySelector p l' = Some m'.
Proof.
  intros Hq Hf Hm'. unfold rewriteFirst. rewrite Hq, Hf. unfold querySelector in *.
  revert l' Hq. induction l as [|k l IH]; simpl; intros l'; [discriminate|].
  destruct (queryNode p k) eqn:Ek.
  - intros [= <-]. destruct (rewriteNode p f k) as [xs|] eqn:Ex.
    + intros [= <-]. apply first_some_app.
      apply (rewriteNode_query k _ m' Ek Hf Hm' xs Ex).
    + pose proof (rewriteNode_some p f k _ Ek (ex_intro _ _ Hf)) as [xs Hxs]. congruence.
  - intros Hq. rewrite (rewriteNode_none p f k Ek).
    destruct (first_rewrite (rewriteNode p f) l) as [rest'|] eqn:Er; [|discriminate].
    intros [= <-]. simpl. rewrite Ek. apply (IH rest' Hq eq_refl).
Qed.

End RewriteKeepsMatch.

(** *** Removal and placement *)

Lemma removeFirstBlock_count l l' :
  removeFirstBlock l = Some l' -> countBlocks l' < countBlocks l.
Proof.
  unfold removeFirstBlock, countBlocks.
  apply (rewriteFirst_count isBlock (shallow_hasClass _) (fun a b => b < a)).
  - intros a b c H. lia.
  - intros n ns Hn [= <-]. pose proof (countNode_pos _ _ Hn). unfold countIn. simpl. lia.
Qed.

Lemma removeFirstBlock_none l : removeFirstBlock l = None -> countBlocks l = 0.
Proof.
  intros H. apply query_none_count.
  apply (rewrite_none_query isBlock (fun _ => Some [])); [eauto|exact H].
Qed.

Lemma rewriteWithin_count q (R : nat -> nat -> Prop) r g doc doc' :
  shallow q ->
  (forall a b c, R a b -> R (c + a) (c + b)) ->
  (forall ks ks', g ks = Some ks' -> R (countIn q ks) (countIn q ks')) ->
  rewriteWithin r g doc = Some doc' -> R (countIn q doc) (countIn q doc').
Proof.
  intros Hq HR Hg. unfold rewriteWithin.
  apply (rewriteFirst_count q Hq R HR).
  intros [r' t c ks|html] ns _; [|discriminate].
  destruct (g ks) as [ks'|] eqn:E; [|discriminate]. intros [= <-].
  rewrite countIn_single, !countNode_elem, (Hq r' t c ks' ks).
  apply HR, Hg, E.
Qed.

Lemma placeBlock_count q st frag n ns :
  shallow q ->
  placeBlock st frag n = Some ns ->
  countIn q ns = countNode q n + countIn q frag.
Proof.
  intros Hq. destruct n as [r t c ks|h]; simpl; [|discriminate].
  assert (Hfront : countIn q [Elem r t c (frag ++ ks)]
                   = countNode q (Elem r t c ks) + countIn q frag).
  { rewrite countIn_single, !countNode_elem, countIn_app.
    rewrite (Hq r t c (frag ++ ks) ks). lia. }
  destruct (insertAfterHeading st); [|intros [= <-]; exact Hfront].
  destruct (rewriteFirst isH1 _ ks) as [ks'|] eqn:E; intros [= <-]; [|exact Hfront].
  apply (rewriteFirst_count q Hq (fun a b => b = a + countIn q frag)) in E.
  - rewrite countIn_single, !countNode_elem, (Hq r t c ks' ks), E.
    unfold countIn. lia.
  - intros a b c0 H. cbv beta in *. lia.
  - intros h hs _ [= <-]. rewrite countIn_cons. reflexivity.
Qed.

Lemma place_count q st frag l l' :
  shallow q ->
  rewriteFirst isSection (placeBlock st frag) l = Some l' ->
  countIn q l' = countIn q l + countIn q frag.
Proof.
  intros Hq.
  apply (rewriteFirst_count q Hq (fun a b => b = a + countIn q frag)).
  - intros a b c H. lia.
  - intros n ns _ H. apply (placeBlock_count q st frag n ns Hq H).
Qed.

Lemma placeBlock_section st frag n : isSection n = true -> is_Some (placeBlock st frag n).
Proof.
  destruct n as [r t c ks|h]; simpl; [|discriminate].
  intros _. destruct (insertAfterHeading st); [|eauto].
  destruct (rewriteFirst isH1 _ ks); eauto.
Qed.

Lemma rewriteWithin_children r g doc doc' :
  rewriteWithin r g doc = Some doc' ->
  exists ks', g (childrenOf r doc) = Some ks' /\ childrenOf r doc' = ks'.
Proof.
  unfold rewriteWithin, childrenOf. intros H.
  destruct (querySelector (hasRef r) doc) as [n|] eqn:E.
  2:{ rewrite query_none_rewrite in H by exact E. discriminate. }
  destruct n as [r' t c ks|html].
  - destruct (g ks) as [ks'|] eqn:Eg.
    + exists ks'. split; [reflexivity|].
      erewrite (rewriteFirst_query (hasRef r) (shallow_hasRef r) _ doc doc'
                  (Elem r' t c ks) (Elem r' t c ks') E); [reflexivity| | |exact H].
      * cbv beta iota. rewrite Eg. reflexivity.
      * apply (query_some_sat _ _ _ E).
    + erewrite query_some_rewrite_fails in H; [discriminate|exact E|].
      cbv beta iota. rewrite Eg. reflexivity.
  - erewrite query_some_rewrite_fails in H; [discriminate|exact E|reflexivity].
Qed.

(** * Injection and removal *)

(** What [setDocument] leaves alone. *)
Lemma setDocument_frame d w :
  plugin (setDocument d w) = plugin w
  /\ document (host (setDocument d w)) = d
  /\ activeView (host (setDocument d w)) = activeView (host w)
  /\ activeFile (host (setDocument d w)) = activeFile (host w)
  /\ frontmatter (host (setDocument d w)) = frontmatter (host w)
  /\ vault (host (setDocument d w)) = vault (host w)
  /\ writeError (host (setDocument d w)) = writeError (host w)
  /\ console (setDocument d w) = console w
  /\ calls (setDocument d w) = calls w.
Proof. repeat split. Qed.

(** The file patch never touches the document, and its guarded form never
    throws. *)
Lemma patch_guarded file p msg w :
  exists w', tryCatch (patchFileForExport file p) (consoleError msg) w = (Ok tt, w')
    /\ document (host w') = document (host w)
    /\ activeView (host w') = activeView (host w)
    /\ calls w' = calls w
    /\ originalPrintCallback (plugin w') = originalPrintCallback (plugin w).
Proof.
  unfold patchFileForExport. unfold_effects.
  destruct (snd (getPropertiesMarkdown (settings (plugin w)) p)); [|eauto 10].
  destruct (readError (host w)); simpl; [eauto 10|].
  destruct (vault (host w) !! file); simpl; [|eauto 10].
  destruct (writeError (host w)); simpl; eauto 10.
Qed.

Lemma childrenOf_section r doc t :
  querySelector isSection (childrenOf r doc) = Some t ->
  is_Some (querySelector isSection doc).
Proof.
  intros H. pose proof (query_count_pos _ _ _ H) as H1.
  pose proof (childrenOf_count isSection r doc) as H2.
  destruct (querySelector isSection doc) eqn:E; [eauto|].
  apply query_none_count in E. lia.
Qed.

Lemma rewriteWithin_some r g doc :
  is_Some (g (childrenOf r doc)) ->
  (forall ks, is_Some (g ks) -> ks <> []) ->
  is_Some (rewriteWithin r g doc).
Proof.
  intros Hg Hne. unfold childrenOf in Hg. unfold rewriteWithin.
  destruct (querySelector (hasRef r) doc) as [[r' t c ks|html]|] eqn:E.
  - eapply query_some_rewrite; [exact E|]. destruct Hg as [ks' ->]. eauto.
  - exfalso. apply (Hne [] Hg). reflexivity.
  - exfalso. apply (Hne [] Hg). reflexivity.
Qed.

Lemma fragmentHtml_spec w html :
  fragmentHtml w = Some html <->
  exists file fm,
    currentFile (plugin w) = Some file
    /\ frontmatter (host w) !! file = Some fm
    /\ displayProperties (settings (plugin w)) = true
    /\ snd (getPropertiesHtml (settings (plugin w)) (deleteKey "position" fm)) = Some html.
Proof.
  unfold fragmentHtml. split.
  - destruct (currentFile (plugin w)) as [file|]; [|discriminate].
    destruct (frontmatter (host w) !! file) as [fm|] eqn:Efm; [|discriminate].
    destruct (displayProperties (settings (plugin w))) eqn:E; [|discriminate].
    intros H. exists file, fm. repeat split; assumption.
  - intros (file & fm & -> & -> & -> & H). exact H.
Qed.

(** With a fragment and a place, the injection either finds a block already
    there and leaves the world alone, or puts in the document what the parser
    builds from the fragment. *)
Lemma inject_in_document w :
  canInject w ->
  exists w', injectRenderedProperties w = (Ok tt, w')
    /\ ((is_Some (querySelector isBlock (document (host w))) /\ w' = w)
        \/ (querySelector isBlock (document (host w)) = None
            /\ exists d html,
                 fragmentHtml w = Some html
                 /\ w' = setDocument d w
                 /\ (forall q, shallow q ->
                       countIn q d
                       = countIn q (document (host w))
                         + countIn q (parseHTML (host w) html)))).
Proof.
  intros (file & fm & Hf & Hfm & Hd & [html Hh] & [view Hv] & Hs).
  assert (Hfrag : fragmentHtml w = Some html)
    by (apply fragmentHtml_spec; exists file, fm; auto).
  unfold injectRenderedProperties. rewrite Hf, Hfm, Hd. simpl.
  destruct (getPropertiesHtml _ _) as [p o]. simpl in Hh. subst o. rewrite Hv.
  set (doc := document (host w)) in *.
  set (st := settings (plugin w)).
  set (frag := parseHTML (host w) html).
  assert (Hplace : forall l, is_Some (querySelector isSection l) ->
                             is_Some (rewriteFirst isSection (placeBlock st frag) l)).
  { intros l [t Ht]. eapply query_some_rewrite; [exact Ht|].
    apply placeBlock_section, (query_some_sat _ _ _ Ht). }
  destruct (querySelector isSection (childrenOf view doc)) as [t|] eqn:Ein.
  - destruct (querySelector isBlock doc) eqn:Eb; [eauto 10|].
    destruct (rewriteWithin view (rewriteFirst isSection (placeBlock st frag)) doc)
      as [d|] eqn:Ew.
    + eexists. split; [reflexivity|]. right. split; [reflexivity|].
      exists d, html. simpl. split; [exact Hfrag|]. split; [reflexivity|].
      intros q Hq.
      apply (rewriteWithin_count q (fun a b => b = a + countIn q frag) _ _ _ _ Hq)
        in Ew; [exact Ew|intros; lia|].
      intros ks ks' Hks. apply (place_count q) in Hks; [exact Hks|exact Hq].
    + exfalso.
      destruct (rewriteWithin_some view (rewriteFirst isSection (placeBlock st frag)) doc)
        as [d Hd']; [apply Hplace; eauto| |congruence].
      intros ks [ks' Hks] ->. discriminate.
  - destruct Hs as [t Ht]. fold doc in Ht. rewrite Ht.
    destruct (querySelector isBlock doc) eqn:Eb; [eauto 10|].
    destruct (Hplace doc (ex_intro _ t Ht)) as [d Hd'].
    rewrite Hd'. eexists. split; [reflexivity|]. right. split; [reflexivity|].
    exists d, html. simpl. split; [exact Hfrag|]. split; [reflexivity|].
    intros q Hq. apply (place_count q) in Hd'; [exact Hd'|exact Hq].
Qed.

(** In every world the injection returns, and it changes the blocks of the
    document only by adding, to a document that has none, those the parser
    builds from the fragment. *)
Lemma inject_total w :
  exists w', injectRenderedProperties w = (Ok tt, w')
    /\ activeView (host w') = activeView (host w)
    /\ calls w' = calls w
    /\ originalPrintCallback (plugin w') = originalPrintCallback (plugin w)
    /\ (document (host w') = document (host w)
        \/ (countBlocks (document (host w)) = 0
            /\ exists html,
                 fragmentHtml w = Some html
                 /\ countBlocks (document (host w'))
                    = countBlocks (parseHTML (host w) html))).
Proof.
  unfold injectRenderedProperties, fragmentHtml.
  destruct (currentFile (plugin w)) as [file|]; [|eauto 10].
  destruct (frontmatter (host w) !! file) as [fm|]; [|eauto 10].
  destruct (displayProperties (settings (plugin w))); simpl; [|eauto 10].
  destruct (getPropertiesHtml _ _) as [p [html|]]; [|eauto 10].
  destruct (activeView (host w)) as [view|] eqn:Hv; [|eauto 10].
  set (doc := document (host w)).
  set (frag := parseHTML (host w) html).
  set (place := rewriteFirst isSection (placeBlock (settings (plugin w)) frag)).
  assert (Hpatch : exists w',
             tryCatch (patchFileForExport file p)
               (consoleError "Properties-on-export: failed to patch file for export") w
             = (Ok tt, w')
             /\ activeView (host w') = Some view /\ calls w' = calls w
             /\ originalPrintCallback (plugin w') = originalPrintCallback (plugin w)
             /\ (document (host w') = doc
                 \/ countBlocks doc = 0
                    /\ exists html0, Some html = Some html0
                         /\ countBlocks (document (host w'))
                            = countBlocks (parseHTML (host w) html0))).
  { destruct (patch_guarded file p
                "Properties-on-export: failed to patch file for export" w)
      as (w' & E & H1 & H2 & H3 & H4).
    exists w'. rewrite E, H2, Hv. eauto 10. }
  assert (Hdom : forall doc',
             (forall d, doc' = Some d -> countBlocks d = countBlocks doc + countBlocks frag) ->
             exists w',
               match querySelector isBlock doc with
               | Some _ => (Ok (), w)
               | None => (Ok (), setDocument (default doc doc') w)
               end = (Ok tt, w')
               /\ activeView (host w') = Some view /\ calls w' = calls w
               /\ originalPrintCallback (plugin w') = originalPrintCallback (plugin w)
               /\ (document (host w') = doc
                   \/ countBlocks doc = 0
                      /\ exists html0, Some html = Some html0
                           /\ countBlocks (document (host w'))
                              = countBlocks (parseHTML (host w) html0))).
  { intros doc' Hd. destruct (querySelector isBlock doc) eqn:Eb; [eauto 10|].
    eexists. split; [reflexivity|]. simpl. repeat split; try assumption.
    destruct doc' as [d|]; simpl; [|left; reflexivity].
    right. pose proof (query_none_count _ _ Eb) as H0. fold (countBlocks doc) in H0.
    split; [exact H0|]. exists html. split; [reflexivity|].
    rewrite (Hd d eq_refl), H0. reflexivity. }
  destruct (querySelector isSection (childrenOf view doc)) as [t|] eqn:Ein.
  - apply Hdom. intros d Hd.
    apply (rewriteWithin_count isBlock (fun a b => b = a + countBlocks frag) _ _ _ _
             (shallow_hasClass _)) in Hd; [exact Hd|intros; lia|].
    intros ks ks' Hks. apply (place_count isBlock) in Hks; [exact Hks|].
    apply shallow_hasClass.
  - destruct (querySelector isSection doc) eqn:Es; [|exact Hpatch].
    apply Hdom. intros d Hd.
    apply (place_count isBlock) in Hd; [exact Hd|apply shallow_hasClass].
Qed.

Lemma restore_guarded msg w :
  exists w', tryCatch restoreBackup (consoleError msg) w = (Ok tt, w')
    /\ document (host w') = document (host w)
    /\ activeView (host w') = activeView (host w)
    /\ calls w' = calls w
    /\ originalPrintCallback (plugin w') = originalPrintCallback (plugin w).
Proof.
  unfold restoreBackup. unfold_effects.
  destruct (activeFile (host w)) as [a|]; [|eauto 10].
  destruct (fileBackups (plugin w) !! a) as [o|]; [|eauto 10].
  destruct (nonEmpty o); [|eauto 10].
  destruct (writeError (host w)); simpl; eauto 10.
Qed.

(** In every world the removal returns, and it never adds a block; with an
    active view it takes one away when there is one. *)
Lemma remove_total w :
  exists w', removeInjectedProperties w = (Ok tt, w')
    /\ activeView (host w') = activeView (host w)
    /\ calls w' = calls w
    /\ originalPrintCallback (plugin w') = originalPrintCallback (plugin w)
    /\ countBlocks (document (host w')) <= countBlocks (document (host w))
    /\ (is_Some (activeView (host w)) ->
        countBlocks (document (host w')) <= countBlocks (document (host w)) - 1).
Proof.
  unfold removeInjectedProperties.
  destruct (activeView (host w)) as [view|] eqn:Hv.
  2:{ exists w. rewrite Hv. repeat split; try lia. intros [? ?]. discriminate. }
  destruct (rewriteWithin view removeFirstBlock (document (host w))) as [d|] eqn:Ew.
  - exists (setDocument d w). simpl.
    apply (rewriteWithin_count isBlock (fun a b => b < a) _ _ _ _
             (shallow_hasClass _)) in Ew.
    + fold (countBlocks d) in Ew. fold (countBlocks (document (host w))) in Ew.
      repeat split; try assumption; lia.
    + intros; lia.
    + intros ks ks' H. apply removeFirstBlock_count in H. exact H.
  - destruct (removeFirstBlock (document (host w))) as [d|] eqn:Ed.
    + destruct (restore_guarded
                  "Properties-on-export: failed to restore original file after export"
                  (setDocument d w)) as (w' & E & H1 & H2 & H3 & H4).
      exists w'. rewrite E, H1, H2, H3, H4. simpl.
      apply removeFirstBlock_count in Ed. repeat split; try assumption; lia.
    + destruct (restore_guarded
                  "Properties-on-export: failed to restore original file after export" w)
        as (w' & E & H1 & H2 & H3 & H4).
      exists w'. rewrite E, H1, H2, H3, H4.
      apply removeFirstBlock_none in Ed. repeat split; try assumption; lia.
Qed.

Lemma blocksOf_setDocument d w : blocksOf (setDocument d w) = countBlocks d.
Proof. reflexivity. Qed.

Lemma performAll_app ops1 ops2 w :
  performAll (ops1 ++ ops2) w = performAll ops2 (performAll ops1 w).
Proof. revert w. induction ops1 as [|o ops1 IH]; simpl; intros w; [reflexivity|apply IH]. Qed.

(** *** The notes, the settings and the parser stay as they are *)

Lemma sameNotes_refl w : sameNotes w w.
Proof. repeat split. Qed.

Lemma sameNotes_trans w1 w2 w3 : sameNotes w1 w2 -> sameNotes w2 w3 -> sameNotes w1 w3.
Proof. intros (A & B & C) (A' & B' & C'). repeat split; congruence. Qed.

Lemma tame_sameNotes w w' : sameNotes w w' -> tame w -> tame w'.
Proof.
  intros (A & B & C) H path fm Hfm. rewrite A in Hfm.
  destruct (H path fm Hfm) as [Hp Hm]. split; [exact Hp|].
  intros html Hh. rewrite C in Hh. rewrite B. exact (Hm html Hh).
Qed.

Lemma patch_frame file p msg w :
  sameNotes w (snd (tryCatch (patchFileForExport file p) (consoleError msg) w)).
Proof.
  unfold patchFileForExport. unfold_effects.
  destruct (snd (getPropertiesMarkdown (settings (plugin w)) p)); [|apply sameNotes_refl].
  destruct (readError (host w)); simpl; [repeat split|].
  destruct (vault (host w) !! file); simpl; [|repeat split].
  destruct (writeError (host w)); simpl; repeat split.
Qed.

Lemma inject_frame w : sameNotes w (snd (injectRenderedProperties w)).
Proof.
  unfold injectRenderedProperties.
  destruct (currentFile (plugin w)) as [file|]; [|apply sameNotes_refl].
  destruct (frontmatter (host w) !! file) as [fm|]; [|apply sameNotes_refl].
  destruct (negb _); [apply sameNotes_refl|].
  destruct (getPropertiesHtml _ _) as [p [html|]]; [|apply sameNotes_refl].
  destruct (activeView (host w)) as [view|]; [|apply sameNotes_refl].
  cbv zeta.
  destruct (match querySelector isSection (childrenOf view (document (host w))) with
            | Some t => Some t
            | None => querySelector isSection (document (host w))
            end); [|apply patch_frame].
  destruct (querySelector isBlock (document (host w))); repeat split.
Qed.

Lemma remove_frame w : sameNotes w (snd (removeInjectedProperties w)).
Proof.
  unfold removeInjectedProperties.
  destruct (activeView (host w)) as [view|]; [|apply sameNotes_refl].
  cbv zeta.
  destruct (rewriteWithin view removeFirstBlock (document (host w))); [repeat split|].
  assert (H : forall w0, sameNotes w0
                (snd (tryCatch restoreBackup
                        (consoleError
                           "Properties-on-export: failed to restore original file after export")
                        w0))).
  { intros w0. unfold restoreBackup. unfold_effects.
    destruct (activeFile (host w0)) as [a|]; [|repeat split].
    destruct (fileBackups (plugin w0) !! a) as [o|]; [|repeat split].
    destruct (nonEmpty o); [|repeat split].
    destruct (writeError (host w0)); simpl; repeat split. }
  destruct (removeFirstBlock (document (host w))) as [d|]; [|apply H].
  eapply sameNotes_trans; [|apply H]. repeat split.
Qed.

(** *** With a fragment that parses into one marker element *)

Lemma oneMarker_count frag : oneMarker frag -> countBlocks frag = 1.
Proof.
  intros (b & -> & _ & Hb). unfold countBlocks. rewrite countIn_single. exact Hb.
Qed.

Lemma tame_fragment w html :
  tame w -> fragmentHtml w = Some html -> oneMarker (parseHTML (host w) html).
Proof.
  intros Ht Hf. apply fragmentHtml_spec in Hf as (file & fm & _ & Hfm & _ & Hh).
  exact (proj2 (Ht file fm Hfm) html Hh).
Qed.

Lemma reportWorld_tame doc text : tame (reportWorld doc text).
Proof.
  intros path fm Hfm. split.
  - destruct (decide (path = "report.md")) as [->|Hne].
    + injection Hfm as <-. intros k v [[= <- <-]|[[= <- <-]|[[= <- <-]|[]]]]; reflexivity.
    + simpl in Hfm. rewrite lookup_insert_ne in Hfm by congruence. discriminate.
  - intros html _. exists (Block html). repeat split.
Qed.

Lemma perform_total o w :
  exists w', perform o w = (Ok tt, w')
    /\ sameNotes w w'
    /\ (tame w -> blocksOf w <= 1 -> blocksOf w' <= 1).
Proof.
  destruct o; simpl.
  - destruct (inject_total w) as (w' & E & _ & _ & _ & H). exists w'.
    split; [exact E|]. split.
    + pose proof (inject_frame w) as Hf. rewrite E in Hf. exact Hf.
    + intros Ht. unfold blocksOf.
      destruct H as [-> | [_ (html & Hfrag & ->)]]; [lia|].
      rewrite (oneMarker_count _ (tame_fragment w html Ht Hfrag)). lia.
  - destruct (remove_total w) as (w' & E & _ & _ & _ & H & _). exists w'.
    split; [exact E|]. split.
    + pose proof (remove_frame w) as Hf. rewrite E in Hf. exact Hf.
    + intros _. unfold blocksOf. lia.
Qed.

Lemma performAll_blocks ops w :
  tame w -> blocksOf w <= 1 -> blocksOf (performAll ops w) <= 1.
Proof.
  revert w. induction ops as [|o ops IH]; simpl; intros w Ht H; [exact H|].
  destruct (perform_total o w) as (w' & E & Hs & Hw). rewrite E. simpl.
  apply IH; [exact (tame_sameNotes w w' Hs Ht)|auto].
Qed.

(** * The rows of the rendered properties *)

Lemma deleteKey_In x p k v : In (k, v) (deleteKey x p) <-> In (k, v) p /\ k <> x.
Proof.
  unfold deleteKey. rewrite filter_In. simpl.
  rewrite negb_true_iff, String.eqb_neq. reflexivity.
Qed.

Lemma deleteKeys_In names p k v :
  In (k, v) (fold_left (fun acc prop => deleteKey prop acc) names p)
  <-> In (k, v) p /\ ~ In k names.
Proof.
  revert p. induction names as [|x names IH]; simpl; intros p.
  - tauto.
  - rewrite IH, deleteKey_In. intuition congruence.
Qed.

Lemma deleteOmitted_In st p k v :
  In (k, v) (deleteOmitted st p)
  <-> In (k, v) p /\ ~ In k (omittedProps (omittedProperties st)).
Proof. apply deleteKeys_In. Qed.

Lemma getPropertiesHtml_rows st p0 p html :
  getPropertiesHtml st p0 = (p, Some html) ->
  p = deleteOmitted st p0
  /\ html = blockOpen +:+ str_concat (map rowHtml p) +:+ blockClose.
Proof.
  unfold getPropertiesHtml. destruct (deleteOmitted st p0) eqn:E; [discriminate|].
  intros [= <- <-]. split; reflexivity.
Qed.

Lemma keptEntries_In lst fm k v :
  In (k, v) (Luxon.keptEntries lst fm)
  <-> In (k, v) fm /\ k <> "tags" /\ ~ In k (Luxon.excluded lst).
Proof.
  unfold Luxon.keptEntries. rewrite filter_In. simpl.
  rewrite andb_true_iff, !negb_true_iff, String.eqb_neq.
  assert (H : existsb (String.eqb k) (Luxon.excluded lst) = false
              <-> ~ In k (Luxon.excluded lst)).
  { rewrite <- not_true_iff_false, existsb_exists. split.
    - intros H Hin. apply H. exists k. split; [exact Hin|apply String.eqb_refl].
    - intros H (x & Hin & Hx). apply String.eqb_eq in Hx. subst x. auto. }
  rewrite H. tauto.
Qed.

(** C1, as the programs have it. In [part_000] and in the first program of
    [main.ts] the fragment is made of one row for each entry that
    [getPropertiesHtml] keeps of the copy without [position]: the entries of
    the frontmatter whose name is not [position] and not one of the omitted
    names. In the second program of [main.ts] the rows are the entries whose
    name is not [tags] and not one of the excluded names; [position] is not
    taken out there. *)
Theorem rendered_rows_filtered :
  (forall st fm p html,
      getPropertiesHtml st (deleteKey "position" fm) = (p, Some html) ->
      html = blockOpen +:+ str_concat (map rowHtml p) +:+ blockClose
      /\ forall k v, In (k, v) p <->
                     In (k, v) fm /\ k <> "position"
                     /\ ~ In k (omittedProps (omittedProperties st)))
  /\ (forall stringify luxonFormat lst fm,
        (forall table,
            Luxon.propertiesTable stringify luxonFormat lst fm = Some table ->
            table = "<table style=" +:+ dq
                    +:+ "border-collapse:collapse;margin-bottom:1em;" +:+ dq
                    +:+ "><tbody>"
                    +:+ str_concat (map (Luxon.rowHtml stringify luxonFormat lst)
                                      (Luxon.keptEntries lst fm))
                    +:+ "</tbody></table>")
        /\ forall k v, In (k, v) (Luxon.keptEntries lst fm) <->
                       In (k, v) fm /\ k <> "tags" /\ ~ In k (Luxon.excluded lst)).
Proof.
  split.
  - intros st fm p html H. apply getPropertiesHtml_rows in H as [-> ->].
    split; [reflexivity|]. intros k v.
    rewrite deleteOmitted_In, deleteKey_In. tauto.
  - intros stringify luxonFormat lst fm. split.
    + intros table. unfold Luxon.propertiesTable.
      destruct (nonEmpty _); [|discriminate]. intros [= <-]. reflexivity.
    + intros k v. apply keptEntries_In.
Qed.

Lemma rendered_rows_filtered_witness :
  ("title" <> "position" /\ ~ In "title" (omittedProps "tags"))
  /\ ("position" <> "tags" /\ ~ In "position" (Luxon.excluded Luxon.DEFAULT_SETTINGS)).
Proof.
  destruct rendered_rows_filtered as [Ha Hb]. split.
  - destruct (Ha {| displayProperties := true; omittedProperties := "tags";
                    insertAfterHeading := false |}
                reportFrontmatter [("title", VStr "Report")]
                (blockOpen +:+ rowHtml ("title", VStr "Report") +:+ blockClose)
                eq_refl) as [_ Hrows].
    destruct (proj1 (Hrows "title" (VStr "Report")) (or_introl eq_refl))
      as (_ & H1 & H2).
    split; [exact H1|exact H2].
  - destruct (Hb stringifyEmpty luxonIsoDate Luxon.DEFAULT_SETTINGS reportFrontmatter)
      as [_ Hrows].
    destruct (proj1 (Hrows "position" (VObj [])) (or_intror (or_introl eq_refl)))
      as (_ & H1 & H2).
    split; [exact H1|exact H2].
Defined.

(** C1 fails in the second program of [main.ts]: a frontmatter with a
    [position] entry gets a row for it. *)
Lemma position_row_rendered :
  Luxon.keptEntries Luxon.DEFAULT_SETTINGS [("position", VObj []); ("tags", VStr "t")]
  = [("position", VObj [])]
  /\ Luxon.propertiesTable stringifyEmpty luxonIsoDate Luxon.DEFAULT_SETTINGS
       [("position", VObj []); ("tags", VStr "t")]
     = Some ("<table style=" +:+ dq +:+ "border-collapse:collapse;margin-bottom:1em;"
             +:+ dq +:+ "><tbody><tr><td style=" +:+ dq
             +:+ "border:1px solid #000;padding:4px 8px;" +:+ dq
             +:+ "><strong>position</strong></td><td style=" +:+ dq
             +:+ "border:1px solid #000;padding:4px 8px;" +:+ dq
             +:+ ">{}</td></tr></tbody></table>").
Proof. split; reflexivity. Qed.

(** * The formatter *)

Lemma wikiMatch_plain c r : Ascii.eqb c "["%char = false -> wikiMatch (String c r) = None.
Proof.
  intros Hc. unfold wikiMatch.
  change (startsWith "[[" (String c r))
    with (Ascii.eqb "["%char c && startsWith "[" r).
  rewrite Ascii.eqb_sym, Hc. reflexivity.
Qed.

Lemma replaceWiki_plain n s : noBracket s = true -> replaceWiki n s = s.
Proof.
  revert s. induction n as [|n IH]; intros s H; [reflexivity|].
  destruct s as [|c r]; [reflexivity|].
  simpl in H. apply andb_true_iff in H as [Hc Hr].
  apply negb_true_iff in Hc.
  unfold replaceWiki; fold replaceWiki.
  rewrite (wikiMatch_plain c r Hc), (IH r Hr). reflexivity.
Qed.

(** A text that is not a date and has no wikilink comes out of [valueToHtml]
    of [part_000] as it went in, whatever characters it has. *)
Lemma plain_text_unescaped s :
  dateMatch s = None -> noBracket s = true -> valueToHtml (VStr s) = s.
Proof. intros Hd Hb. simpl. rewrite Hd. apply replaceWiki_plain, Hb. Qed.

(** C3, at its own example. [valueToHtml] of [part_000] (and of the first
    program of [main.ts]) returns the text [<script>] as it is, and the row
    of the fragment carries it so; the second program of [main.ts] escapes
    it. *)
Theorem script_text_not_escaped :
  valueToHtml (VStr "<script>") = "<script>"
  /\ rowHtml ("note", VStr "<script>")
     = "<tr><td style=" +:+ dq +:+ "font-weight:bold;padding:2px 6px;width:25%;" +:+ dq
       +:+ ">note</td><td style=" +:+ dq +:+ "padding:2px 6px;" +:+ dq
       +:+ "><script></td></tr>"
  /\ forall stringify luxonFormat lst,
       Luxon.valueToHtml stringify luxonFormat lst (VStr "<script>") = "&lt;script&gt;".
Proof. repeat split. Qed.

(** C7 fails in [part_000]: the link made of [[[Note A|shown]]] shows the whole
    of [Note A|shown], and its [href] is [#]. *)
Lemma piped_link_shows_raw_path :
  linkText (valueToHtml (VStr "[[Note A|shown]]")) = Some "Note A|shown"
  /\ linkText (valueToHtml (VStr "[[Note A|shown]]")) <> Some "shown"
  /\ linkHref (valueToHtml (VStr "[[Note A|shown]]")) = Some "#".
Proof. repeat split. discriminate. Qed.

(** C7, as the programs have it. The second program of [main.ts] turns
    [[[Note A|shown]]] into a link with the text [shown] and the [href]
    [#Note A], and [[[Note A]]] into a link with the text [Note A] and the
    same [href]. [part_000] and the first program of [main.ts] turn
    [[[Note A]]] into a link with the text [Note A]; every link they make has
    the [href] [#] and shows all that stands between the brackets. *)
Theorem wikilink_examples :
  (forall stringify luxonFormat lst,
      Luxon.valueToHtml stringify luxonFormat lst (VStr "[[Note A|shown]]")
      = "<a href=" +:+ dq +:+ "#Note A" +:+ dq +:+ " class=" +:+ dq +:+ "internal-link"
        +:+ dq +:+ ">shown</a>"
      /\ linkText (Luxon.valueToHtml stringify luxonFormat lst (VStr "[[Note A|shown]]"))
         = Some "shown"
      /\ linkHref (Luxon.valueToHtml stringify luxonFormat lst (VStr "[[Note A|shown]]"))
         = Some "#Note A"
      /\ linkText (Luxon.valueToHtml stringify luxonFormat lst (VStr "[[Note A]]"))
         = Some "Note A"
      /\ linkHref (Luxon.valueToHtml stringify luxonFormat lst (VStr "[[Note A]]"))
         = Some "#Note A")
  /\ linkText (valueToHtml (VStr "[[Note A]]")) = Some "Note A"
  /\ linkHref (valueToHtml (VStr "[[Note A]]")) = Some "#"
  /\ valueToHtml (VStr "[[Note A|shown]]") = wikiAnchor "Note A|shown"
  /\ linkText (wikiAnchor "Note A|shown") = Some "Note A|shown"
  /\ linkHref (wikiAnchor "Note A|shown") = Some "#".
Proof. repeat split. Qed.

(** * The temporary patch of the file *)

Lemma filter_twice {A : Type} (f g : A -> bool) (l : list A) :
  List.filter f (List.filter g l) = List.filter (fun x => g x && f x) l.
Proof.
  induction l as [|x l IH]; simpl; [reflexivity|].
  destruct (g x); simpl; [destruct (f x)|]; rewrite IH; reflexivity.
Qed.

Lemma deleteKeys_filter names p :
  fold_left (fun acc prop => deleteKey prop acc) names p
  = List.filter (fun kv => negb (existsb (String.eqb (fst kv)) names)) p.
Proof.
  revert p. induction names as [|x names IH]; simpl; intros p.
  - induction p as [|kv p IHp]; simpl; [reflexivity|]. rewrite <- IHp. reflexivity.
  - rewrite IH. unfold deleteKey. rewrite filter_twice.
    apply List.filter_ext. intros kv. rewrite negb_orb. reflexivity.
Qed.

(** Filtering the omitted names a second time changes nothing: the markdown
    block is made of the rows of the markup. *)
Lemma deleteOmitted_twice st p : deleteOmitted st (deleteOmitted st p) = deleteOmitted st p.
Proof.
  unfold deleteOmitted. rewrite !deleteKeys_filter, filter_twice.
  apply List.filter_ext. intros kv. apply andb_diag.
Qed.

Lemma getPropertiesMarkdown_rows st p :
  deleteOmitted st p <> [] ->
  getPropertiesMarkdown st p = (deleteOmitted st p, Some (markdownOf (deleteOmitted st p))).
Proof.
  unfold getPropertiesMarkdown. destruct (deleteOmitted st p); [congruence|reflexivity].
Qed.

(** *** The splice *)

Lemma append_cons x (a b : string) : String x a +:+ b = String x (a +:+ b).
Proof. reflexivity. Qed.

Lemma append_nil_r (s : string) : s +:+ EmptyString = s.
Proof. induction s as [|c s IH]; [reflexivity|]. rewrite append_cons, IH. reflexivity. Qed.

Lemma append_assoc (a b c : string) : (a +:+ b) +:+ c = a +:+ (b +:+ c).
Proof.
  induction a as [|x a IH]; [reflexivity|]. rewrite !append_cons, IH. reflexivity.
Qed.



Lemma length_append (a b : string) :
  String.length (a +:+ b) = String.length a + String.length b.
Proof.
  induction a as [|x a IH]; [reflexivity|]. rewrite append_cons. simpl.
  rewrite IH. reflexivity.
Qed.











(** *** The patch and the restore on the world *)

Lemma patch_written file p md T w :
  snd (getPropertiesMarkdown (settings (plugin w)) p) = Some md ->
  readError (host w) = None ->
  vault (host w) !! file = Some T ->
  writeError (host w) = None ->
  patchFileForExport file p w
  = (Ok tt,
     setVault (<[file := patchedContent (settings (plugin w)) md T]> (vault (host w)))
       (setBackups (<[file := T]> (fileBackups (plugin w))) w)).
Proof.
  intros Hmd Hr Hv Hw. unfold patchFileForExport. rewrite Hmd. unfold_effects.
  rewrite Hr, Hv. simpl. rewrite Hw. reflexivity.
Qed.

Lemma patch_write_rejected file p md T e w :
  snd (getPropertiesMarkdown (settings (plugin w)) p) = Some md ->
  readError (host w) = None ->
  vault (host w) !! file = Some T ->
  writeError (host w) = Some e ->
  exists w', patchFileForExport file p w = (Throw e, w')
    /\ fileBackups (plugin w') !! file = None
    /\ vault (host w') = vault (host w)
    /\ console w'
       = console w ++ [LogError "Properties-on-export: error patching file for export" e].
Proof.
  intros Hmd Hr Hv Hw. unfold patchFileForExport. rewrite Hmd. unfold_effects.
  rewrite Hr, Hv. simpl. rewrite Hw. simpl.
  eexists. split; [reflexivity|]. simpl. rewrite lookup_delete_eq. auto.
Qed.

Lemma no_section_in_view view doc :
  querySelector isSection doc = None ->
  querySelector isSection (childrenOf view doc) = None.
Proof.
  intros H. destruct (querySelector isSection (childrenOf view doc)) eqn:E; [|reflexivity].
  apply childrenOf_section in E as [t Ht]. congruence.
Qed.

(** Without a preview section the injection is the guarded patch of the
    file, with the rows [getPropertiesHtml] has kept. *)
Lemma inject_falls_back w file fm :
  currentFile (plugin w) = Some file ->
  frontmatter (host w) !! file = Some fm ->
  displayProperties (settings (plugin w)) = true ->
  deleteOmitted (settings (plugin w)) (deleteKey "position" fm) <> [] ->
  is_Some (activeView (host w)) ->
  querySelector isSection (document (host w)) = None ->
  injectRenderedProperties w
  = tryCatch
      (patchFileForExport file
         (deleteOmitted (settings (plugin w)) (deleteKey "position" fm)))
      (consoleError "Properties-on-export: failed to patch file for export") w.
Proof.
  intros Hf Hfm Hd Hrows [view Hv] Hs.
  unfold injectRenderedProperties. rewrite Hf, Hfm, Hd. simpl.
  unfold getPropertiesHtml.
  destruct (deleteOmitted (settings (plugin w)) (deleteKey "position" fm)) eqn:E;
    [congruence|].
  rewrite Hv, (no_section_in_view view _ Hs), Hs. reflexivity.
Qed.

(** What the injection leaves when it patches the file. *)
Lemma inject_patch_written (w : World) (file : string) (fm : props) (T : string) :
  currentFile (plugin w) = Some file ->
  frontmatter (host w) !! file = Some fm ->
  displayProperties (settings (plugin w)) = true ->
  deleteOmitted (settings (plugin w)) (deleteKey "position" fm) <> [] ->
  is_Some (activeView (host w)) ->
  querySelector isSection (document (host w)) = None ->
  vault (host w) !! file = Some T ->
  readError (host w) = None ->
  writeError (host w) = None ->
  injectRenderedProperties w
  = (Ok tt,
     setVault
       (<[file := patchedContent (settings (plugin w))
                    (markdownOf (deleteOmitted (settings (plugin w))
                                   (deleteKey "position" fm))) T]>
          (vault (host w)))
       (setBackups (<[file := T]> (fileBackups (plugin w))) w)).
Proof.
  intros Hf Hfm Hd Hrows Hv Hs HT Hr Hw.
  rewrite (inject_falls_back w file fm Hf Hfm Hd Hrows Hv Hs).
  unfold tryCatch.
  rewrite (patch_written file _
             (markdownOf (deleteOmitted (settings (plugin w)) (deleteKey "position" fm)))
             T w); try assumption; [reflexivity|].
  rewrite getPropertiesMarkdown_rows; rewrite deleteOmitted_twice;
    [reflexivity|exact Hrows].
Qed.






(** With no block in the view, the removal goes on to the document and to the
    restore. *)
Lemma no_block_in_view view doc :
  querySelector isBlock (childrenOf view doc) = None ->
  rewriteWithin view removeFirstBlock doc = None.
Proof.
  unfold childrenOf, rewriteWithin. intros H.
  destruct (querySelector (hasRef view) doc) as [n|] eqn:E.
  - eapply query_some_rewrite_fails; [exact E|].
    destruct n as [r t c ks|html]; [|reflexivity].
    unfold removeFirstBlock. rewrite (query_none_rewrite _ _ _ H). reflexivity.
  - apply query_none_rewrite, E.
Qed.

Lemma restore_written active T w :
  activeFile (host w) = Some active ->
  fileBackups (plugin w) !! active = Some T ->
  T <> EmptyString ->
  writeError (host w) = None ->
  restoreBackup w
  = (Ok tt, setBackups (delete active (fileBackups (plugin w)))
              (setVault (<[active := T]> (vault (host w))) w)).
Proof.
  intros Ha Hb HT Hw. unfold restoreBackup. rewrite Ha, Hb.
  destruct T; [congruence|]. simpl. unfold_effects. rewrite Hw. reflexivity.
Qed.

Lemma restore_rejected active T e w :
  activeFile (host w) = Some active ->
  fileBackups (plugin w) !! active = Some T ->
  T <> EmptyString ->
  writeError (host w) = Some e ->
  restoreBackup w = (Throw e, w).
Proof.
  intros Ha Hb HT Hw. unfold restoreBackup. rewrite Ha, Hb.
  destruct T; [congruence|]. simpl. unfold_effects. rewrite Hw. reflexivity.
Qed.

(** The removal when it reaches the restore: the state it restores from. *)
Lemma remove_reaches_restore view w :
  activeView (host w) = Some view ->
  querySelector isBlock (childrenOf view (document (host w))) = None ->
  exists d,
    removeInjectedProperties w
    = tryCatch restoreBackup
        (consoleError "Properties-on-export: failed to restore original file after export")
        (setDocument d w).
Proof.
  intros Hv Hb. unfold removeInjectedProperties.
  rewrite Hv, (no_block_in_view view _ Hb).
  destruct (removeFirstBlock (document (host w))) as [d|]; [exists d; reflexivity|].
  exists (document (host w)). destruct w as [[] ? ? ?]. reflexivity.
Qed.

Lemma remove_restores view active T w :
  activeView (host w) = Some view ->
  querySelector isBlock (childrenOf view (document (host w))) = None ->
  activeFile (host w) = Some active ->
  fileBackups (plugin w) !! active = Some T ->
  T <> EmptyString ->
  writeError (host w) = None ->
  exists w', removeInjectedProperties w = (Ok tt, w')
    /\ vault (host w') = <[active := T]> (vault (host w))
    /\ fileBackups (plugin w') = delete active (fileBackups (plugin w)).
Proof.
  intros Hv Hb Ha Hbk HT Hw.
  destruct (remove_reaches_restore view w Hv Hb) as [d ->].
  unfold tryCatch. rewrite (restore_written active T); try assumption.
  eexists. split; [reflexivity|]. split; reflexivity.
Qed.

Lemma remove_keeps_backup view active T e w :
  activeView (host w) = Some view ->
  querySelector isBlock (childrenOf view (document (host w))) = None ->
  activeFile (host w) = Some active ->
  fileBackups (plugin w) !! active = Some T ->
  T <> EmptyString ->
  writeError (host w) = Some e ->
  exists w', removeInjectedProperties w = (Ok tt, w')
    /\ vault (host w') = vault (host w)
    /\ fileBackups (plugin w') = fileBackups (plugin w)
    /\ console w'
       = console w
         ++ [LogError "Properties-on-export: failed to restore original file after export" e].
Proof.
  intros Hv Hb Ha Hbk HT Hw.
  destruct (remove_reaches_restore view w Hv Hb) as [d ->].
  unfold tryCatch. rewrite (restore_rejected active T e); try assumption.
  eexists. split; [reflexivity|]. repeat split.
Qed.

(** The patch and the restore give the text back when it is not empty: the
    part of C4 that holds. *)
Lemma patch_then_restore (w : World) (file : string) (fm : props) (T : string) :
  currentFile (plugin w) = Some file ->
  activeFile (host w) = Some file ->
  frontmatter (host w) !! file = Some fm ->
  displayProperties (settings (plugin w)) = true ->
  deleteOmitted (settings (plugin w)) (deleteKey "position" fm) <> [] ->
  is_Some (activeView (host w)) ->
  querySelector isSection (document (host w)) = None ->
  querySelector isBlock (document (host w)) = None ->
  vault (host w) !! file = Some T ->
  readError (host w) = None ->
  writeError (host w) = None ->
  T <> EmptyString ->
  exists w1 w2,
    injectRenderedProperties w = (Ok tt, w1)
    /\ removeInjectedProperties w1 = (Ok tt, w2)
    /\ vault (host w2) = vault (host w)
    /\ fileBackups (plugin w2) = delete file (fileBackups (plugin w)).
Proof.
  intros Hf Ha Hfm Hd Hrows Hv Hs Hb HT Hr Hw Hne.
  pose proof (inject_patch_written w file fm T Hf Hfm Hd Hrows Hv Hs HT Hr Hw) as E1.
  destruct Hv as [view Hv].
  set (w1 := setVault _ _) in E1.
  assert (Hb1 : fileBackups (plugin w1) = <[file := T]> (fileBackups (plugin w)))
    by reflexivity.
  assert (Hd1 : document (host w1) = document (host w)) by reflexivity.
  assert (Hv1 : vault (host w1) = <[file := patchedContent (settings (plugin w))
                    (markdownOf (deleteOmitted (settings (plugin w))
                                   (deleteKey "position" fm))) T]> (vault (host w)))
    by reflexivity.
  assert (Hview : activeView (host w1) = Some view) by exact Hv.
  assert (Ha1 : activeFile (host w1) = Some file) by exact Ha.
  assert (Hw1 : writeError (host w1) = None) by exact Hw.
  clearbody w1.
  destruct (remove_restores view file T w1) as (w2 & E2 & Hv2 & Hb2); try assumption.
  - rewrite Hd1.
    destruct (querySelector isBlock (childrenOf view (document (host w)))) eqn:E;
      [|reflexivity].
    pose proof (query_count_pos _ _ _ E).
    pose proof (childrenOf_count isBlock view (document (host w))).
    pose proof (query_none_count _ _ Hb). lia.
  - rewrite Hb1. apply lookup_insert_eq.
  - exists w1, w2. split; [exact E1|]. split; [exact E2|]. split.
    + rewrite Hv2, Hv1, insert_insert_eq. apply insert_id, HT.
    + rewrite Hb2, Hb1. apply delete_insert_eq.
Qed.

(** C4 fails for the empty text. With an empty file (and frontmatter still in
    the cache) the patch writes the block and keeps the empty text as the
    backup; the removal takes the empty backup for none, so the file keeps the
    block and the backup stays. *)
Theorem empty_text_not_restored :
  let w1 := snd (injectRenderedProperties (reportWorld emptyDocument EmptyString)) in
  let w2 := snd (removeInjectedProperties w1) in
  vault (host w1) !! "report.md" = Some (markdownOf [("title", VStr "Report")])
  /\ fileBackups (plugin w1) !! "report.md" = Some EmptyString
  /\ fst (removeInjectedProperties w1) = Ok tt
  /\ vault (host w2) !! "report.md" = Some (markdownOf [("title", VStr "Report")])
  /\ vault (host w2) !! "report.md" <> Some EmptyString
  /\ fileBackups (plugin w2) !! "report.md" = Some EmptyString.
Proof. vm_compute. repeat split; discriminate. Qed.

(** C6 fails when the write of the restore is rejected: the backup is still
    there after the removal, the file keeps the patched text, and the failure
    is on the console. *)
Lemma backup_kept_when_restore_fails :
  let w := snd (removeInjectedProperties (patchedWorld (Some "EIO"))) in
  fst (removeInjectedProperties (patchedWorld (Some "EIO"))) = Ok tt
  /\ fileBackups (plugin w) !! "report.md" = Some reportText
  /\ vault (host w) !! "report.md"
     = Some (markdownOf [("title", VStr "Report")] +:+ reportText)
  /\ console w
     = [LogError "Properties-on-export: failed to restore original file after export"
          "EIO"].
Proof. vm_compute. repeat split. Qed.

(** C6, as [part_000] has it. When the write of the patch is rejected, the
    error is put on the console, the entry of the path is deleted, and the
    error is thrown; the file is as it was. When the removal reaches the
    restore with a backup that is not empty for the active file: if the write
    goes through, the file has the text of the backup and the entry is
    deleted; if the write is rejected, the removal still returns, the failure
    is on the console, and the entry is kept with the file as it was. *)
Theorem backup_lifetime :
  (forall w file p md T e,
      snd (getPropertiesMarkdown (settings (plugin w)) p) = Some md ->
      readError (host w) = None ->
      vault (host w) !! file = Some T ->
      writeError (host w) = Some e ->
      exists w', patchFileForExport file p w = (Throw e, w')
        /\ fileBackups (plugin w') !! file = None
        /\ vault (host w') = vault (host w)
        /\ console w'
           = console w
             ++ [LogError "Properties-on-export: error patching file for export" e])
  /\ (forall w view active T,
        activeView (host w) = Some view ->
        querySelector isBlock (childrenOf view (document (host w))) = None ->
        activeFile (host w) = Some active ->
        fileBackups (plugin w) !! active = Some T ->
        T <> EmptyString ->
        (writeError (host w) = None ->
           exists w', removeInjectedProperties w = (Ok tt, w')
             /\ vault (host w') !! active = Some T
             /\ fileBackups (plugin w') !! active = None)
        /\ (forall e, writeError (host w) = Some e ->
              exists w', removeInjectedProperties w = (Ok tt, w')
                /\ vault (host w') = vault (host w)
                /\ fileBackups (plugin w') !! active = Some T
                /\ console w'
                   = console w
                     ++ [LogError
                           "Properties-on-export: failed to restore original file after export"
                           e])).
Proof.
  split.
  - intros w file p md T e. apply patch_write_rejected.
  - intros w view active T Hv Hb Ha Hbk HT. split.
    + intros Hw.
      destruct (remove_restores view active T w Hv Hb Ha Hbk HT Hw) as (w' & E & H1 & H2).
      exists w'. rewrite H1, H2, lookup_insert_eq, lookup_delete_eq. auto.
    + intros e Hw.
      destruct (remove_keeps_backup view active T e w Hv Hb Ha Hbk HT Hw)
        as (w' & E & H1 & H2 & H3).
      exists w'. rewrite H1, H2, H3. auto.
Qed.

Lemma backup_lifetime_witness :
  (exists w',
      patchFileForExport "report.md" [("title", VStr "Report")]
        (withHost (reportHost emptyDocument reportText (Some "EIO"))
           (reportWorld emptyDocument reportText))
      = (Throw "EIO", w')
      /\ fileBackups (plugin w') !! "report.md" = None)
  /\ (exists w', removeInjectedProperties (patchedWorld None) = (Ok tt, w')
        /\ vault (host w') !! "report.md" = Some reportText
        /\ fileBackups (plugin w') !! "report.md" = None)
  /\ (exists w', removeInjectedProperties (patchedWorld (Some "EIO")) = (Ok tt, w')
        /\ fileBackups (plugin w') !! "report.md" = Some reportText).
Proof.
  destruct backup_lifetime as [Hpatch Hrestore]. repeat split.
  - destruct (Hpatch (withHost (reportHost emptyDocument reportText (Some "EIO"))
                        (reportWorld emptyDocument reportText))
                "report.md" [("title", VStr "Report")]
                (markdownOf [("title", VStr "Report")]) reportText "EIO")
      as (w' & E & Hb & _); try reflexivity.
    exists w'. split; [exact E|exact Hb].
  - destruct (Hrestore (patchedWorld None) 2 "report.md" reportText) as [Hok _];
      try reflexivity; [discriminate|].
    destruct (Hok eq_refl) as (w' & E & H1 & H2). exists w'. auto.
  - destruct (Hrestore (patchedWorld (Some "EIO")) 2 "report.md" reportText) as [_ Hko];
      try reflexivity; [discriminate|].
    destruct (Hko "EIO" eq_refl) as (w' & E & _ & H2 & _). exists w'. auto.
Defined.

(** * The intercepted commands *)

Lemma invoke_wrapper_throw host_run fuel cb args w w1 orig e w2 w3 :
  isIntercepted cb ->
  injectRenderedProperties (snd (recordCall cb w)) = (Ok tt, w1) ->
  originalPrintCallback (plugin w1) = Some orig ->
  invoke host_run fuel orig args w1 = (Throw e, w2) ->
  removeInjectedProperties w2 = (Ok tt, w3) ->
  invoke host_run (S fuel) cb args w = (Throw e, w3).
Proof.
  intros Hcb Hinj Horig Hrun Hrm.
  destruct Hcb as [-> | [id ->]]; simpl;
    unfold printCallback, exportCallback, applyOriginal; unfold_effects;
    simpl in *; rewrite Hinj, Horig, Hrun, Hrm; reflexivity.
Qed.

(** X24. A call of the callback put on [editor:print], [export-pdf] or
    [app:export-pdf], in any world: when the saved original throws [e], the
    removal runs on the world the original has left, and the call throws [e]
    from the world the removal has left. In that world, when the removal
    has reached its restore step (an active view with no block in it) with a
    backup that is not empty for the active file and the vault takes the
    write, the file has the text of the backup and the entry is gone. *)
Theorem intercepted_command_removes_on_throw host_run fuel cb args w w1 orig e w2 :
  isIntercepted cb ->
  injectRenderedProperties (snd (recordCall cb w)) = (Ok tt, w1) ->
  originalPrintCallback (plugin w) = Some orig ->
  invoke host_run fuel orig args w1 = (Throw e, w2) ->
  exists w3,
    removeInjectedProperties w2 = (Ok tt, w3)
    /\ invoke host_run (S fuel) cb args w = (Throw e, w3)
    /\ forall view active T,
         activeView (host w2) = Some view ->
         querySelector isBlock (childrenOf view (document (host w2))) = None ->
         activeFile (host w2) = Some active ->
         fileBackups (plugin w2) !! active = Some T ->
         T <> EmptyString ->
         writeError (host w2) = None ->
         vault (host w3) !! active = Some T
         /\ fileBackups (plugin w3) !! active = None.
Proof.
  intros Hcb Hinj Horig Hrun.
  destruct (remove_total w2) as (w3 & Hrm & _).
  exists w3. split; [exact Hrm|]. split.
  - apply (invoke_wrapper_throw host_run fuel cb args w w1 orig e w2 w3);
      try assumption.
    destruct (inject_total (snd (recordCall cb w))) as (w1' & E & _ & _ & Ho & _).
    rewrite Hinj in E. injection E as <-. rewrite Ho. exact Horig.
  - intros view active T Hv Hb Ha Hbk HT Hw.
    destruct (remove_restores view active T w2 Hv Hb Ha Hbk HT Hw)
      as (w3' & E & H1 & H2).
    rewrite Hrm in E. injection E as <-.
    rewrite H1, H2, lookup_insert_eq, lookup_delete_eq. auto.
Qed.

Lemma intercepted_command_removes_on_throw_witness :
  exists w3,
    invoke failingPrint 1 PrintWrapper []
      (onload (reportWorld previewDocument reportText))
    = (Throw "print failed", w3)
    /\ blocksOf w3 = 0.
Proof.
  destruct (intercepted_command_removes_on_throw failingPrint 0 PrintWrapper []
              (onload (reportWorld previewDocument reportText))
              (snd (injectRenderedProperties
                      (snd (recordCall PrintWrapper
                              (onload (reportWorld previewDocument reportText))))))
              (HostFn 0) "print failed"
              (snd (invoke failingPrint 0 (HostFn 0) []
                      (snd (injectRenderedProperties
                              (snd (recordCall PrintWrapper
                                      (onload (reportWorld previewDocument
                                                 reportText)))))))))
    as (w3 & Hrm & Hrun & _).
  - left. reflexivity.
  - vm_compute. reflexivity.
  - vm_compute. reflexivity.
  - vm_compute. reflexivity.
  - exists w3. split; [exact Hrun|].
    vm_compute in Hrm. injection Hrm as <-. vm_compute. reflexivity.
Defined.

(** The removal returns before its restore step when there is no active view
    and when it finds a block in the active view. *)
Lemma remove_skips_restore w :
  (activeView (host w) = None
   \/ exists view b,
        activeView (host w) = Some view
        /\ querySelector isBlock (childrenOf view (document (host w))) = Some b) ->
  exists w', removeInjectedProperties w = (Ok tt, w')
    /\ vault (host w') = vault (host w)
    /\ fileBackups (plugin w') = fileBackups (plugin w)
    /\ console w' = console w.
Proof.
  intros [Hv | (view & b & Hv & Hb)]; unfold removeInjectedProperties; rewrite Hv.
  - exists w. auto.
  - cbv zeta.
    destruct (rewriteWithin_some view removeFirstBlock (document (host w)))
      as [d Hd].
    + unfold removeFirstBlock. eapply query_some_rewrite; [exact Hb|eauto].
    + intros ks [ks' Hks] ->. discriminate.
    + rewrite Hd. exists (setDocument d w). auto.
Qed.

(** C5. The restore is not part of every removal. A call of the callback put
    on [editor:print], [export-pdf] or [app:export-pdf] whose saved original
    throws [e]: the removal runs and the call throws [e], but when the
    original leaves no active view, or a block in the active view, the
    removal returns before its restore step. A backup that waits for the
    active file is then still there after the call, and the file still has
    the patched text. *)
Theorem restore_skipped_after_throw host_run fuel cb args w w1 orig e w2 active T :
  isIntercepted cb ->
  injectRenderedProperties (snd (recordCall cb w)) = (Ok tt, w1) ->
  originalPrintCallback (plugin w) = Some orig ->
  invoke host_run fuel orig args w1 = (Throw e, w2) ->
  activeFile (host w2) = Some active ->
  fileBackups (plugin w2) !! active = Some T ->
  T <> EmptyString ->
  (activeView (host w2) = None
   \/ exists view b,
        activeView (host w2) = Some view
        /\ querySelector isBlock (childrenOf view (document (host w2))) = Some b) ->
  exists w3,
    invoke host_run (S fuel) cb args w = (Throw e, w3)
    /\ vault (host w3) = vault (host w2)
    /\ fileBackups (plugin w3) !! active = Some T.
Proof.
  intros Hcb Hinj Horig Hrun Ha Hbk HT Hskip.
  destruct (remove_skips_restore w2 Hskip) as (w3 & Hrm & Hv & Hb & _).
  exists w3. split; [|split; [exact Hv|rewrite Hb; exact Hbk]].
  apply (invoke_wrapper_throw host_run fuel cb args w w1 orig e w2 w3);
    try assumption.
  destruct (inject_total (snd (recordCall cb w))) as (w1' & E & _ & _ & Ho & _).
  rewrite Hinj in E. injection E as <-. rewrite Ho. exact Horig.
Qed.

Lemma restore_skipped_after_throw_witness :
  exists w3,
    invoke renderingPrint 1 PrintWrapper []
      (onload (reportWorld emptyDocument reportText))
    = (Throw "print failed", w3)
    /\ vault (host w3) !! "report.md"
       = Some ("intro" +:+ nl +:+ "# Head" +:+ nl
               +:+ markdownOf [("title", VStr "Report")] +:+ "body")
    /\ fileBackups (plugin w3) !! "report.md" = Some reportText.
Proof.
  destruct (restore_skipped_after_throw renderingPrint 0 PrintWrapper []
              (onload (reportWorld emptyDocument reportText))
              (snd (injectRenderedProperties
                      (snd (recordCall PrintWrapper
                              (onload (reportWorld emptyDocument reportText))))))
              (HostFn 0) "print failed"
              (snd (invoke renderingPrint 0 (HostFn 0) []
                      (snd (injectRenderedProperties
                              (snd (recordCall PrintWrapper
                                      (onload (reportWorld emptyDocument
                                                 reportText))))))))
              "report.md" reportText)
    as (w3 & Hrun & Hv & Hb).
  - left. reflexivity.
  - vm_compute. reflexivity.
  - vm_compute. reflexivity.
  - vm_compute. reflexivity.
  - reflexivity.
  - vm_compute. reflexivity.
  - discriminate.
  - right. exists 2, (Block "<table></table>"). split; vm_compute; reflexivity.
  - exists w3. split; [exact Hrun|]. rewrite Hv. split; [|exact Hb].
    vm_compute. reflexivity.
Defined.

(** * The command table *)

Lemma setCallback_lookup id cb cmds id' :
  setCallback id cb cmds !! id'
  = if decide (id = id')
    then (fun c => {| cmdName := cmdName c; callback := Some cb |}) <$> cmds !! id
    else cmds !! id'.
Proof.
  unfold setCallback. destruct (decide (id = id')) as [<-|Hne].
  - apply lookup_alter_eq.
  - apply lookup_alter_ne, Hne.
Qed.

Lemma patchPrint_commands cmds w :
  commands (host w) = Some cmds ->
  exists c1,
    commands (host (patchPrint cmds w)) = Some c1
    /\ (forall id, id <> "editor:print" -> c1 !! id = cmds !! id)
    /\ (forall c, cmds !! "editor:print" = Some c ->
          c1 !! "editor:print"
          = Some (if isPrintPatched (plugin w) then c
                  else {| cmdName := cmdName c; callback := Some PrintWrapper |})).
Proof.
  intros Hc. unfold patchPrint. destruct (cmds !! "editor:print") as [pc|] eqn:Ep.
  - destruct (isPrintPatched (plugin w)); simpl.
    + exists cmds. split; [exact Hc|]. split; [reflexivity|].
      intros c [= <-]. exact Ep.
    + eexists. split; [reflexivity|]. split.
      * intros id Hne. rewrite setCallback_lookup.
        destruct (decide ("editor:print" = id)); [congruence|reflexivity].
      * intros c [= <-]. rewrite setCallback_lookup, Ep.
        destruct (decide ("editor:print" = "editor:print")); [reflexivity|congruence].
  - exists cmds. split; [exact Hc|]. split; [reflexivity|]. discriminate.
Qed.

Lemma patchExport_commands cmds id w ca :
  commands (host w) = Some ca ->
  exists cb,
    commands (host (patchExport cmds id w)) = Some cb
    /\ (forall id', id' <> id -> cb !! id' = ca !! id')
    /\ (forall c, cmds !! id = Some c ->
          cb !! id = (fun c => {| cmdName := cmdName c;
                                  callback := Some (ExportWrapper id) |}) <$> ca !! id).
Proof.
  intros Ha. unfold patchExport. destruct (cmds !! id) as [c|] eqn:Ei.
  - simpl. rewrite Ha. simpl. eexists. split; [reflexivity|]. split.
    + intros id' Hne. rewrite setCallback_lookup.
      destruct (decide (id = id')); [congruence|reflexivity].
    + intros c' _. rewrite setCallback_lookup.
      destruct (decide (id = id)); [reflexivity|congruence].
  - exists ca. split; [exact Ha|]. split; [reflexivity|]. discriminate.
Qed.

(** The table after [onload]: the entries it patches and the others. *)
Lemma onload_commands w cmds :
  commands (host w) = Some cmds ->
  exists cmds',
    commands (host (onload w)) = Some cmds'
    /\ (forall id c, (id = "export-pdf" \/ id = "app:export-pdf") ->
          cmds !! id = Some c ->
          cmds' !! id = Some {| cmdName := cmdName c; callback := Some (ExportWrapper id) |})
    /\ (forall id, id <> "editor:print" -> id <> "export-pdf" -> id <> "app:export-pdf" ->
          cmds' !! id = cmds !! id)
    /\ (forall c, cmds !! "editor:print" = Some c ->
          cmds' !! "editor:print"
          = Some (if isPrintPatched (plugin w) then c
                  else {| cmdName := cmdName c; callback := Some PrintWrapper |})).
Proof.
  intros Hc. unfold onload.
  change (commands (host (setCurrentFile (activeFile (host w)) w)))
    with (commands (host w)).
  rewrite Hc.
  destruct (patchPrint_commands cmds (setCurrentFile (activeFile (host w)) w) Hc)
    as (c1 & Hc1 & Hother1 & Hprint1).
  destruct (patchExport_commands cmds "export-pdf" _ c1 Hc1)
    as (c2 & Hc2 & Hother2 & Hexp2).
  destruct (patchExport_commands cmds "app:export-pdf" _ c2 Hc2)
    as (c3 & Hc3 & Hother3 & Hexp3).
  exists c3. split; [exact Hc3|]. split; [|split].
  - intros id c [-> | ->] Hid.
    + rewrite Hother3 by discriminate. rewrite (Hexp2 c Hid).
      rewrite Hother1 by discriminate. rewrite Hid. reflexivity.
    + rewrite (Hexp3 c Hid). rewrite Hother2 by discriminate.
      rewrite Hother1 by discriminate. rewrite Hid. reflexivity.
  - intros id H1 H2 H3. rewrite Hother3, Hother2, Hother1 by assumption. reflexivity.
  - intros c Hp. rewrite Hother3, Hother2 by discriminate. apply Hprint1, Hp.
Qed.

(** What [onload] saves: the callback of [editor:print], once. *)
Lemma onload_saved w cmds :
  commands (host w) = Some cmds ->
  originalPrintCallback (plugin (onload w))
  = match cmds !! "editor:print" with
    | Some printCommand =>
        if isPrintPatched (plugin w) then originalPrintCallback (plugin w)
        else callback printCommand
    | None => originalPrintCallback (plugin w)
    end
  /\ isPrintPatched (plugin (onload w))
     = match cmds !! "editor:print" with
       | Some _ => true
       | None => isPrintPatched (plugin w)
       end.
Proof.
  intros Hc. unfold onload.
  change (commands (host (setCurrentFile (activeFile (host w)) w)))
    with (commands (host w)).
  rewrite Hc. unfold patchPrint.
  change (isPrintPatched (plugin (setCurrentFile (activeFile (host w)) w)))
    with (isPrintPatched (plugin w)).
  destruct (cmds !! "editor:print") as [pc|];
    destruct (isPrintPatched (plugin w)) eqn:Ep; unfold patchExport;
    destruct (cmds !! "export-pdf"), (cmds !! "app:export-pdf"); simpl;
    rewrite ?Ep; split; reflexivity.
Qed.

(** The table after [onunload]: only the entry of [editor:print] can
    change. *)
Lemma onunload_commands w cmds :
  commands (host w) = Some cmds ->
  exists cmds',
    commands (host (onunload w)) = Some cmds'
    /\ forall id, id <> "editor:print" -> cmds' !! id = cmds !! id.
Proof.
  intros Hc. unfold onunload. rewrite Hc.
  destruct (cmds !! "editor:print"); [|eauto].
  destruct (isPrintPatched (plugin w)); [|eauto].
  destruct (originalPrintCallback (plugin w)); [|eauto].
  eexists. split; [reflexivity|]. intros id Hne. rewrite setCallback_lookup.
  destruct (decide ("editor:print" = id)); [congruence|reflexivity].
Qed.

(** Without an interception [onunload] changes nothing. *)
Lemma onunload_unpatched w : isPrintPatched (plugin w) = false -> onunload w = w.
Proof.
  intros H. unfold onunload. destruct (commands (host w)) as [cmds|]; [|reflexivity].
  destruct (cmds !! "editor:print"); [|reflexivity]. rewrite H. reflexivity.
Qed.

(** C9 fails for the export commands. When the table has an [export-pdf]
    command (the same holds of [app:export-pdf]), [onload] puts its own
    callback on it and [onunload] leaves that callback there: the table after
    [onunload] is not the table before [onload]. *)
Theorem export_callback_not_restored w cmds id c :
  id = "export-pdf" \/ id = "app:export-pdf" ->
  commands (host w) = Some cmds ->
  cmds !! id = Some c ->
  callback c <> Some (ExportWrapper id) ->
  exists cmds',
    commands (host (onunload (onload w))) = Some cmds'
    /\ cmds' !! id = Some {| cmdName := cmdName c; callback := Some (ExportWrapper id) |}
    /\ commands (host (onunload (onload w))) <> commands (host w).
Proof.
  intros Hid Hc Hlook Hcb.
  destruct (onload_commands w cmds Hc) as (c1 & Hc1 & Hexp & _).
  destruct (onunload_commands (onload w) c1 Hc1) as (c2 & Hc2 & Hother).
  assert (Hentry : c2 !! id
                   = Some {| cmdName := cmdName c; callback := Some (ExportWrapper id) |}).
  { rewrite Hother; [apply Hexp; assumption|]. destruct Hid as [-> | ->]; discriminate. }
  exists c2. split; [exact Hc2|]. split; [exact Hentry|].
  rewrite Hc2, Hc. intros [= ->]. rewrite Hlook in Hentry.
  injection Hentry as Hentry. apply Hcb. rewrite Hentry. reflexivity.
Qed.

Lemma export_callback_not_restored_witness :
  commands (host (onunload (onload (reportWorld previewDocument reportText))))
  <> commands (host (reportWorld previewDocument reportText)).
Proof.
  destruct (export_callback_not_restored (reportWorld previewDocument reportText)
              reportCommands "export-pdf"
              {| cmdName := "Export to PDF"; callback := Some (HostFn 1) |})
    as (cmds' & _ & _ & Hne).
  - left. reflexivity.
  - reflexivity.
  - reflexivity.
  - discriminate.
  - exact Hne.
Defined.

(** The part of C9 that holds: with a callback on [editor:print] and no
    export command in the table, [onunload] after [onload] gives the table
    back. *)
Lemma print_callback_restored w cmds c orig :
  commands (host w) = Some cmds ->
  isPrintPatched (plugin w) = false ->
  cmds !! "editor:print" = Some c ->
  callback c = Some orig ->
  cmds !! "export-pdf" = None ->
  cmds !! "app:export-pdf" = None ->
  commands (host (onunload (onload w))) = Some cmds.
Proof.
  intros Hc Hp Hlook Hcb He Ha.
  unfold onload, patchExport, patchPrint. simpl. rewrite Hc, Hlook, Hp, He, Ha. simpl.
  unfold onunload. simpl. rewrite setCallback_lookup, Hlook. simpl. rewrite Hcb.
  simpl.
  enough (H : setCallback "editor:print" orig
                (setCallback "editor:print" PrintWrapper cmds) = cmds)
    by (rewrite H; reflexivity).
  apply map_eq. intros id. rewrite !setCallback_lookup.
  destruct (decide ("editor:print" = id)) as [<-|Hne]; [|reflexivity].
  rewrite Hlook. simpl. destruct c as [name cb]. simpl in *. subst cb. reflexivity.
Qed.




(** * Further properties: the formatter of [part_000] *)

Lemma allChars_app p a b : allChars p (a +:+ b) = allChars p a && allChars p b.
Proof.
  induction a as [|x a IH]; [reflexivity|]. rewrite append_cons. simpl.
  rewrite IH, andb_assoc. reflexivity.
Qed.

Lemma allChars_weaken (p q : ascii -> bool) s :
  (forall c, p c = true -> q c = true) -> allChars p s = true -> allChars q s = true.
Proof.
  intros H. induction s as [|x s IH]; simpl; [reflexivity|].
  intros Hs. apply andb_true_iff in Hs as [Hx Hr].
  rewrite (H x Hx), (IH Hr). reflexivity.
Qed.

Lemma escapeHtml_app a b : escapeHtml (a +:+ b) = escapeHtml a +:+ escapeHtml b.
Proof.
  induction a as [|x a IH]; [reflexivity|]. rewrite append_cons. simpl.
  rewrite IH, append_assoc. reflexivity.
Qed.

Lemma escapeChar_safe c : allChars (fun x => negb (isAngleOrQuote x)) (escapeChar c) = true.
Proof.
  unfold escapeChar.
  destruct (Ascii.eqb c "&"%char) eqn:E1; [reflexivity|].
  destruct (Ascii.eqb c "<"%char) eqn:E2; [reflexivity|].
  destruct (Ascii.eqb c ">"%char) eqn:E3; [reflexivity|].
  destruct (Ascii.eqb c "034"%char) eqn:E4; [reflexivity|].
  destruct (Ascii.eqb c "'"%char) eqn:E5; [reflexivity|].
  simpl. unfold isAngleOrQuote. rewrite E2, E3, E4, E5. reflexivity.
Qed.

Lemma escapeHtml_no_markup s :
  allChars (fun x => negb (isAngleOrQuote x)) (escapeHtml s) = true.
Proof.
  induction s as [|c s IH]; [reflexivity|]. simpl.
  rewrite allChars_app, escapeChar_safe, IH. reflexivity.
Qed.

Lemma escapeHtml_plain s :
  allChars (fun x => negb (isMeta x)) s = true -> escapeHtml s = s.
Proof.
  induction s as [|c s IH]; [reflexivity|]. simpl.
  intros H. apply andb_true_iff in H as [Hc Hs]. rewrite (IH Hs).
  apply negb_true_iff in Hc. unfold isMeta in Hc.
  repeat (apply orb_false_iff in Hc as [Hc ?]).
  unfold escapeChar. rewrite Hc, H2, H1, H0, H. reflexivity.
Qed.

Lemma escapeChar_cases c :
  (isMeta c = false /\ escapeChar c = String c EmptyString)
  \/ (isMeta c = true /\ 4 <= String.length (escapeChar c)).
Proof.
  unfold escapeChar, isMeta.
  destruct (Ascii.eqb c "&"%char); [right; split; [reflexivity|simpl; lia]|].
  destruct (Ascii.eqb c "<"%char); [right; split; [reflexivity|simpl; lia]|].
  destruct (Ascii.eqb c ">"%char); [right; split; [reflexivity|simpl; lia]|].
  destruct (Ascii.eqb c "034"%char); [right; split; [reflexivity|simpl; lia]|].
  destruct (Ascii.eqb c "'"%char); [right; split; [reflexivity|simpl; lia]|].
  left. split; reflexivity.
Qed.

Lemma escapeHtml_length s : String.length s <= String.length (escapeHtml s).
Proof.
  induction s as [|c s IH]; [reflexivity|]. simpl. rewrite length_append.
  destruct (escapeChar_cases c) as [[_ ->] | [_ H]]; simpl; lia.
Qed.

(** X1. What [escapeHtml] returns has no [<], [>], double quote or single
    quote in it, whatever the text; a text with none of the five characters
    comes back as it is, and a text that comes back as it is has none of
    them. *)
Theorem escapeHtml_output_safe (s : string) :
  allChars (fun c => negb (isAngleOrQuote c)) (escapeHtml s) = true
  /\ (allChars (fun c => negb (isMeta c)) s = true <-> escapeHtml s = s).
Proof.
  split; [apply escapeHtml_no_markup|]. split; [apply escapeHtml_plain|].
  induction s as [|c s IH]; [reflexivity|]. simpl. intros H.
  pose proof (f_equal String.length H) as Hlen. rewrite length_append in Hlen.
  simpl in Hlen. pose proof (escapeHtml_length s).
  destruct (escapeChar_cases c) as [[Hm Hc] | [_ Hc]]; [|lia].
  rewrite Hm. simpl. rewrite Hc in H. rewrite append_cons in H. injection H as H.
  apply IH, H.
Qed.

Lemma escapeHtml_output_safe_witness :
  escapeHtml "plain text" = "plain text"
  /\ allChars (fun c => negb (isMeta c)) "a-b" = true.
Proof.
  split.
  - apply (proj1 (proj2 (escapeHtml_output_safe "plain text"))). reflexivity.
  - apply (proj2 (proj2 (escapeHtml_output_safe "a-b"))). reflexivity.
Defined.

Lemma digits_app n d rest : digitsOf n d -> digits n (d +:+ rest) = Some (d, rest).
Proof.
  intros [Hlen Hd]. revert n Hlen. induction d as [|c d IH]; intros n Hlen.
  - simpl in Hlen. subst n. reflexivity.
  - simpl in Hlen. subst n. rewrite append_cons. simpl in *.
    apply andb_true_iff in Hd as [Hc Hd]. rewrite Hc, (IH Hd _ eq_refl). reflexivity.
Qed.

Lemma digits_exact n d : digitsOf n d -> digits n d = Some (d, EmptyString).
Proof. intros H. rewrite <- (append_nil_r d) at 1. apply digits_app, H. Qed.

(** The expression of the date matches a text made of its parts. *)
Lemma dateMatch_parts y mo d sep hh mi tail :
  digitsOf 4 y -> digitsOf 2 mo -> digitsOf 2 d ->
  sep = "T"%char \/ sep = " "%char ->
  digitsOf 2 hh -> digitsOf 2 mi ->
  tail = EmptyString \/ (exists ss, digitsOf 2 ss /\ tail = String ":"%char ss) ->
  dateMatch (y +:+ String "-"%char (mo +:+ String "-"%char
               (d +:+ String sep (hh +:+ String ":"%char (mi +:+ tail)))))
  = Some (y +:+ "-" +:+ mo +:+ "-" +:+ d, hh, mi).
Proof.
  intros Hy Hmo Hd Hsep Hhh Hmi Htail. unfold dateMatch.
  rewrite (digits_app 4 y _ Hy). cbn -[digits].
  rewrite (digits_app 2 mo _ Hmo). cbn -[digits].
  rewrite (digits_app 2 d _ Hd). cbn -[digits].
  assert (Hs : Ascii.eqb sep "T"%char || Ascii.eqb sep " "%char = true)
    by (destruct Hsep as [-> | ->]; reflexivity).
  rewrite Hs. cbn -[digits].
  rewrite (digits_app 2 hh _ Hhh). cbn -[digits].
  destruct Htail as [-> | (ss & Hss & ->)].
  - rewrite (digits_app 2 mi _ Hmi). reflexivity.
  - rewrite (digits_app 2 mi _ Hmi). cbn -[digits].
    rewrite (digits_exact 2 ss Hss). reflexivity.
Qed.

Lemma digit_not_meta c : isDigit c = true -> negb (isMeta c) = true.
Proof.
  unfold isDigit, isMeta. intros H. apply andb_true_iff in H as [H1 H2].
  apply Nat.leb_le in H1, H2. apply negb_true_iff.
  repeat (apply orb_false_iff; split); apply Ascii.eqb_neq; intros ->;
    vm_compute in H1, H2; lia.
Qed.

Lemma digits_not_meta n s : digitsOf n s -> allChars (fun c => negb (isMeta c)) s = true.
Proof. intros [_ H]. apply (allChars_weaken isDigit); [apply digit_not_meta|exact H]. Qed.

Lemma hour12_not_meta hh : allChars (fun c => negb (isMeta c)) (hour12 hh) = true.
Proof.
  unfold hour12.
  pose proof (Nat.mod_upper_bound (parseInt hh) 12 ltac:(lia)) as Hlt.
  set (h := parseInt hh mod 12) in *. clearbody h.
  do 12 (destruct h as [|h]; [reflexivity|]). lia.
Qed.

(** X2. For a text made of a date of digits [YYYY-MM-DD], a [T] or a space,
    two digits of hours, a colon and two digits of minutes, [valueToHtml] of
    [part_000] gives the date, a space, the hour on the twelve-hour clock
    on two digits, the minutes and [AM] or [PM], with no colon and nothing
    escaped; the same text followed by a colon and two digits of seconds gives
    the same, the seconds being dropped. The digits are not checked against
    the range of hours or minutes. *)
Theorem date_time_formatting (y mo d : string) (sep : ascii) (hh mi : string) :
  digitsOf 4 y -> digitsOf 2 mo -> digitsOf 2 d ->
  sep = "T"%char \/ sep = " "%char ->
  digitsOf 2 hh -> digitsOf 2 mi ->
  let date := y +:+ "-" +:+ mo +:+ "-" +:+ d in
  valueToHtml (VStr (date +:+ String sep (hh +:+ ":" +:+ mi)))
  = date +:+ " " +:+ hour12 hh +:+ mi +:+ ampm hh
  /\ forall ss, digitsOf 2 ss ->
       valueToHtml (VStr (date +:+ String sep (hh +:+ ":" +:+ mi +:+ ":" +:+ ss)))
       = date +:+ " " +:+ hour12 hh +:+ mi +:+ ampm hh.
Proof.
  intros Hy Hmo Hd Hsep Hhh Hmi date.
  assert (Hshape : forall tail,
             date +:+ String sep (hh +:+ ":" +:+ mi +:+ tail)
             = y +:+ String "-"%char (mo +:+ String "-"%char
                 (d +:+ String sep (hh +:+ String ":"%char (mi +:+ tail))))).
  { intros tail. unfold date. rewrite !append_assoc. reflexivity. }
  assert (Hout : forall tail,
             tail = EmptyString \/ (exists ss, digitsOf 2 ss /\ tail = String ":"%char ss) ->
             valueToHtml (VStr (date +:+ String sep (hh +:+ ":" +:+ mi +:+ tail)))
             = date +:+ " " +:+ hour12 hh +:+ mi +:+ ampm hh).
  { intros tail Htail. rewrite Hshape.
    unfold valueToHtml, toStr.
    rewrite (dateMatch_parts y mo d sep hh mi tail); try assumption.
    fold date. fold (hour12 hh). fold (ampm hh).
    rewrite !escapeHtml_plain; [reflexivity| |].
    - rewrite !allChars_app, hour12_not_meta, (digits_not_meta 2 mi Hmi).
      unfold ampm. destruct (Nat.leb 12 (parseInt hh)); reflexivity.
    - unfold date. rewrite !allChars_app, (digits_not_meta 4 y Hy),
        (digits_not_meta 2 mo Hmo), (digits_not_meta 2 d Hd). reflexivity. }
  split.
  - rewrite <- (append_nil_r mi) at 1. apply Hout. left. reflexivity.
  - intros ss Hss. apply (Hout (String ":"%char ss)). right. eauto.
Qed.

Lemma date_time_formatting_witness :
  valueToHtml (VStr "2024-01-05T14:30") = "2024-01-05 0230PM"
  /\ valueToHtml (VStr "2024-01-05T14:30:59") = "2024-01-05 0230PM".
Proof.
  assert (H4 : digitsOf 4 "2024") by (split; reflexivity).
  assert (H01 : digitsOf 2 "01") by (split; reflexivity).
  assert (H05 : digitsOf 2 "05") by (split; reflexivity).
  assert (H14 : digitsOf 2 "14") by (split; reflexivity).
  assert (H30 : digitsOf 2 "30") by (split; reflexivity).
  assert (H59 : digitsOf 2 "59") by (split; reflexivity).
  destruct (date_time_formatting "2024" "01" "05" "T"%char "14" "30"
              H4 H01 H05 (or_introl eq_refl) H14 H30) as [Ha Hb].
  split; [exact Ha|exact (Hb "59" H59)].
Defined.

Lemma digits_inv n s d rest :
  digits n s = Some (d, rest) -> s = d +:+ rest /\ allChars isDigit d = true.
Proof.
  revert s d rest. induction n as [|n IH]; simpl; intros s d rest.
  - intros [= <- <-]. split; reflexivity.
  - destruct s as [|c s]; [discriminate|].
    destruct (isDigit c) eqn:Ec; [|discriminate].
    destruct (digits n s) as [[d' rest']|] eqn:E; [|discriminate].
    intros [= <- <-]. destruct (IH _ _ _ E) as [-> Hd].
    split; [reflexivity|]. simpl. rewrite Ec, Hd. reflexivity.
Qed.

Lemma lit_inv c s r : lit c s = Some r -> s = String c r.
Proof.
  unfold lit. destruct s as [|c' s]; [discriminate|].
  destruct (Ascii.eqb c c') eqn:E; [|discriminate].
  apply Ascii.eqb_eq in E. subst c'. intros [= <-]. reflexivity.
Qed.

Lemma digits_dateChars d : allChars isDigit d = true -> allChars isDateChar d = true.
Proof.
  apply allChars_weaken. intros c H. unfold isDateChar. rewrite H. reflexivity.
Qed.

(** A text the expression of the date matches is made of digits, [-], [T],
    space and [:]. *)
Lemma dateMatch_chars s r : dateMatch s = Some r -> allChars isDateChar s = true.
Proof.
  unfold dateMatch.
  destruct (digits 4 s) as [[y s1]|] eqn:E1; [|discriminate]. cbn -[digits].
  destruct (lit "-"%char s1) as [s2|] eqn:E2; [|discriminate]. cbn -[digits].
  destruct (digits 2 s2) as [[mo s3]|] eqn:E3; [|discriminate]. cbn -[digits].
  destruct (lit "-"%char s3) as [s4|] eqn:E4; [|discriminate]. cbn -[digits].
  destruct (digits 2 s4) as [[d s5]|] eqn:E5; [|discriminate]. cbn -[digits].
  apply digits_inv in E1 as [-> Hy], E3 as [-> Hmo], E5 as [-> Hd].
  apply lit_inv in E2 as ->, E4 as ->.
  destruct s5 as [|sep s6]; [discriminate|].
  destruct (Ascii.eqb sep "T"%char || Ascii.eqb sep " "%char) eqn:Es; [|discriminate].
  cbn -[digits].
  destruct (digits 2 s6) as [[hh s7]|] eqn:E6; [|discriminate]. cbn -[digits].
  destruct (lit ":"%char s7) as [s8|] eqn:E7; [|discriminate]. cbn -[digits].
  destruct (digits 2 s8) as [[mi s9]|] eqn:E8; [|discriminate]. cbn -[digits].
  apply digits_inv in E6 as [-> Hhh], E8 as [-> Hmi]. apply lit_inv in E7 as ->.
  assert (Hsep : isDateChar sep = true).
  { unfold isDateChar. apply orb_true_iff in Es as [-> | ->];
      rewrite ?orb_true_r; reflexivity. }
  assert (Hfront : forall tail, allChars isDateChar tail = true ->
             allChars isDateChar
               (y +:+ String "-"%char (mo +:+ String "-"%char
                  (d +:+ String sep (hh +:+ String ":"%char (mi +:+ tail))))) = true).
  { intros tail Ht.
    repeat (rewrite allChars_app || (simpl allChars; rewrite ?Hsep));
      rewrite ?(digits_dateChars _ Hy), ?(digits_dateChars _ Hmo),
        ?(digits_dateChars _ Hd), ?(digits_dateChars _ Hhh),
        ?(digits_dateChars _ Hmi), ?Ht; reflexivity. }
  destruct s9 as [|c9 s9]; [intros _; apply Hfront; reflexivity|].
  destruct (lit ":"%char (String c9 s9)) as [s10|] eqn:E9; [|discriminate].
  cbn -[digits].
  destruct (digits 2 s10) as [[ss s11]|] eqn:E10; [|discriminate]. cbn -[digits].
  destruct s11; [|discriminate]. intros _.
  apply lit_inv in E9. rewrite E9. apply digits_inv in E10 as [-> Hss].
  apply Hfront. simpl. rewrite allChars_app, (digits_dateChars _ Hss). reflexivity.
Qed.

Lemma span_stop p a c b :
  allChars p a = true -> p c = false -> span p (a +:+ String c b) = (a, String c b).
Proof.
  intros Ha Hc. induction a as [|x a IH].
  - simpl. rewrite Hc. reflexivity.
  - rewrite append_cons. simpl in *. apply andb_true_iff in Ha as [Hx Ha].
    rewrite Hx, (IH Ha). reflexivity.
Qed.

Lemma replaceWiki_skip pre n rest :
  noBracket pre = true ->
  replaceWiki (String.length pre + n) (pre +:+ rest) = pre +:+ replaceWiki n rest.
Proof.
  induction pre as [|c pre IH]; intros H; [reflexivity|].
  simpl in H. apply andb_true_iff in H as [Hc Hp]. apply negb_true_iff in Hc.
  rewrite !append_cons. simpl String.length. simpl Nat.add.
  unfold replaceWiki; fold replaceWiki.
  rewrite (wikiMatch_plain c _ Hc), (IH Hp). reflexivity.
Qed.

Lemma wikiMatch_link path post :
  path <> EmptyString -> allChars notClose path = true ->
  wikiMatch ("[[" +:+ path +:+ "]]" +:+ post) = Some (path, post).
Proof.
  intros Hne Hp. unfold wikiMatch.
  change ("[[" +:+ path +:+ "]]" +:+ post)
    with (String "["%char (String "["%char (path +:+ String "]"%char (String "]"%char post)))).
  cbn [startsWith Ascii.eqb Bool.eqb andb drop_str].
  rewrite (span_stop notClose path "]"%char _ Hp eq_refl).
  destruct path; [congruence|]. reflexivity.
Qed.

(** The parts of a text that is one [a] element. *)
Lemma anchorParts_shape attrs text :
  allChars (fun c => negb (Ascii.eqb c ">"%char)) attrs = true ->
  allChars (fun c => negb (Ascii.eqb c "<"%char)) text = true ->
  anchorParts ("<a " +:+ attrs +:+ ">" +:+ text +:+ "</a>") = Some (attrs, text).
Proof.
  intros Ha Ht. unfold anchorParts.
  change ("<a " +:+ attrs +:+ ">" +:+ text +:+ "</a>")
    with (String "<"%char (String "a"%char (String " "%char
            (attrs +:+ String ">"%char (text +:+ String "<"%char "/a>"))))).
  cbn [startsWith Ascii.eqb Bool.eqb andb drop_str].
  rewrite (span_stop _ attrs ">"%char _ Ha eq_refl).
  rewrite (span_stop _ text "<"%char _ Ht eq_refl). reflexivity.
Qed.

Lemma no_angle_no_lt s :
  allChars (fun c => negb (isAngleOrQuote c)) s = true ->
  allChars (fun c => negb (Ascii.eqb c "<"%char)) s = true.
Proof.
  apply allChars_weaken. intros c H. apply negb_true_iff in H. unfold isAngleOrQuote in H.
  repeat (apply orb_false_iff in H as [H ?]). rewrite H. reflexivity.
Qed.

(** X3. In a text of [part_000] with one wikilink [[[path]]] ([path] not
    empty and without a closing bracket) between two texts without an opening
    bracket, [valueToHtml] leaves the two texts as they are and puts in place
    of the wikilink a hyperlink whose text is the escaped path and whose
    [href] is [#]. No such text is taken for a date. *)
Theorem wikilink_in_text (pre path post : string) :
  noBracket pre = true -> path <> EmptyString -> allChars notClose path = true ->
  noBracket post = true ->
  valueToHtml (VStr (pre +:+ "[[" +:+ path +:+ "]]" +:+ post))
  = pre +:+ wikiAnchor path +:+ post
  /\ linkText (wikiAnchor path) = Some (escapeHtml path)
  /\ linkHref (wikiAnchor path) = Some "#".
Proof.
  intros Hpre Hne Hpath Hpost.
  assert (Hparts : anchorParts (wikiAnchor path) = Some (wikiAttrs, escapeHtml path)).
  { change (wikiAnchor path)
      with ("<a " +:+ wikiAttrs +:+ ">" +:+ escapeHtml path +:+ "</a>").
    apply anchorParts_shape; [reflexivity|].
    apply no_angle_no_lt, escapeHtml_no_markup. }
  split; [|split].
  - unfold valueToHtml, toStr.
    destruct (dateMatch (pre +:+ "[[" +:+ path +:+ "]]" +:+ post)) as [r|] eqn:Ed.
    { apply dateMatch_chars in Ed. rewrite allChars_app in Ed.
      apply andb_true_iff in Ed as [_ Ed]. discriminate. }
    rewrite length_append.
    change (String.length ("[[" +:+ path +:+ "]]" +:+ post))
      with (S (String.length ("[" +:+ path +:+ "]]" +:+ post))).
    rewrite replaceWiki_skip by exact Hpre.
    unfold replaceWiki; fold replaceWiki.
    rewrite (wikiMatch_link path post Hne Hpath), replaceWiki_plain by exact Hpost.
    reflexivity.
  - unfold linkText. rewrite Hparts. reflexivity.
  - unfold linkHref. rewrite Hparts. reflexivity.
Qed.

Lemma wikilink_in_text_witness :
  valueToHtml (VStr "see [[A<B]] there") = "see " +:+ wikiAnchor "A<B" +:+ " there"
  /\ linkText (wikiAnchor "A<B") = Some "A&lt;B".
Proof.
  destruct (wikilink_in_text "see " "A<B" " there" eq_refl) as (H1 & H2 & _);
    try reflexivity; [discriminate|].
  split; [exact H1|exact H2].
Defined.

(** * Further properties: the rows and the omitted names *)

(** X4. The entries [getPropertiesHtml] keeps of the copy without [position]
    are the entries of the frontmatter whose name is not [position] and not an
    omitted name, in the order of the frontmatter; there is no fragment
    exactly when every entry of the frontmatter is named [position] or has an
    omitted name (an empty frontmatter among them); and for a current file
    with such a frontmatter [injectRenderedProperties] returns and leaves the
    world as it is. *)
Theorem fragment_rows_and_absence (st : Settings) (fm : props) :
  fst (getPropertiesHtml st (deleteKey "position" fm))
  = List.filter
      (fun kv => negb (String.eqb (fst kv) "position")
                 && negb (existsb (String.eqb (fst kv))
                            (omittedProps (omittedProperties st)))) fm
  /\ (snd (getPropertiesHtml st (deleteKey "position" fm)) = None
      <-> forall k v, In (k, v) fm ->
                      k = "position" \/ In k (omittedProps (omittedProperties st)))
  /\ (forall w file,
        settings (plugin w) = st ->
        currentFile (plugin w) = Some file ->
        frontmatter (host w) !! file = Some fm ->
        (forall k v, In (k, v) fm ->
                     k = "position" \/ In k (omittedProps (omittedProperties st))) ->
        injectRenderedProperties w = (Ok tt, w)).
Proof.
  assert (Hrows : fst (getPropertiesHtml st (deleteKey "position" fm))
                  = deleteOmitted st (deleteKey "position" fm)).
  { unfold getPropertiesHtml. destruct (deleteOmitted st _); reflexivity. }
  assert (Hnone : snd (getPropertiesHtml st (deleteKey "position" fm)) = None
                  <-> deleteOmitted st (deleteKey "position" fm) = []).
  { unfold getPropertiesHtml. destruct (deleteOmitted st _); simpl;
      split; congruence. }
  assert (Hall : (forall k v, In (k, v) fm ->
                     k = "position" \/ In k (omittedProps (omittedProperties st))) ->
                 deleteOmitted st (deleteKey "position" fm) = []).
  { intros Hall.
    destruct (deleteOmitted st (deleteKey "position" fm)) as [|[k v] rest] eqn:E;
      [reflexivity|].
    exfalso. assert (Hrow : In (k, v) (deleteOmitted st (deleteKey "position" fm)))
      by (rewrite E; left; reflexivity).
    rewrite deleteOmitted_In, deleteKey_In in Hrow.
    destruct Hrow as [[Hin Hk] Ho]. destruct (Hall k v Hin); contradiction. }
  split; [|split].
  - rewrite Hrows. unfold deleteOmitted. rewrite deleteKeys_filter.
    unfold deleteKey. apply filter_twice.
  - rewrite Hnone. split; [|exact Hall].
    intros Hnil k v Hin.
    destruct (String.eqb_spec k "position") as [->|Hk]; [left; reflexivity|].
    right.
    destruct (in_dec string_dec k (omittedProps (omittedProperties st))) as [H|H];
      [exact H|].
    exfalso. assert (Hrow : In (k, v) (deleteOmitted st (deleteKey "position" fm))).
    { rewrite deleteOmitted_In, deleteKey_In. auto. }
    rewrite Hnil in Hrow. destruct Hrow.
  - intros w file Hst Hf Hfm Hk. apply Hall, Hnone in Hk.
    unfold injectRenderedProperties. rewrite Hf, Hfm, Hst.
    destruct (negb (displayProperties st)); [reflexivity|].
    destruct (getPropertiesHtml st (deleteKey "position" fm)) as [p o].
    simpl in Hk. subst o. reflexivity.
Qed.

Lemma fragment_rows_and_absence_witness :
  snd (getPropertiesHtml
         {| displayProperties := true; omittedProperties := "tags, title";
            insertAfterHeading := false |}
         (deleteKey "position" reportFrontmatter)) = None.
Proof.
  apply (proj2 (proj1 (proj2 (fragment_rows_and_absence
                         {| displayProperties := true; omittedProperties := "tags, title";
                            insertAfterHeading := false |} reportFrontmatter)))).
  intros k v [[= <- <-] | [[= <- <-] | [[= <- <-] | []]]]; vm_compute; tauto.
Defined.

Lemma trimStart_eq a r :
  trimStart (String a r)
  = if isSpace a then trimStart r
    else match r with
         | String b r' =>
             if isSpace2 a b then trimStart r'
             else match r' with
                  | String c r'' =>
                      if isSpace3 a b c then trimStart r'' else String a r
                  | EmptyString => String a r
                  end
         | EmptyString => String a r
         end.
Proof. reflexivity. Qed.

Lemma dropSpacesBack_eq c r :
  dropSpacesBack (c :: r)
  = if isSpace c then dropSpacesBack r
    else match r with
         | b :: r' =>
             if isSpace2 b c then dropSpacesBack r'
             else match r' with
                  | a :: r'' => if isSpace3 a b c then dropSpacesBack r'' else c :: r
                  | [] => c :: r
                  end
         | [] => c :: r
         end.
Proof. reflexivity. Qed.

(** What [trimStart] leaves does not start with white space. *)
Lemma trimStart_clean_upto n : forall s,
  String.length s <= n -> startsWithSpace (trimStart s) = false.
Proof.
  induction n as [|n IH]; intros s Hl.
  - destruct s; [reflexivity|simpl in Hl; lia].
  - destruct s as [|a r]; [reflexivity|]. simpl in Hl. rewrite trimStart_eq.
    destruct (isSpace a) eqn:Ea; [apply IH; lia|].
    destruct r as [|b r']; [simpl; rewrite Ea; reflexivity|]. simpl in Hl.
    destruct (isSpace2 a b) eqn:E2; [apply IH; lia|].
    destruct r' as [|c r'']; [simpl; rewrite Ea, E2; reflexivity|]. simpl in Hl.
    destruct (isSpace3 a b c) eqn:E3; [apply IH; lia|].
    simpl. rewrite Ea, E2, E3. reflexivity.
Qed.

Lemma trimStart_clean s : startsWithSpace (trimStart s) = false.
Proof. apply (trimStart_clean_upto (String.length s)). lia. Qed.

Lemma trimStart_id s : startsWithSpace s = false -> trimStart s = s.
Proof.
  destruct s as [|a r]; [reflexivity|]. rewrite trimStart_eq. simpl.
  intros H. apply orb_false_iff in H as [Ea H]. rewrite Ea.
  destruct r as [|b r']; [reflexivity|].
  apply orb_false_iff in H as [E2 H]. rewrite E2.
  destruct r' as [|c r'']; [reflexivity|]. rewrite H. reflexivity.
Qed.

Lemma dropSpacesBack_clean_upto n : forall l,
  length l <= n -> spaceBack (dropSpacesBack l) = false.
Proof.
  induction n as [|n IH]; intros l Hl.
  - destruct l; [reflexivity|simpl in Hl; lia].
  - destruct l as [|c r]; [reflexivity|]. simpl in Hl. rewrite dropSpacesBack_eq.
    destruct (isSpace c) eqn:Ec; [apply IH; lia|].
    destruct r as [|b r']; [simpl; rewrite Ec; reflexivity|]. simpl in Hl.
    destruct (isSpace2 b c) eqn:E2; [apply IH; lia|].
    destruct r' as [|a r'']; [simpl; rewrite Ec, E2; reflexivity|]. simpl in Hl.
    destruct (isSpace3 a b c) eqn:E3; [apply IH; lia|].
    simpl. rewrite Ec, E2, E3. reflexivity.
Qed.

Lemma dropSpacesBack_id l : spaceBack l = false -> dropSpacesBack l = l.
Proof.
  destruct l as [|c r]; [reflexivity|]. rewrite dropSpacesBack_eq. simpl.
  intros H. apply orb_false_iff in H as [Ec H]. rewrite Ec.
  destruct r as [|b r']; [reflexivity|].
  apply orb_false_iff in H as [E2 H]. rewrite E2.
  destruct r' as [|a r'']; [reflexivity|]. rewrite H. reflexivity.
Qed.

Lemma dropSpacesBack_twice l : dropSpacesBack (dropSpacesBack l) = dropSpacesBack l.
Proof. apply dropSpacesBack_id, (dropSpacesBack_clean_upto (length l)). lia. Qed.

(** What [dropSpacesBack] leaves is the end of the list. *)
Lemma dropSpacesBack_suffix_upto n : forall l,
  length l <= n -> exists dropped, l = dropped ++ dropSpacesBack l.
Proof.
  induction n as [|n IH]; intros l Hl.
  - destruct l; [exists []; reflexivity|simpl in Hl; lia].
  - destruct l as [|c r]; [exists []; reflexivity|]. simpl in Hl.
    rewrite dropSpacesBack_eq.
    destruct (isSpace c).
    { destruct (IH r) as [d Hd]; [lia|]. exists (c :: d). simpl. congruence. }
    destruct r as [|b r']; [exists []; reflexivity|]. simpl in Hl.
    destruct (isSpace2 b c).
    { destruct (IH r') as [d Hd]; [lia|]. exists (c :: b :: d). simpl. congruence. }
    destruct r' as [|a r'']; [exists []; reflexivity|]. simpl in Hl.
    destruct (isSpace3 a b c); [|exists []; reflexivity].
    destruct (IH r'') as [d Hd]; [lia|]. exists (c :: b :: a :: d). simpl. congruence.
Qed.

Lemma string_of_list_app l1 l2 :
  string_of_list_ascii (l1 ++ l2) = string_of_list_ascii l1 +:+ string_of_list_ascii l2.
Proof.
  induction l1 as [|x l1 IH]; [reflexivity|]. simpl. rewrite IH. reflexivity.
Qed.

Lemma trimEnd_twice s : trimEnd (trimEnd s) = trimEnd s.
Proof.
  unfold trimEnd.
  rewrite list_ascii_of_string_of_list_ascii, rev_involutive, dropSpacesBack_twice.
  reflexivity.
Qed.

(** [trimEnd] keeps the start of the text. *)
Lemma trimEnd_prefix s : exists dropped, s = trimEnd s +:+ dropped.
Proof.
  unfold trimEnd.
  destruct (dropSpacesBack_suffix_upto _ (rev (list_ascii_of_string s)) (le_n _))
    as [d Hd].
  exists (string_of_list_ascii (rev d)).
  rewrite <- string_of_list_app, <- rev_app_distr, <- Hd, rev_involutive.
  symmetry. apply string_of_list_ascii_of_string.
Qed.

Lemma startsWithSpace_prefix y z :
  startsWithSpace (y +:+ z) = false -> startsWithSpace y = false.
Proof.
  destruct y as [|a [|b [|c r]]]; [reflexivity| | |].
  - rewrite append_cons. simpl. intros H. apply orb_false_iff in H as [-> _].
    reflexivity.
  - rewrite !append_cons. simpl. intros H.
    apply orb_false_iff in H as [-> H]. apply orb_false_iff in H as [-> _].
    reflexivity.
  - rewrite !append_cons. simpl. exact (fun H => H).
Qed.

Lemma trim_twice s : trim (trim s) = trim s.
Proof.
  unfold trim.
  assert (H : trimStart (trimEnd (trimStart s)) = trimEnd (trimStart s)).
  { apply trimStart_id.
    destruct (trimEnd_prefix (trimStart s)) as [d Hd].
    apply (startsWithSpace_prefix _ d). rewrite <- Hd. apply trimStart_clean. }
  rewrite H. apply trimEnd_twice.
Qed.

Lemma split_comma_nonempty s : split_comma s <> [].
Proof.
  induction s as [|c s IH]; simpl; [discriminate|].
  destruct (Ascii.eqb c ","%char); [discriminate|].
  destruct (split_comma s); discriminate.
Qed.

Lemma split_comma_piece x rest :
  noComma x = true ->
  split_comma (x +:+ "," +:+ rest) = x :: split_comma rest.
Proof.
  unfold noComma. induction x as [|c x IH]; intros H; [reflexivity|].
  simpl in H. apply andb_true_iff in H as [Hc Hx]. apply negb_true_iff in Hc.
  rewrite append_cons. simpl. rewrite Hc, (IH Hx). reflexivity.
Qed.

Lemma split_comma_last x : noComma x = true -> split_comma x = [x].
Proof.
  unfold noComma. induction x as [|c x IH]; intros H; [reflexivity|].
  simpl in H. apply andb_true_iff in H as [Hc Hx]. apply negb_true_iff in Hc.
  simpl. rewrite Hc, (IH Hx). reflexivity.
Qed.

Lemma split_comma_chars q s :
  allChars q s = true -> Forall (fun piece => allChars q piece = true) (split_comma s).
Proof.
  induction s as [|c s IH]; simpl; intros H; [repeat constructor|].
  apply andb_true_iff in H as [Hc Hs]. specialize (IH Hs).
  destruct (Ascii.eqb c ","%char); [constructor; [reflexivity|exact IH]|].
  destruct (split_comma s) as [|h t]; [repeat constructor; simpl; rewrite Hc; reflexivity|].
  inversion IH as [|? ? Hh Ht]; subst. constructor; [|exact Ht].
  simpl. rewrite Hc, Hh. reflexivity.
Qed.

Lemma trim_blank piece :
  allChars (fun c => isSpace c || Ascii.eqb c ","%char) piece = true ->
  noComma piece = true -> trim piece = EmptyString.
Proof.
  unfold trim, noComma. intros H Hn.
  enough (trimStart piece = EmptyString) as -> by reflexivity.
  induction piece as [|c piece IH]; [reflexivity|]. simpl in H, Hn.
  apply andb_true_iff in H as [Hc Hp]. apply andb_true_iff in Hn as [Hnc Hnp].
  apply negb_true_iff in Hnc. rewrite Hnc, orb_false_r in Hc.
  rewrite trimStart_eq, Hc. apply IH; assumption.
Qed.

Lemma split_comma_noComma s : Forall (fun piece => noComma piece = true) (split_comma s).
Proof.
  induction s as [|c s IH]; simpl; [repeat constructor|].
  destruct (Ascii.eqb c ","%char) eqn:Ec; [constructor; [reflexivity|exact IH]|].
  destruct (split_comma s) as [|h t]; [repeat constructor; unfold noComma; simpl;
                                        rewrite Ec; reflexivity|].
  inversion IH as [|? ? Hh Ht]; subst. constructor; [|exact Ht].
  unfold noComma in *. simpl. rewrite Ec, Hh. reflexivity.
Qed.

(** X5. The omitted names read off the setting: every name is not empty and
    [trim] leaves it as it is, so it has no white space at its ends, of one
    byte or of more; the names of a setting are the name of its first piece
    (the text before the first comma, trimmed, when something is left of it)
    followed by the names of the rest; and a setting made of commas and white
    space of one byte only omits nothing. *)
Theorem omitted_names_parse :
  (forall setting name,
      In name (omittedProps setting) -> name <> EmptyString /\ trim name = name)
  /\ (forall piece rest,
        noComma piece = true ->
        omittedProps (piece +:+ "," +:+ rest) = pieceName piece ++ omittedProps rest)
  /\ (forall piece, noComma piece = true -> omittedProps piece = pieceName piece)
  /\ (forall setting,
        allChars (fun c => isSpace c || Ascii.eqb c ","%char) setting = true ->
        omittedProps setting = []).
Proof.
  split; [|split; [|split]].
  - intros setting name Hin. unfold omittedProps in Hin.
    apply filter_In in Hin as [Hin Hne]. apply in_map_iff in Hin as (piece & <- & _).
    split; [destruct (trim piece); [discriminate|discriminate]|apply trim_twice].
  - intros piece rest Hp. unfold omittedProps, pieceName.
    rewrite (split_comma_piece piece rest Hp). simpl.
    destruct (nonEmpty (trim piece)); reflexivity.
  - intros piece Hp. unfold omittedProps, pieceName.
    rewrite (split_comma_last piece Hp). simpl.
    destruct (nonEmpty (trim piece)); reflexivity.
  - intros setting Hs. unfold omittedProps.
    pose proof (split_comma_chars _ setting Hs) as Hchars.
    pose proof (split_comma_noComma setting) as Hnc.
    induction (split_comma setting) as [|piece l IH]; [reflexivity|].
    inversion Hchars; inversion Hnc; subst. simpl.
    rewrite (trim_blank piece) by assumption. simpl. apply IH; assumption.
Qed.

Lemma omitted_names_parse_witness :
  omittedProps (" title " +:+ "," +:+ " ,tags") = ["title"; "tags"]
  /\ omittedProps " , ,, " = []
  /\ trim "tags" = "tags"
  /\ omittedProps (String "194" (String "160" "title")) = ["title"].
Proof.
  destruct omitted_names_parse as (Hname & Hpiece & Hlast & Hblank).
  split; [|split; [|split]].
  - rewrite (Hpiece " title " " ,tags" eq_refl). reflexivity.
  - apply Hblank. reflexivity.
  - apply (Hname "title,tags" "tags"). vm_compute. tauto.
  - rewrite (Hlast (String "194" (String "160" "title")) eq_refl). reflexivity.
Defined.

(** X6. No key and no value can put a [<], a [>] or a quote into the rows of
    the markdown block written to the file: every row, and so the rows of any
    property map together, are free of these characters. *)
Theorem markdown_rows_escaped (rows : props) :
  allChars (fun c => negb (isAngleOrQuote c)) (str_concat (map rowMarkdown rows)) = true.
Proof.
  induction rows as [|kv rows IH]; [reflexivity|].
  simpl. rewrite allChars_app, IH, andb_true_r. unfold rowMarkdown.
  rewrite !allChars_app, !escapeHtml_no_markup. reflexivity.
Qed.

(** * Further properties: the patch of the file and its restore *)

Lemma take_drop n s : String.substring 0 n s +:+ drop_str n s = s.
Proof.
  revert s. induction n as [|n IH]; intros s.
  - destruct s; reflexivity.
  - destruct s as [|c s]; [reflexivity|]. simpl. rewrite append_cons, IH. reflexivity.
Qed.

Lemma patchedContent_length st md T :
  String.length T + String.length md <= String.length (patchedContent st md T).
Proof.
  unfold patchedContent.
  destruct (insertAfterHeading st); [|rewrite length_append; lia].
  destruct (searchHeading T) as [idx|]; [|rewrite length_append; lia].
  destruct (indexOfNl idx T) as [e|].
  - rewrite !length_append.
    pose proof (f_equal String.length (take_drop (e + 1) T)) as H.
    rewrite length_append in H. lia.
  - rewrite !length_append. simpl. lia.
Qed.

Lemma markdownOf_length rows : 1 <= String.length (markdownOf rows).
Proof. unfold markdownOf. rewrite length_append. simpl. lia. Qed.

(** X7. When the vault rejects the read, [patchFileForExport] logs the error,
    leaves no backup under the path (an entry that was there before is
    deleted with it), leaves the files alone and throws the error of the
    read. *)
Theorem patch_read_rejected (w : World) (file : string) (p : props) (md e : string) :
  snd (getPropertiesMarkdown (settings (plugin w)) p) = Some md ->
  readError (host w) = Some e ->
  exists w',
    patchFileForExport file p w = (Throw e, w')
    /\ fileBackups (plugin w') = delete file (fileBackups (plugin w))
    /\ host w' = host w
    /\ console w'
       = console w ++ [LogError "Properties-on-export: error patching file for export" e].
Proof.
  intros Hmd Hr. unfold patchFileForExport. rewrite Hmd. unfold_effects.
  rewrite Hr. simpl. eexists. split; [reflexivity|]. repeat split.
Qed.

Lemma patch_read_rejected_witness :
  exists w',
    patchFileForExport "report.md" [("title", VStr "Report")]
      (withHost
         {| commands := None; activeFile := Some "report.md"; activeView := Some 2;
            document := emptyDocument; frontmatter := ∅;
            vault := <["report.md" := reportText]> ∅;
            readError := Some "EACCES"; writeError := None;
            parseHTML := fun html => [Block html] |}
         (patchedWorld None))
    = (Throw "EACCES", w')
    /\ fileBackups (plugin w') !! "report.md" = None.
Proof.
  destruct (patch_read_rejected
              (withHost
                 {| commands := None; activeFile := Some "report.md"; activeView := Some 2;
                    document := emptyDocument; frontmatter := ∅;
                    vault := <["report.md" := reportText]> ∅;
                    readError := Some "EACCES"; writeError := None;
            parseHTML := fun html => [Block html] |}
                 (patchedWorld None))
              "report.md" [("title", VStr "Report")]
              (markdownOf [("title", VStr "Report")]) "EACCES" eq_refl eq_refl)
    as (w' & E & Hb & _).
  exists w'. split; [exact E|]. rewrite Hb. apply lookup_delete_eq.
Defined.

(** X8. Two injections in a row on a note without a preview section and one
    removal do not give the text back. The second patch reads the patched
    text, puts it in the place of the backup and writes a second block; the
    removal then restores the text with one block in it and deletes the
    backup. *)
Theorem second_patch_loses_original (w : World) (file : string) (fm : props)
  (T : string) :
  let st := settings (plugin w) in
  let md := markdownOf (deleteOmitted st (deleteKey "position" fm)) in
  let once := patchedContent st md T in
  currentFile (plugin w) = Some file ->
  activeFile (host w) = Some file ->
  frontmatter (host w) !! file = Some fm ->
  displayProperties st = true ->
  deleteOmitted st (deleteKey "position" fm) <> [] ->
  is_Some (activeView (host w)) ->
  querySelector isSection (document (host w)) = None ->
  querySelector isBlock (document (host w)) = None ->
  vault (host w) !! file = Some T ->
  readError (host w) = None ->
  writeError (host w) = None ->
  exists w1 w2 w3,
    injectRenderedProperties w = (Ok tt, w1)
    /\ injectRenderedProperties w1 = (Ok tt, w2)
    /\ removeInjectedProperties w2 = (Ok tt, w3)
    /\ fileBackups (plugin w2) !! file = Some once
    /\ vault (host w2) !! file = Some (patchedContent st md once)
    /\ vault (host w3) !! file = Some once
    /\ once <> T
    /\ fileBackups (plugin w3) !! file = None.
Proof.
  intros st md once Hf Ha Hfm Hd Hrows Hv Hs Hb HT Hr Hw.
  pose proof (inject_patch_written w file fm T Hf Hfm Hd Hrows Hv Hs HT Hr Hw) as E1.
  fold st md once in E1.
  set (w1 := setVault (<[file := once]> (vault (host w)))
               (setBackups (<[file := T]> (fileBackups (plugin w))) w)) in *.
  assert (HT1 : vault (host w1) !! file = Some once) by apply lookup_insert_eq.
  pose proof (inject_patch_written w1 file fm once Hf Hfm Hd Hrows Hv Hs HT1 Hr Hw) as E2.
  change (settings (plugin w1)) with st in E2. fold md in E2.
  set (w2 := setVault (<[file := patchedContent st md once]> (vault (host w1)))
               (setBackups (<[file := once]> (fileBackups (plugin w1))) w1)) in *.
  assert (Hlen : String.length T + String.length md <= String.length once)
    by apply patchedContent_length.
  assert (Hmd : 1 <= String.length md) by apply markdownOf_length.
  assert (Hne : once <> EmptyString).
  { intros Hx. rewrite Hx in Hlen. simpl in Hlen. lia. }
  destruct Hv as [view Hv].
  destruct (remove_restores view file once w2) as (w3 & E3 & Hv3 & Hb3); try assumption.
  - change (document (host w2)) with (document (host w)).
    destruct (querySelector isBlock (childrenOf view (document (host w)))) eqn:E;
      [|reflexivity].
    pose proof (query_count_pos _ _ _ E).
    pose proof (childrenOf_count isBlock view (document (host w))).
    pose proof (query_none_count _ _ Hb). lia.
  - apply lookup_insert_eq.
  - exists w1, w2, w3. split; [exact E1|]. split; [exact E2|]. split; [exact E3|].
    split; [apply lookup_insert_eq|]. split; [apply lookup_insert_eq|].
    split; [rewrite Hv3; apply lookup_insert_eq|].
    split; [|rewrite Hb3; apply lookup_delete_eq].
    intros Hx. rewrite Hx in Hlen. lia.
Qed.

Lemma second_patch_loses_original_witness :
  exists w3,
    removeInjectedProperties
      (snd (injectRenderedProperties
              (snd (injectRenderedProperties (reportWorld emptyDocument reportText)))))
    = (Ok tt, w3)
    /\ vault (host w3) !! "report.md" <> Some reportText.
Proof.
  destruct (second_patch_loses_original (reportWorld emptyDocument reportText)
              "report.md" reportFrontmatter reportText)
    as (w1 & w2 & w3 & E1 & E2 & E3 & _ & _ & Hv & Hne & _); try reflexivity.
  - vm_compute. discriminate.
  - vm_compute. eauto.
  - exists w3. rewrite E1. simpl. rewrite E2. simpl. split; [exact E3|].
    rewrite Hv. intros H. apply Hne. congruence.
Defined.

(** * Further properties: the intercepted commands, whatever the original does *)

Lemma invoke_print_outcome host_run fuel args w w1 orig r w2 w3 :
  injectRenderedProperties (snd (recordCall PrintWrapper w)) = (Ok tt, w1) ->
  originalPrintCallback (plugin w1) = Some orig ->
  invoke host_run fuel orig args w1 = (r, w2) ->
  r <> Diverge ->
  removeInjectedProperties w2 = (Ok tt, w3) ->
  invoke host_run (S fuel) PrintWrapper args w = (r, w3).
Proof.
  intros Hinj Horig Hrun Hr Hrm. simpl.
  unfold printCallback, applyOriginal. unfold_effects. simpl in *.
  rewrite Hinj, Horig, Hrun. destruct r; [| |congruence]; rewrite Hrm; reflexivity.
Qed.

Lemma invoke_export_outcome host_run fuel id args w w1 orig r w2 w3 :
  injectRenderedProperties (snd (recordCall (ExportWrapper id) w)) = (Ok tt, w1) ->
  originalPrintCallback (plugin w1) = Some orig ->
  invoke host_run fuel orig args w1 = (r, w2) ->
  r <> Diverge ->
  removeInjectedProperties w2 = (Ok tt, w3) ->
  invoke host_run (S fuel) (ExportWrapper id) args w = (exportResult r, w3).
Proof.
  intros Hinj Horig Hrun Hr Hrm. simpl.
  unfold exportCallback, applyOriginal. unfold_effects. simpl in *.
  rewrite Hinj, Horig, Hrun. destruct r; [| |congruence]; simpl; rewrite Hrm; reflexivity.
Qed.

(** X9. A call of the callback put on [editor:print] gives back what the saved
    original gives, result or exception, after the removal has run on the
    world the original has left; the callbacks put on the export commands do
    the same but return nothing for a result. When no original is saved, the
    print callback injects, removes, and returns nothing. *)
Theorem intercepted_command_outcome host_run fuel args w :
  (forall w1 orig r w2,
      injectRenderedProperties (snd (recordCall PrintWrapper w)) = (Ok tt, w1) ->
      originalPrintCallback (plugin w) = Some orig ->
      invoke host_run fuel orig args w1 = (r, w2) ->
      r <> Diverge ->
      exists w3, removeInjectedProperties w2 = (Ok tt, w3)
        /\ invoke host_run (S fuel) PrintWrapper args w = (r, w3))
  /\ (forall id w1 orig r w2,
        injectRenderedProperties (snd (recordCall (ExportWrapper id) w)) = (Ok tt, w1) ->
        originalPrintCallback (plugin w) = Some orig ->
        invoke host_run fuel orig args w1 = (r, w2) ->
        r <> Diverge ->
        exists w3, removeInjectedProperties w2 = (Ok tt, w3)
          /\ invoke host_run (S fuel) (ExportWrapper id) args w = (exportResult r, w3))
  /\ (originalPrintCallback (plugin w) = None ->
      exists w1 w3,
        injectRenderedProperties (snd (recordCall PrintWrapper w)) = (Ok tt, w1)
        /\ removeInjectedProperties w1 = (Ok tt, w3)
        /\ invoke host_run (S fuel) PrintWrapper args w = (Ok VUndefined, w3)).
Proof.
  split; [|split].
  - intros w1 orig r w2 Hinj Horig Hrun Hr.
    destruct (remove_total w2) as (w3 & Hrm & _). exists w3. split; [exact Hrm|].
    apply (invoke_print_outcome host_run fuel args w w1 orig r w2 w3); try assumption.
    destruct (inject_total (snd (recordCall PrintWrapper w))) as (w1' & E & _ & _ & Ho & _).
    rewrite Hinj in E. injection E as <-. rewrite Ho. exact Horig.
  - intros id w1 orig r w2 Hinj Horig Hrun Hr.
    destruct (remove_total w2) as (w3 & Hrm & _). exists w3. split; [exact Hrm|].
    apply (invoke_export_outcome host_run fuel id args w w1 orig r w2 w3); try assumption.
    destruct (inject_total (snd (recordCall (ExportWrapper id) w)))
      as (w1' & E & _ & _ & Ho & _).
    rewrite Hinj in E. injection E as <-. rewrite Ho. exact Horig.
  - intros Horig.
    destruct (inject_total (snd (recordCall PrintWrapper w))) as (w1 & Hinj & _ & _ & Ho & _).
    destruct (remove_total w1) as (w3 & Hrm & _).
    exists w1, w3. split; [exact Hinj|]. split; [exact Hrm|].
    simpl. unfold printCallback, applyOriginal. unfold_effects. simpl in *.
    rewrite Hinj, Ho, Horig, Hrm. reflexivity.
Qed.

Lemma intercepted_command_outcome_witness :
  exists w3,
    invoke failingPrint 1 (ExportWrapper "export-pdf") []
      (setPrintPatch (Some (HostFn 1)) (reportWorld previewDocument reportText))
    = (Ok VUndefined, w3).
Proof.
  destruct (intercepted_command_outcome failingPrint 0 []
              (setPrintPatch (Some (HostFn 1)) (reportWorld previewDocument reportText)))
    as (_ & Hexport & _).
  destruct (Hexport "export-pdf"
              (snd (injectRenderedProperties
                      (snd (recordCall (ExportWrapper "export-pdf")
                              (setPrintPatch (Some (HostFn 1))
                                 (reportWorld previewDocument reportText))))))
              (HostFn 1) (Ok (VNum 1))
              (snd (invoke failingPrint 0 (HostFn 1) []
                      (snd (injectRenderedProperties
                              (snd (recordCall (ExportWrapper "export-pdf")
                                      (setPrintPatch (Some (HostFn 1))
                                         (reportWorld previewDocument reportText))))))))
              ltac:(vm_compute; reflexivity) eq_refl ltac:(vm_compute; reflexivity)
              ltac:(discriminate))
    as (w3 & _ & Hrun).
  exists w3. exact Hrun.
Defined.



(** X11. When the removal finds a block in the active view, it detaches that
    block and does nothing else: the files, the backups and the console are
    left as they are, even with a backup waiting for the active file. With one
    block in the document, a backup that is not empty and a vault that takes
    the write, it is the second removal that restores the file and deletes
    the backup. *)
Theorem removal_stops_at_block_in_view (w : World) (view : nat) (b : node) :
  activeView (host w) = Some view ->
  querySelector isBlock (childrenOf view (document (host w))) = Some b ->
  exists d,
    removeInjectedProperties w = (Ok tt, setDocument d w)
    /\ countBlocks d < countBlocks (document (host w))
    /\ forall active T,
         blocksOf w = 1 ->
         activeFile (host w) = Some active ->
         fileBackups (plugin w) !! active = Some T ->
         T <> EmptyString ->
         writeError (host w) = None ->
         exists w2,
           removeInjectedProperties (setDocument d w) = (Ok tt, w2)
           /\ vault (host w2) !! active = Some T
           /\ fileBackups (plugin w2) !! active = None.
Proof.
  intros Hv Hb. unfold removeInjectedProperties at 1. rewrite Hv.
  destruct (rewriteWithin view removeFirstBlock (document (host w))) as [d|] eqn:Ew.
  - exists d. split; [reflexivity|].
    assert (Hlt : countBlocks d < countBlocks (document (host w))).
    { apply (rewriteWithin_count isBlock (fun a b => b < a) _ _ _ _
               (shallow_hasClass _)) in Ew; [exact Ew|intros; lia|].
      intros ks ks' H. apply removeFirstBlock_count in H. exact H. }
    split; [exact Hlt|].
    intros active T Hone Ha Hbk HT Hw. unfold blocksOf in Hone.
    destruct (remove_restores view active T (setDocument d w)) as (w2 & E & H1 & H2);
      try assumption.
    + simpl.
      destruct (querySelector isBlock (childrenOf view d)) eqn:E; [|reflexivity].
      pose proof (query_count_pos _ _ _ E).
      pose proof (childrenOf_count isBlock view d). unfold countBlocks in *. lia.
    + exists w2. split; [exact E|]. rewrite H1, H2. simpl.
      rewrite lookup_insert_eq, lookup_delete_eq. auto.
  - exfalso.
    destruct (rewriteWithin_some view removeFirstBlock (document (host w)))
      as [d Hd]; [| |congruence].
    + unfold removeFirstBlock. eapply query_some_rewrite; [exact Hb|eauto].
    + intros ks [ks' Hks] ->. discriminate.
Qed.

Lemma removal_stops_at_block_in_view_witness :
  exists d w2,
    removeInjectedProperties
      (setDocument
         [Elem 0 "html" [] [Elem 2 "div" ["view-content"] [Block "<div></div>"]]]
         (patchedWorld None))
    = (Ok tt, setDocument d (patchedWorld None))
    /\ removeInjectedProperties (setDocument d (patchedWorld None)) = (Ok tt, w2)
    /\ vault (host w2) !! "report.md" = Some reportText.
Proof.
  destruct (removal_stops_at_block_in_view
              (setDocument
                 [Elem 0 "html" [] [Elem 2 "div" ["view-content"] [Block "<div></div>"]]]
                 (patchedWorld None))
              2 (Block "<div></div>") eq_refl eq_refl)
    as (d & E & _ & Hsecond).
  destruct (Hsecond "report.md" reportText eq_refl eq_refl eq_refl) as (w2 & E2 & Hv & _);
    [discriminate|reflexivity|].
  exists d, w2. split; [exact E|]. split; [exact E2|exact Hv].
Defined.

(** * Further properties: the injection undone by the removal *)

Lemma first_rewrite_cons {A : Type} (f : A -> option (list A)) x rest :
  first_rewrite f (x :: rest)
  = match f x with
    | Some xs => Some (xs ++ rest)
    | None => match first_rewrite f rest with
              | Some rest' => Some (x :: rest')
              | None => None
              end
    end.
Proof. reflexivity. Qed.

Lemma rewriteNode_elem p f r t c ks :
  rewriteNode p f (Elem r t c ks)
  = if p (Elem r t c ks) then f (Elem r t c ks)
    else match first_rewrite (rewriteNode p f) ks with
         | Some ks' => Some [Elem r t c ks']
         | None => None
         end.
Proof. reflexivity. Qed.

Lemma count_zero_query q l : countIn q l = 0 -> querySelector q l = None.
Proof.
  intros H. destruct (querySelector q l) eqn:E; [|reflexivity].
  pose proof (query_count_pos _ _ _ E). lia.
Qed.

Lemma count_zero_queryNode q n : countNode q n = 0 -> queryNode q n = None.
Proof.
  intros H. pose proof (count_zero_query q [n]) as Hq.
  unfold querySelector, countIn in Hq. simpl in Hq.
  destruct (queryNode q n); [|reflexivity].
  discriminate Hq. lia.
Qed.

(** A rewriting [f] at the first match of [p] in a forest without a block is
    undone by a rewriting [back] that finds nothing in a tree without a block,
    goes down where [p] does, and undoes [f] where [f] applies. *)
Section Undo.

Variable p : node -> bool.
Variable f : node -> option (list node).
Variable back : node -> option (list node).

Hypothesis back_none : forall n, countNode isBlock n = 0 -> back n = None.
Hypothesis back_elem : forall r t c ks ks',
  p (Elem r t c ks) = false ->
  countNode isBlock (Elem r t c ks) = 0 ->
  first_rewrite back ks' = Some ks ->
  back (Elem r t c ks') = Some [Elem r t c ks].
Hypothesis back_here : forall n l,
  p n = true -> countNode isBlock n = 0 -> f n = Some l ->
  forall rest, first_rewrite back (l ++ rest) = Some (n :: rest).

Lemma undo_forest ks :
  Forall (fun n => countNode isBlock n = 0 ->
                   forall l, rewriteNode p f n = Some l ->
                   forall rest, first_rewrite back (l ++ rest) = Some (n :: rest)) ks ->
  countIn isBlock ks = 0 ->
  forall ks', first_rewrite (rewriteNode p f) ks = Some ks' ->
  first_rewrite back ks' = Some ks.
Proof.
  induction 1 as [|x xs Hx _ IH]; intros Hc ks' E.
  - discriminate E.
  - rewrite countIn_cons in Hc. rewrite first_rewrite_cons in E.
    destruct (rewriteNode p f x) as [l|] eqn:Ex.
    + injection E as <-. apply Hx; [lia|reflexivity].
    + destruct (first_rewrite (rewriteNode p f) xs) as [xs'|] eqn:Exs; [|discriminate].
      injection E as <-. rewrite first_rewrite_cons, back_none by lia.
      rewrite (IH ltac:(lia) xs' eq_refl). reflexivity.
Qed.

Lemma rewriteNode_undo n :
  countNode isBlock n = 0 ->
  forall l, rewriteNode p f n = Some l ->
  forall rest, first_rewrite back (l ++ rest) = Some (n :: rest).
Proof.
  induction n as [html|r t c ks IH] using node_forest_ind; intros Hc l E rest.
  - discriminate Hc.
  - rewrite rewriteNode_elem in E.
    destruct (p (Elem r t c ks)) eqn:Ep.
    + apply back_here; assumption.
    + destruct (first_rewrite (rewriteNode p f) ks) as [ks'|] eqn:Eks; [|discriminate].
      injection E as <-. simpl app. rewrite first_rewrite_cons.
      rewrite (back_elem r t c ks ks' Ep Hc); [reflexivity|].
      apply (undo_forest ks IH); [|exact Eks].
      rewrite countNode_elem in Hc. lia.
Qed.

Lemma first_rewrite_undo ks ks' :
  countIn isBlock ks = 0 ->
  first_rewrite (rewriteNode p f) ks = Some ks' ->
  first_rewrite back ks' = Some ks.
Proof.
  intros Hc. apply undo_forest; [|exact Hc].
  apply Forall_forall. intros n _. apply rewriteNode_undo.
Qed.

End Undo.

Lemma rewriteFirst_first p f l l' :
  rewriteFirst p f l = Some l' -> first_rewrite (rewriteNode p f) l = Some l'.
Proof.
  unfold rewriteFirst. destruct (querySelector p l); [|discriminate].
  destruct (f n); [auto|discriminate].
Qed.

Lemma rewriteFirst_guard p f l l' :
  rewriteFirst p f l = Some l' ->
  exists m l0, querySelector p l = Some m /\ f m = Some l0.
Proof.
  unfold rewriteFirst. destruct (querySelector p l) as [m|]; [|discriminate].
  destruct (f m) as [l0|] eqn:E; [|discriminate].
  intros _. exists m, l0. split; [reflexivity|exact E].
Qed.

Lemma detach_none n :
  countNode isBlock n = 0 -> rewriteNode isBlock (fun _ => Some []) n = None.
Proof. intros H. apply rewriteNode_none, count_zero_queryNode, H. Qed.

Lemma detach_elem r t c ks ks' :
  countNode isBlock (Elem r t c ks) = 0 ->
  first_rewrite (rewriteNode isBlock (fun _ => Some [])) ks' = Some ks ->
  rewriteNode isBlock (fun _ => Some []) (Elem r t c ks') = Some [Elem r t c ks].
Proof.
  intros Hc E. rewrite rewriteNode_elem, E.
  rewrite countNode_elem in Hc.
  change (isBlock (Elem r t c ks')) with (isBlock (Elem r t c ks)).
  destruct (isBlock (Elem r t c ks)); [lia|reflexivity].
Qed.

Lemma first_rewrite_detach l l' :
  first_rewrite (rewriteNode isBlock (fun _ => Some [])) l = Some l' ->
  removeFirstBlock l = Some l'.
Proof.
  intros E. unfold removeFirstBlock, rewriteFirst.
  destruct (querySelector isBlock l) eqn:Eq; [exact E|].
  assert (H : first_rewrite (rewriteNode isBlock (fun _ => Some [])) l = None);
    [|congruence].
  clear E. unfold querySelector in Eq.
  induction l as [|x l IH]; [reflexivity|]. simpl in Eq.
  destruct (queryNode isBlock x) eqn:Ex; [discriminate|].
  rewrite first_rewrite_cons, (rewriteNode_none _ _ _ Ex), (IH Eq). reflexivity.
Qed.

Lemma detach_marker b :
  isBlock b = true -> rewriteNode isBlock (fun _ => Some []) b = Some [].
Proof.
  intros Hb. destruct b as [r t c ks|html]; [|reflexivity].
  rewrite rewriteNode_elem, Hb. reflexivity.
Qed.

(** The marker element put after the first heading, detached again. *)
Lemma heading_undo b ks ks' :
  isBlock b = true ->
  countIn isBlock ks = 0 ->
  rewriteFirst isH1 (fun h => Some [h; b]) ks = Some ks' ->
  first_rewrite (rewriteNode isBlock (fun _ => Some [])) ks' = Some ks.
Proof.
  intros Hb Hc E. apply rewriteFirst_first in E.
  eapply first_rewrite_undo; [| | |exact Hc|exact E].
  - apply detach_none.
  - intros r t c k k' _. apply detach_elem.
  - intros n l _ Hn [= <-] rest. simpl app.
    rewrite first_rewrite_cons, (detach_none n Hn), first_rewrite_cons.
    rewrite (detach_marker b Hb). reflexivity.
Qed.

(** The marker element put in the first preview section, detached again. *)
Lemma place_undo st b ks ks' :
  isBlock b = true ->
  countIn isBlock ks = 0 ->
  rewriteFirst isSection (placeBlock st [b]) ks = Some ks' ->
  removeFirstBlock ks' = Some ks.
Proof.
  intros Hb Hc E. apply rewriteFirst_first in E. apply first_rewrite_detach.
  eapply first_rewrite_undo; [| | |exact Hc|exact E].
  - apply detach_none.
  - intros r t c k k' _. apply detach_elem.
  - intros [r t c k|h] l _ Hn Hl rest; [|discriminate Hn].
    assert (Hfirst : first_rewrite (rewriteNode isBlock (fun _ => Some []))
                       (b :: k) = Some k)
      by (rewrite first_rewrite_cons, (detach_marker b Hb); reflexivity).
    assert (Hk : countIn isBlock k = 0) by (rewrite countNode_elem in Hn; lia).
    unfold placeBlock in Hl.
    destruct (insertAfterHeading st).
    + destruct (rewriteFirst isH1 _ k) as [k'|] eqn:Eh; injection Hl as <-;
        simpl app; rewrite first_rewrite_cons.
      * rewrite (detach_elem r t c k k' Hn (heading_undo b k k' Hb Hk Eh)). reflexivity.
      * rewrite (detach_elem r t c k _ Hn Hfirst). reflexivity.
    + injection Hl as <-. simpl app. rewrite first_rewrite_cons.
      rewrite (detach_elem r t c k _ Hn Hfirst). reflexivity.
Qed.

Lemma within_remove_none v n :
  countNode isBlock n = 0 ->
  rewriteNode (hasRef v)
    (fun n => match n with
              | Elem r' t c ks =>
                  match removeFirstBlock ks with
                  | Some ks' => Some [Elem r' t c ks']
                  | None => None
                  end
              | Block _ => None
              end) n = None.
Proof.
  induction n as [html|r t c ks IH] using node_forest_ind; intros Hc.
  - discriminate Hc.
  - rewrite rewriteNode_elem. rewrite countNode_elem in Hc.
    assert (Hks : countIn isBlock ks = 0) by lia. clear Hc.
    destruct (hasRef v (Elem r t c ks)).
    + unfold removeFirstBlock, rewriteFirst.
      rewrite (count_zero_query _ _ Hks). reflexivity.
    + match goal with |- match ?x with _ => _ end = _ => assert (E : x = None) end;
        [|rewrite E; reflexivity].
      induction IH as [|k ks Hk _ IHks]; [reflexivity|].
      rewrite countIn_cons in Hks.
      rewrite first_rewrite_cons, Hk, IHks by lia. reflexivity.
Qed.

(** A change [g] of the children of the view that the detaching of the first
    block undoes, undone by the removal in the view. *)
Lemma within_undo (g : list node -> option (list node)) v doc doc' :
  (forall ks ks', countIn isBlock ks = 0 -> g ks = Some ks' ->
                  removeFirstBlock ks' = Some ks) ->
  countIn isBlock doc = 0 ->
  rewriteWithin v g doc = Some doc' ->
  rewriteWithin v removeFirstBlock doc' = Some doc.
Proof.
  intros Hg Hc E.
  pose proof (childrenOf_count isBlock v doc) as Hks.
  unfold childrenOf in Hks. unfold rewriteWithin in *.
  pose proof (rewriteFirst_first _ _ _ _ E) as Efirst.
  destruct (rewriteFirst_guard _ _ _ _ E) as (m & l0 & Eq & Em).
  rewrite Eq in Hks.
  destruct m as [r t c ks|h]; [|discriminate].
  destruct (g ks) as [ks'|] eqn:Ep; [|discriminate].
  clear Em l0.
  assert (Hundo : removeFirstBlock ks' = Some ks)
    by (apply Hg; [lia|exact Ep]).
  assert (Href : hasRef v (Elem r t c ks') = true)
    by exact (query_some_sat _ _ _ Eq).
  assert (Hq : querySelector (hasRef v) doc' = Some (Elem r t c ks')).
  { eapply (rewriteFirst_query (hasRef v) (shallow_hasRef v));
      [exact Eq| |exact Href|exact E].
    cbv beta iota. rewrite Ep. reflexivity. }
  unfold rewriteFirst. rewrite Hq. cbv beta iota. rewrite Hundo.
  eapply first_rewrite_undo; [| | |exact Hc|exact Efirst].
  - apply within_remove_none.
  - intros r0 t0 c0 k k' Hp _ Ek. rewrite rewriteNode_elem.
    change (hasRef v (Elem r0 t0 c0 k')) with (hasRef v (Elem r0 t0 c0 k)).
    rewrite Hp, Ek. reflexivity.
  - intros [r0 t0 c0 k|h] l Hp Hn Hl rest; [|discriminate Hp].
    destruct (g k) as [k'|] eqn:Ek; [|discriminate].
    injection Hl as <-. simpl app. rewrite first_rewrite_cons, rewriteNode_elem.
    change (hasRef v (Elem r0 t0 c0 k')) with (hasRef v (Elem r0 t0 c0 k)).
    rewrite Hp, (Hg k k'); [reflexivity| |exact Ek].
    rewrite countNode_elem in Hn. lia.
Qed.

(** The marker element put in the first preview section of the view,
    detached again by the removal in the view. *)
Lemma view_undo st b v doc doc' :
  isBlock b = true ->
  countIn isBlock doc = 0 ->
  rewriteWithin v (rewriteFirst isSection (placeBlock st [b])) doc = Some doc' ->
  rewriteWithin v removeFirstBlock doc' = Some doc.
Proof. intros Hb. apply within_undo. intros ks ks'. apply place_undo, Hb. Qed.

(** X12. The injection undone: with a fragment that the parser turns into one
    marker element, a preview section inside the active view and no block in
    the document, the injection puts one block in the document, and the
    removal that follows gives back the world of before the injection: the
    same document, node for node, and the files, the backups and the console
    untouched. *)
Theorem inject_then_remove_identity (w : World) (view : nat) (t : node) (html : string) :
  fragmentHtml w = Some html ->
  oneMarker (parseHTML (host w) html) ->
  activeView (host w) = Some view ->
  querySelector isSection (childrenOf view (document (host w))) = Some t ->
  querySelector isBlock (document (host w)) = None ->
  exists w1,
    injectRenderedProperties w = (Ok tt, w1)
    /\ blocksOf w1 = 1
    /\ removeInjectedProperties w1 = (Ok tt, w).
Proof.
  intros Hfrag (b & Hp & Hb & Hb1) Hv Ht Hb0.
  pose proof (query_none_count _ _ Hb0) as Hzero.
  apply fragmentHtml_spec in Hfrag as (file & fm & Hf & Hfm & Hdisp & Hh).
  unfold injectRenderedProperties. rewrite Hf, Hfm, Hdisp. simpl.
  destruct (getPropertiesHtml _ _) as [p o]. simpl in Hh. subst o.
  rewrite Hv, Ht, Hb0, Hp.
  destruct (rewriteWithin view _ (document (host w))) as [d|] eqn:Ew.
  2:{ exfalso.
      destruct (rewriteWithin_some view
                  (rewriteFirst isSection (placeBlock (settings (plugin w)) [b]))
                  (document (host w))) as [d Hd']; [| |congruence].
      - eapply query_some_rewrite; [exact Ht|].
        apply placeBlock_section, (query_some_sat _ _ _ Ht).
      - intros ks [ks' Hks] ->. discriminate. }
  exists (setDocument d w). split; [reflexivity|].
  split.
  - unfold blocksOf. simpl.
    apply (rewriteWithin_count isBlock (fun x y => y = x + 1) _ _ _ _
             (shallow_hasClass _)) in Ew.
    + unfold countBlocks. lia.
    + intros; lia.
    + intros ks ks' Hks. apply (place_count isBlock) in Hks; [|apply shallow_hasClass].
      rewrite countIn_single, Hb1 in Hks. exact Hks.
  - unfold removeInjectedProperties.
    change (activeView (host (setDocument d w))) with (activeView (host w)).
    rewrite Hv.
    change (document (host (setDocument d w))) with d.
    rewrite (view_undo _ _ _ _ _ Hb Hzero Ew).
    destruct w as [[cm af av dc fr va re we ph] pl co ca]. reflexivity.
Qed.

Lemma inject_then_remove_identity_witness :
  exists w1,
    injectRenderedProperties (reportWorld previewDocument reportText) = (Ok tt, w1)
    /\ blocksOf w1 = 1
    /\ removeInjectedProperties w1 = (Ok tt, reportWorld previewDocument reportText).
Proof.
  assert (Hs : { t | querySelector isSection
                       (childrenOf 2 (document (host (reportWorld previewDocument
                                                         reportText)))) = Some t }).
  { vm_compute. eexists. reflexivity. }
  destruct Hs as [t Ht].
  assert (Hf : { html | fragmentHtml (reportWorld previewDocument reportText)
                        = Some html }).
  { vm_compute. eexists. reflexivity. }
  destruct Hf as [html Hf].
  apply (inject_then_remove_identity (reportWorld previewDocument reportText) 2 t html);
    [exact Hf| |reflexivity|exact Ht|reflexivity].
  exists (Block html). repeat split.
Defined.

(** * Further properties: the print command across unload and a second load *)

(** X13. What [onunload] leaves under [editor:print] after an [onload] that
    patched it: the command as it was when it had a callback, the plugin's
    own callback when it had none (there is nothing saved to put back). The
    flag [isPrintPatched] stays set, so a second [onload] of the same plugin
    object leaves the entry of [editor:print] as [onunload] left it: a print
    command that had a callback is not intercepted again. *)
Theorem print_entry_after_unload (w : World) (cmds : gmap string Command) (c : Command) :
  commands (host w) = Some cmds ->
  isPrintPatched (plugin w) = false ->
  cmds !! "editor:print" = Some c ->
  exists cmds1 cmds2,
    commands (host (onunload (onload w))) = Some cmds1
    /\ cmds1 !! "editor:print"
       = Some match callback c with
              | Some _ => c
              | None => {| cmdName := cmdName c; callback := Some PrintWrapper |}
              end
    /\ isPrintPatched (plugin (onunload (onload w))) = true
    /\ commands (host (onload (onunload (onload w)))) = Some cmds2
    /\ cmds2 !! "editor:print" = cmds1 !! "editor:print".
Proof.
  intros Hc Hp Hl.
  destruct (onload_commands w cmds Hc) as (cmds' & Hc' & _ & _ & Hprint).
  specialize (Hprint c Hl). rewrite Hp in Hprint.
  destruct (onload_saved w cmds Hc) as [Hsaved Hflag].
  rewrite Hl, Hp in Hsaved. rewrite Hl in Hflag.
  assert (Hun : exists cmds1,
             commands (host (onunload (onload w))) = Some cmds1
             /\ cmds1 !! "editor:print"
                = Some match callback c with
                       | Some _ => c
                       | None => {| cmdName := cmdName c; callback := Some PrintWrapper |}
                       end
             /\ isPrintPatched (plugin (onunload (onload w))) = true).
  { unfold onunload. rewrite Hc', Hprint, Hflag, Hsaved.
    destruct (callback c) as [orig|] eqn:Ecb.
    - exists (setCallback "editor:print" orig cmds'). split; [reflexivity|].
      split; [|exact Hflag].
      rewrite setCallback_lookup, Hprint.
      destruct (decide ("editor:print" = "editor:print")); [|congruence].
      simpl. destruct c as [nm cb]. simpl in Ecb. subst cb. reflexivity.
    - exists cmds'. split; [exact Hc'|]. split; [exact Hprint|exact Hflag]. }
  destruct Hun as (cmds1 & H1 & H2 & H3).
  destruct (onload_commands _ cmds1 H1) as (cmds2 & Hc2 & _ & _ & Hprint2).
  exists cmds1, cmds2. repeat split; try assumption.
  rewrite (Hprint2 _ H2), H3. symmetry. exact H2.
Qed.

Lemma print_entry_after_unload_witness :
  exists cmds2,
    commands (host (onload (onunload (onload (reportWorld previewDocument reportText)))))
    = Some cmds2
    /\ cmds2 !! "editor:print" = Some {| cmdName := "Print"; callback := Some (HostFn 0) |}.
Proof.
  destruct (print_entry_after_unload (reportWorld previewDocument reportText)
              reportCommands {| cmdName := "Print"; callback := Some (HostFn 0) |}
              eq_refl eq_refl eq_refl)
    as (cmds1 & cmds2 & _ & H1 & _ & H2 & H3).
  exists cmds2. split; [exact H2|]. rewrite H3. exact H1.
Defined.

(** * Further properties: the markdown post-processor *)

Lemma first_found_cons g x rest :
  first_found g (x :: rest)
  = match g x with
    | Absent =>
        match first_found g rest with
        | Rewritten rest' => Rewritten (x :: rest')
        | r => r
        end
    | Unmatched => Unmatched
    | Rewritten xs => Rewritten (xs ++ rest)
    end.
Proof. reflexivity. Qed.

Lemma closestNode_elem el p f r t c ks :
  closestNode el p f (Elem r t c ks)
  = if hasRef el (Elem r t c ks)
    then (if p (Elem r t c ks) then Rewritten (f (Elem r t c ks)) else Unmatched)
    else match first_found (closestNode el p f) ks with
         | Absent => Absent
         | Unmatched =>
             if p (Elem r t c ks) then Rewritten (f (Elem r t c ks)) else Unmatched
         | Rewritten ks' => Rewritten [Elem r t c ks']
         end.
Proof. reflexivity. Qed.

Section ClosestCount.

Variable q : node -> bool.
Hypothesis q_shallow : shallow q.
Variable R : nat -> nat -> Prop.
Hypothesis R_frame : forall a b c, R a b -> R (c + a) (c + b).
Variable el : nat.
Variable p : node -> bool.
Variable f : node -> list node.
Hypothesis f_R : forall n, p n = true -> R (countNode q n) (countIn q (f n)).

Lemma first_found_count l :
  Forall (fun n => forall ns, closestNode el p f n = Rewritten ns ->
                              R (countNode q n) (countIn q ns)) l ->
  forall l', first_found (closestNode el p f) l = Rewritten l' ->
             R (countIn q l) (countIn q l').
Proof.
  induction 1 as [|k ks Hk _ IH]; intros l'; [discriminate|].
  rewrite first_found_cons.
  destruct (closestNode el p f k) as [| |xs] eqn:Ek.
  - destruct (first_found (closestNode el p f) ks) as [| |ks'] eqn:Eks; try discriminate.
    intros [= <-]. rewrite !countIn_cons. apply R_frame, IH. reflexivity.
  - discriminate.
  - intros [= <-]. rewrite countIn_cons, countIn_app.
    rewrite (Nat.add_comm (countNode q k)), (Nat.add_comm (countIn q xs)).
    apply R_frame, Hk. reflexivity.
Qed.

Lemma closestNode_count n :
  forall ns, closestNode el p f n = Rewritten ns -> R (countNode q n) (countIn q ns).
Proof.
  induction n as [html|r t c ks IH] using node_forest_ind; intros ns.
  - simpl. discriminate.
  - rewrite closestNode_elem.
    assert (Hhere : (if p (Elem r t c ks) then Rewritten (f (Elem r t c ks))
                     else Unmatched) = Rewritten ns ->
                    R (countNode q (Elem r t c ks)) (countIn q ns)).
    { destruct (p (Elem r t c ks)) eqn:Ep; [|discriminate].
      intros [= <-]. apply f_R, Ep. }
    destruct (hasRef el (Elem r t c ks)); [exact Hhere|].
    destruct (first_found (closestNode el p f) ks) as [| |ks'] eqn:Eks;
      [discriminate|exact Hhere|].
    intros [= <-]. rewrite countIn_single, !countNode_elem.
    rewrite (q_shallow r t c ks' ks).
    apply R_frame. apply (first_found_count ks IH ks' Eks).
Qed.

Lemma rewriteClosest_count doc doc' :
  rewriteClosest el p f doc = Some doc' -> R (countIn q doc) (countIn q doc').
Proof.
  unfold rewriteClosest.
  destruct (first_found (closestNode el p f) doc) as [| |d] eqn:E; try discriminate.
  intros [= <-]. apply (first_found_count doc); [|exact E].
  apply Forall_forall. intros n _. apply closestNode_count.
Qed.

End ClosestCount.

Lemma sameShape_rewritten a b : sameShape a b -> (exists x, a = Rewritten x) ->
  exists y, b = Rewritten y.
Proof. intros H [x ->]. destruct b; simpl in H; try contradiction. eauto. Qed.

Lemma first_found_shape el p f g l :
  Forall (fun n => sameShape (closestNode el p f n) (closestNode el p g n)) l ->
  sameShape (first_found (closestNode el p f) l) (first_found (closestNode el p g) l).
Proof.
  induction 1 as [|k ks Hk _ IH]; [exact I|].
  rewrite !first_found_cons.
  destruct (closestNode el p f k), (closestNode el p g k); simpl in Hk;
    try contradiction; try exact I.
  destruct (first_found (closestNode el p f) ks),
    (first_found (closestNode el p g) ks); simpl in IH; try contradiction; exact I.
Qed.

Lemma closestNode_shape el p f g n :
  sameShape (closestNode el p f n) (closestNode el p g n).
Proof.
  induction n as [html|r t c ks IH] using node_forest_ind; [exact I|].
  rewrite !closestNode_elem.
  assert (Hhere : sameShape
            (if p (Elem r t c ks) then Rewritten (f (Elem r t c ks)) else Unmatched)
            (if p (Elem r t c ks) then Rewritten (g (Elem r t c ks)) else Unmatched))
    by (destruct (p (Elem r t c ks)); exact I).
  destruct (hasRef el (Elem r t c ks)); [exact Hhere|].
  pose proof (first_found_shape el p f g ks IH) as Hks.
  destruct (first_found (closestNode el p f) ks),
    (first_found (closestNode el p g) ks); simpl in Hks; try contradiction;
    try exact I; exact Hhere.
Qed.

Lemma hasClosest_rewrite el p f doc :
  hasClosest el p doc = true -> is_Some (rewriteClosest el p f doc).
Proof.
  unfold hasClosest, rewriteClosest. intros H.
  assert (Hs : sameShape (first_found (closestNode el p (fun n => [n])) doc)
                 (first_found (closestNode el p f) doc)).
  { apply first_found_shape, Forall_forall. intros n _. apply closestNode_shape. }
  destruct (first_found (closestNode el p (fun n => [n])) doc); try discriminate.
  destruct (first_found (closestNode el p f) doc); simpl in Hs; try contradiction.
  eauto.
Qed.

Lemma setDocument_same w : setDocument (document (host w)) w = w.
Proof. destruct w as [[cm af av dc fr va re we] pl co ca]. reflexivity. Qed.

Lemma placeOrKeep_count q st frag n :
  shallow q -> isSection n = true ->
  countIn q (default [n] (placeBlock st frag n)) = countNode q n + countIn q frag.
Proof.
  intros Hq Hn. destruct (placeBlock_section st frag n Hn) as [ns E].
  rewrite E. simpl. apply (placeBlock_count q st frag n ns Hq E).
Qed.

Lemma processed_count q st frag el doc d (near : bool) :
  shallow q ->
  (if near
   then rewriteClosest el isSection (fun t => default [t] (placeBlock st frag t)) doc
   else rewriteFirst isSection (placeBlock st frag) doc) = Some d ->
  countIn q d = countIn q doc + countIn q frag.
Proof.
  intros Hq Ed. destruct near.
  - apply (rewriteClosest_count q Hq (fun a b => b = a + countIn q frag)) in Ed;
      [exact Ed|intros; lia|].
    intros n Hn. apply (placeOrKeep_count q st frag n Hq Hn).
  - apply (place_count q st frag doc d Hq Ed).
Qed.

(** A call of the post-processor returns; it leaves the world alone or puts,
    in a document that had no block, what the parser builds from the fragment
    of the note. *)
Lemma postProcessor_total sourcePath el w :
  exists w', postProcessor sourcePath el w = (Ok tt, w')
    /\ (w' = w
        \/ (querySelector isBlock (document (host w)) = None
            /\ exists d path fm html,
                 frontmatter (host w) !! path = Some fm
                 /\ snd (getPropertiesHtml (settings (plugin w))
                           (deleteKey "position" fm)) = Some html
                 /\ w' = setDocument d w
                 /\ forall q, shallow q ->
                      countIn q d
                      = countIn q (document (host w))
                        + countIn q (parseHTML (host w) html))).
Proof.
  unfold postProcessor.
  destruct sourcePath as [path|]; [|eauto].
  destruct (nonEmpty path); simpl; [|eauto].
  destruct (vault (host w) !! path); [|eauto].
  destruct (frontmatter (host w) !! path) as [fm|] eqn:Efm; [|eauto].
  destruct (displayProperties (settings (plugin w))); simpl; [|eauto].
  set (doc := document (host w)).
  set (st := settings (plugin w)).
  destruct (negb _); [eauto|].
  destruct (querySelector isBlock doc) eqn:Eb; [eauto|].
  destruct (getPropertiesHtml st (deleteKey "position" fm)) as [p [html|]] eqn:Eh;
    [|eauto].
  match goal with |- context [default doc ?x] => destruct x as [d|] eqn:Ed end.
  2:{ exists w. split; [simpl; unfold doc; rewrite setDocument_same; reflexivity|auto]. }
  exists (setDocument d w). split; [reflexivity|]. right. split; [reflexivity|].
  exists d, path, fm, html. split; [exact Efm|]. split; [exact (f_equal snd Eh)|].
  split; [reflexivity|].
  intros q Hq. exact (processed_count q st _ el doc d _ Hq Ed).
Qed.

Lemma postProcessor_frame sourcePath el w :
  sameNotes w (snd (postProcessor sourcePath el w)).
Proof.
  destruct (postProcessor_total sourcePath el w)
    as (w' & E & [->|(_ & d & _ & _ & _ & _ & _ & -> & _)]);
    rewrite E; repeat split.
Qed.

Lemma count_pos_query q l : 1 <= countIn q l -> is_Some (querySelector q l).
Proof.
  intros H. destruct (querySelector q l) eqn:E; [eauto|].
  pose proof (query_none_count _ _ E). lia.
Qed.

(** With a fragment and a preview section, the post-processor puts in a
    document that has no block what the parser builds from the fragment. *)
Lemma postProcessor_places path el w :
  canProcess path w ->
  querySelector isBlock (document (host w)) = None ->
  exists d fm html,
    postProcessor (Some path) el w = (Ok tt, setDocument d w)
    /\ frontmatter (host w) !! path = Some fm
    /\ snd (getPropertiesHtml (settings (plugin w)) (deleteKey "position" fm))
       = Some html
    /\ forall q, shallow q ->
         countIn q d
         = countIn q (document (host w)) + countIn q (parseHTML (host w) html).
Proof.
  intros (Hp & [text Hfile] & (fm & Hfm & [html Hh]) & Hd & [t Ht]) Hb.
  unfold postProcessor. rewrite Hp, Hfile, Hfm, Hd, Ht, Hb. simpl.
  set (doc := document (host w)) in *.
  set (st := settings (plugin w)) in *.
  destruct (getPropertiesHtml st (deleteKey "position" fm)) as [p o] eqn:Eg.
  simpl in Hh. subst o.
  set (frag := parseHTML (host w) html).
  assert (Hsome : is_Some
            (if hasClosest el isSection doc
             then rewriteClosest el isSection
                    (fun t => default [t] (placeBlock st frag t)) doc
             else rewriteFirst isSection (placeBlock st frag) doc)).
  { destruct (hasClosest el isSection doc) eqn:En.
    - apply hasClosest_rewrite, En.
    - eapply query_some_rewrite; [exact Ht|].
      apply placeBlock_section. exact (query_some_sat _ _ _ Ht). }
  destruct Hsome as [d Ed].
  exists d, fm, html. split; [|split; [reflexivity|split; [exact (f_equal snd Eg)|]]].
  - destruct (hasClosest el isSection doc); simpl; rewrite Ed; reflexivity.
  - intros q Hq. exact (processed_count q st frag el doc d _ Hq Ed).
Qed.

(** An injection into a document that has a preview section and a block
    changes nothing. *)
Lemma inject_skipped w :
  is_Some (querySelector isSection (document (host w))) ->
  is_Some (querySelector isBlock (document (host w))) ->
  injectRenderedProperties w = (Ok tt, w).
Proof.
  intros [t Ht] [b Hb]. unfold injectRenderedProperties.
  destruct (currentFile (plugin w)) as [file|]; [|reflexivity].
  destruct (frontmatter (host w) !! file) as [fm|]; [|reflexivity].
  destruct (negb _); [reflexivity|].
  destruct (getPropertiesHtml _ _) as [p [html|]]; [|reflexivity].
  destruct (activeView (host w)) as [view|]; [|reflexivity].
  cbv zeta. rewrite Ht, Hb.
  destruct (querySelector isSection (childrenOf view (document (host w)))); reflexivity.
Qed.

(** *** The removal of a marker element that holds no other *)

Section RewriteCountIf.

Variables q g : node -> bool.
Hypothesis q_shallow : shallow q.
Variable R : nat -> nat -> Prop.
Hypothesis R_frame : forall a b c, R a b -> R (c + a) (c + b).
Variable p : node -> bool.
Variable f : node -> option (list node).
Hypothesis f_R :
  forall n ns, p n = true -> countNode g n = 0 -> f n = Some ns ->
               R (countNode q n) (countIn q ns).

Lemma first_rewrite_count_if l :
  Forall (fun n => countNode g n = 0 ->
                   forall ns, rewriteNode p f n = Some ns ->
                              R (countNode q n) (countIn q ns)) l ->
  countIn g l = 0 ->
  forall l', first_rewrite (rewriteNode p f) l = Some l' ->
             R (countIn q l) (countIn q l').
Proof.
  induction 1 as [|k ks Hk _ IH]; intros Hg l'; [discriminate|].
  rewrite countIn_cons in Hg. rewrite first_rewrite_cons.
  destruct (rewriteNode p f k) as [xs|] eqn:Ek.
  - intros [= <-]. rewrite countIn_cons, countIn_app.
    rewrite (Nat.add_comm (countNode q k)), (Nat.add_comm (countIn q xs)).
    apply R_frame, Hk; [lia|reflexivity].
  - destruct (first_rewrite (rewriteNode p f) ks) as [ks'|] eqn:Eks; [|discriminate].
    intros [= <-]. rewrite !countIn_cons. apply R_frame, IH; [lia|reflexivity].
Qed.

Lemma rewriteNode_count_if n :
  countNode g n = 0 ->
  forall ns, rewriteNode p f n = Some ns -> R (countNode q n) (countIn q ns).
Proof.
  induction n as [html|r t c ks IH] using node_forest_ind; intros Hg ns.
  - simpl. destruct (p (Block html)) eqn:E; [|discriminate]. apply f_R; assumption.
  - rewrite rewriteNode_elem.
    destruct (p (Elem r t c ks)) eqn:E; [apply (f_R (Elem r t c ks)); assumption|].
    destruct (first_rewrite (rewriteNode p f) ks) as [ks'|] eqn:Eks; [|discriminate].
    intros [= <-]. rewrite countIn_single, !countNode_elem.
    rewrite (q_shallow r t c ks' ks).
    apply R_frame. apply (first_rewrite_count_if ks IH); [|exact Eks].
    rewrite countNode_elem in Hg. lia.
Qed.

Lemma rewriteFirst_count_if l l' :
  countIn g l = 0 ->
  rewriteFirst p f l = Some l' -> R (countIn q l) (countIn q l').
Proof.
  intros Hg E. apply rewriteFirst_first in E.
  apply (first_rewrite_count_if l); [|exact Hg|exact E].
  apply Forall_forall. intros n _. apply rewriteNode_count_if.
Qed.

End RewriteCountIf.

Lemma rewriteWithin_count_if q g (R : nat -> nat -> Prop) r h doc doc' :
  shallow q ->
  (forall a b c, R a b -> R (c + a) (c + b)) ->
  (forall ks ks', countIn g ks = 0 -> h ks = Some ks' ->
                  R (countIn q ks) (countIn q ks')) ->
  countIn g doc = 0 ->
  rewriteWithin r h doc = Some doc' -> R (countIn q doc) (countIn q doc').
Proof.
  intros Hq HR Hh Hg. unfold rewriteWithin.
  apply (rewriteFirst_count_if q g Hq R HR); [|exact Hg].
  intros [r' t c ks|html] ns _ Hn; [|discriminate].
  destruct (h ks) as [ks'|] eqn:E; [|discriminate]. intros [= <-].
  rewrite countIn_single, !countNode_elem, (Hq r' t c ks' ks).
  apply HR, Hh; [|exact E]. rewrite countNode_elem in Hn. lia.
Qed.

Lemma shallow_isMarkerElem : shallow isMarkerElem.
Proof. intros r t cl ks ks'. reflexivity. Qed.

(** Where every marker is a [Block], the removal takes exactly one away. *)
Lemma removeFirstBlock_leaf l l' :
  countIn isMarkerElem l = 0 ->
  removeFirstBlock l = Some l' ->
  countBlocks l = countBlocks l' + 1.
Proof.
  intros Hg E. unfold removeFirstBlock in E.
  apply (rewriteFirst_count_if isBlock isMarkerElem (shallow_hasClass _)
           (fun a b => a = b + 1)) in E; [exact E|intros; lia| |exact Hg].
  intros n ns Hp Hn [= <-]. destruct n as [r t c ks|h]; [|reflexivity].
  rewrite countNode_elem in Hn.
  change (isMarkerElem (Elem r t c ks)) with (isBlock (Elem r t c ks)) in Hn.
  rewrite Hp in Hn. lia.
Qed.

Lemma removeFirstBlock_le q l l' :
  shallow q -> removeFirstBlock l = Some l' -> countIn q l' <= countIn q l.
Proof.
  intros Hq. unfold removeFirstBlock.
  apply (rewriteFirst_count q Hq (fun a b => b <= a)).
  - intros a b c H. lia.
  - intros n ns _ [= <-]. unfold countIn. simpl. lia.
Qed.

Lemma marker_elem_le n : countNode isMarkerElem n <= countNode isBlock n.
Proof.
  induction n as [html|r t c ks IH] using node_forest_ind; [simpl; lia|].
  rewrite !countNode_elem.
  change (isMarkerElem (Elem r t c ks)) with (isBlock (Elem r t c ks)).
  enough (countIn isMarkerElem ks <= countIn isBlock ks) by lia.
  induction IH as [|k ks Hk _ IHks]; [reflexivity|].
  rewrite !countIn_cons. lia.
Qed.

Lemma marker_elems_le l : countIn isMarkerElem l <= countBlocks l.
Proof.
  unfold countBlocks. induction l as [|n l IH]; [reflexivity|].
  rewrite !countIn_cons. pose proof (marker_elem_le n). lia.
Qed.

Lemma count_blocks_leaves texts :
  countBlocks (map Block texts) = length texts
  /\ countIn isMarkerElem (map Block texts) = 0.
Proof.
  unfold countBlocks. induction texts as [|x texts [IH1 IH2]]; [split; reflexivity|].
  simpl map. rewrite !countIn_cons, IH1, IH2. split; reflexivity.
Qed.

(** With an active view and every marker a [Block], the removal returns and
    takes one marker away when there is one. *)
Lemma remove_one_leaf w view :
  activeView (host w) = Some view ->
  countIn isMarkerElem (document (host w)) = 0 ->
  exists w', removeInjectedProperties w = (Ok tt, w')
    /\ blocksOf w' = blocksOf w - 1
    /\ activeView (host w') = Some view
    /\ countIn isMarkerElem (document (host w')) = 0.
Proof.
  intros Hv Hg. unfold removeInjectedProperties. rewrite Hv. cbv zeta. unfold blocksOf.
  destruct (rewriteWithin view removeFirstBlock (document (host w))) as [d|] eqn:Ew.
  - exists (setDocument d w). simpl. split; [reflexivity|]. split; [|split; [exact Hv|]].
    + apply (rewriteWithin_count_if isBlock isMarkerElem (fun a b => a = b + 1) _ _ _ _
               (shallow_hasClass _)) in Ew; [unfold countBlocks; lia|intros; lia| |exact Hg].
      intros ks ks'. apply removeFirstBlock_leaf.
    + apply (rewriteWithin_count isMarkerElem (fun a b => b <= a) _ _ _ _
               shallow_isMarkerElem) in Ew; [lia|intros; lia|].
      intros ks ks'. apply removeFirstBlock_le, shallow_isMarkerElem.
  - destruct (removeFirstBlock (document (host w))) as [d|] eqn:Ed.
    + destruct (restore_guarded
                  "Properties-on-export: failed to restore original file after export"
                  (setDocument d w)) as (w' & E & H1 & H2 & H3 & H4).
      exists w'. rewrite E, H1, H2. simpl.
      pose proof (removeFirstBlock_leaf _ _ Hg Ed).
      pose proof (removeFirstBlock_le isMarkerElem _ _ shallow_isMarkerElem Ed).
      repeat split; try assumption; lia.
    + destruct (restore_guarded
                  "Properties-on-export: failed to restore original file after export" w)
        as (w' & E & H1 & H2 & H3 & H4).
      exists w'. rewrite E, H1, H2.
      apply removeFirstBlock_none in Ed. repeat split; try assumption; lia.
Qed.

(** C2. Markup in a value multiplies the blocks. [getPropertiesHtml] writes
    the values of texts into the fragment as they are, so a value can close
    the marker element of the fragment and open marker elements of its own.
    When the parser makes of the fragment the marker elements [map Block
    texts], with a preview section in the active view and no block in the
    document: one injection leaves [length texts] blocks, a second injection
    changes nothing (there is a block already, when [texts] is not empty),
    and each removal takes away one block only. With three marker elements
    the document holds three blocks after the injection and one block after
    two removals. *)
Theorem markup_in_value_multiplies_blocks (w : World) (html : string)
  (texts : list string) (view : nat) (t : node) :
  fragmentHtml w = Some html ->
  parseHTML (host w) html = map Block texts ->
  activeView (host w) = Some view ->
  querySelector isSection (childrenOf view (document (host w))) = Some t ->
  blocksOf w = 0 ->
  exists w1 w2 w3,
    injectRenderedProperties w = (Ok tt, w1)
    /\ blocksOf w1 = length texts
    /\ (texts <> [] -> injectRenderedProperties w1 = (Ok tt, w1))
    /\ removeInjectedProperties w1 = (Ok tt, w2)
    /\ blocksOf w2 = length texts - 1
    /\ removeInjectedProperties w2 = (Ok tt, w3)
    /\ blocksOf w3 = length texts - 2.
Proof.
  intros Hfrag Hparse Hv Ht Hzero.
  assert (Hsec : is_Some (querySelector isSection (document (host w)))).
  { apply count_pos_query.
    pose proof (query_count_pos _ _ _ Ht).
    pose proof (childrenOf_count isSection view (document (host w))). lia. }
  assert (Hcan : canInject w).
  { apply fragmentHtml_spec in Hfrag as (file & fm & Hf & Hfm & Hd & Hh).
    exists file, fm. rewrite Hh, Hv. repeat split; eauto. }
  assert (Hnone : querySelector isBlock (document (host w)) = None)
    by (apply count_zero_query; exact Hzero).
  destruct (inject_in_document w Hcan)
    as (w1 & Hinj & [[[m Hm] _]|(_ & d & html' & Hfrag' & -> & Hd)]); [congruence|].
  assert (html' = html) by congruence. subst html'. rewrite Hparse in Hd.
  destruct (count_blocks_leaves texts) as [Hlen Hleaf].
  assert (Hd1 : blocksOf (setDocument d w) = length texts).
  { unfold blocksOf in *. simpl. unfold countBlocks in *.
    rewrite (Hd isBlock (shallow_hasClass _)), Hzero, Hlen. reflexivity. }
  assert (Hg1 : countIn isMarkerElem (document (host (setDocument d w))) = 0).
  { simpl. rewrite (Hd isMarkerElem shallow_isMarkerElem), Hleaf.
    pose proof (marker_elems_le (document (host w))). unfold blocksOf in Hzero. lia. }
  destruct (remove_one_leaf (setDocument d w) view Hv Hg1)
    as (w2 & Hr1 & Hb2 & Hv2 & Hg2).
  destruct (remove_one_leaf w2 view Hv2 Hg2) as (w3 & Hr2 & Hb3 & _ & _).
  exists (setDocument d w), w2, w3.
  split; [exact Hinj|]. split; [exact Hd1|]. split; [|split; [exact Hr1|]].
  - intros Hne. apply inject_skipped; simpl.
    + apply count_pos_query. rewrite (Hd isSection (shallow_hasClass _)).
      destruct Hsec as [s Hs]. pose proof (query_count_pos _ _ _ Hs). lia.
    + apply count_pos_query. unfold blocksOf in Hd1. simpl in Hd1.
      unfold countBlocks in Hd1. rewrite Hd1.
      destruct texts; [congruence|simpl; lia].
  - split; [lia|]. split; [exact Hr2|lia].
Qed.

Lemma markup_in_value_multiplies_blocks_witness :
  exists w1 w2 w3,
    injectRenderedProperties markupWorld = (Ok tt, w1)
    /\ blocksOf w1 = 3
    /\ injectRenderedProperties w1 = (Ok tt, w1)
    /\ removeInjectedProperties w1 = (Ok tt, w2)
    /\ blocksOf w2 = 2
    /\ removeInjectedProperties w2 = (Ok tt, w3)
    /\ blocksOf w3 = 1.
Proof.
  assert (Hs : { t | querySelector isSection
                       (childrenOf 2 (document (host markupWorld))) = Some t }).
  { vm_compute. eexists. reflexivity. }
  destruct Hs as [t Ht].
  assert (Hf : { html | fragmentHtml markupWorld = Some html }).
  { vm_compute. eexists. reflexivity. }
  destruct Hf as [html Hf].
  destruct (markup_in_value_multiplies_blocks markupWorld html
              ["<table></table>"; "x"; "x"] 2 t Hf eq_refl eq_refl Ht eq_refl)
    as (w1 & w2 & w3 & H1 & H2 & H3 & H4 & H5 & H6 & H7).
  exists w1, w2, w3. repeat split; try assumption. apply H3. discriminate.
Defined.

(** X25. For notes whose values [String] prints and whose fragments the
    parser turns into one marker element, in a world whose document holds at
    most one block: when there is a fragment to inject and a preview section
    to put it in, two injections in a row return, the second changes nothing,
    and the document holds exactly one block; with an active view, two
    removals in a row return and leave no block; and after any sequence of
    injections and removals the document holds at most one block. *)
Theorem tame_notes_one_block (w : World) :
  tame w ->
  blocksOf w <= 1 ->
  (canInject w ->
     exists w1, injectRenderedProperties w = (Ok tt, w1)
       /\ injectRenderedProperties w1 = (Ok tt, w1) /\ blocksOf w1 = 1)
  /\ (is_Some (activeView (host w)) ->
     exists w1 w2, removeInjectedProperties w = (Ok tt, w1)
       /\ removeInjectedProperties w1 = (Ok tt, w2) /\ blocksOf w2 = 0)
  /\ (forall ops, blocksOf (performAll ops w) <= 1).
Proof.
  intros Htame Hle. split; [|split].
  - intros Hcan.
    destruct (inject_in_document w Hcan) as (w1 & E1 & Hcase).
    exists w1. split; [exact E1|].
    destruct Hcase as [[[b Hb] ->] | [Hnone (d & html & Hfrag & -> & Hd)]].
    + split; [exact E1|]. pose proof (query_count_pos _ _ _ Hb). unfold blocksOf in *.
      unfold countBlocks in *. lia.
    + pose proof (query_none_count _ _ Hnone) as H0.
      pose proof (oneMarker_count _ (tame_fragment w html Htame Hfrag)) as H1.
      assert (Hone : countBlocks d = 1).
      { unfold countBlocks in *. rewrite (Hd isBlock (shallow_hasClass _)). lia. }
      split; [|exact Hone].
      apply inject_skipped; simpl; apply count_pos_query.
      * rewrite (Hd isSection (shallow_hasClass _)).
        destruct Hcan as (_ & _ & _ & _ & _ & _ & _ & [t Ht]).
        pose proof (query_count_pos _ _ _ Ht). lia.
      * unfold countBlocks in Hone. lia.
  - intros Hview.
    destruct (remove_total w) as (w1 & E1 & Hv1 & _ & _ & _ & Hdec).
    destruct (remove_total w1) as (w2 & E2 & _ & _ & _ & Hle2 & _).
    exists w1, w2. split; [exact E1|]. split; [exact E2|].
    specialize (Hdec Hview). unfold blocksOf in *. lia.
  - intros ops. apply performAll_blocks; assumption.
Qed.

Lemma tame_notes_one_block_witness :
  (exists w1,
      injectRenderedProperties (reportWorld previewDocument reportText) = (Ok tt, w1)
      /\ injectRenderedProperties w1 = (Ok tt, w1) /\ blocksOf w1 = 1)
  /\ (exists w1 w2,
        removeInjectedProperties (reportWorld previewDocument reportText) = (Ok tt, w1)
        /\ removeInjectedProperties w1 = (Ok tt, w2) /\ blocksOf w2 = 0).
Proof.
  destruct (tame_notes_one_block (reportWorld previewDocument reportText))
    as (Hinj & Hrm & _).
  - exact (reportWorld_tame previewDocument reportText).
  - vm_compute. lia.
  - split; [apply Hinj|apply Hrm].
    + exists "report.md", reportFrontmatter.
      repeat split; try reflexivity; vm_compute; eauto.
    + vm_compute. eauto.
Defined.

(** X14. The post-processor of [part_000], called for an element of a document
    without a block, for a note that has a file, a preview section in the
    document and a fragment to show that the parser turns into one marker
    element: it puts exactly one block in the document and changes nothing
    else; every later call of the post-processor, for any element and any
    note, and a later injection by a command change nothing; and the removal
    run by a command with an active view takes that block away. *)
Theorem post_processor_one_block (w : World) (path : string) (el : nat) :
  canProcess path w ->
  tame w ->
  blocksOf w = 0 ->
  exists d,
    postProcessor (Some path) el w = (Ok tt, setDocument d w)
    /\ countBlocks d = 1
    /\ (forall sourcePath' el',
          postProcessor sourcePath' el' (setDocument d w) = (Ok tt, setDocument d w))
    /\ injectRenderedProperties (setDocument d w) = (Ok tt, setDocument d w)
    /\ (is_Some (activeView (host w)) ->
        blocksOf (snd (removeInjectedProperties (setDocument d w))) = 0).
Proof.
  intros Hcan Htame Hzero.
  assert (Hb : querySelector isBlock (document (host w)) = None)
    by (apply count_zero_query; exact Hzero).
  destruct (postProcessor_places path el w Hcan Hb) as (d & fm & html & E & Hfm & Hh & Hq).
  assert (Hd : countBlocks d = 1).
  { unfold countBlocks. rewrite (Hq isBlock (shallow_hasClass _)).
    unfold blocksOf, countBlocks in Hzero. rewrite Hzero.
    exact (oneMarker_count _ (proj2 (Htame path fm Hfm) html Hh)). }
  assert (Hs : countIn isSection (document (host w)) <= countIn isSection d)
    by (rewrite (Hq isSection (shallow_hasClass _)); lia).
  assert (Hblock : is_Some (querySelector isBlock d))
    by (apply count_pos_query; unfold countBlocks in Hd; lia).
  exists d. split; [exact E|]. split; [exact Hd|]. split; [|split].
  - intros sp' el'.
    destruct (postProcessor_total sp' el' (setDocument d w)) as (w' & E' & [->|[Hn _]]);
      [exact E'|].
    simpl in Hn. destruct Hblock as [b Hblock]. congruence.
  - apply inject_skipped; simpl; [|exact Hblock].
    apply count_pos_query.
    destruct Hcan as (_ & _ & _ & _ & [t Ht]).
    pose proof (query_count_pos _ _ _ Ht). lia.
  - intros Hv.
    destruct (remove_total (setDocument d w)) as (w' & Er & _ & _ & _ & _ & Hless).
    rewrite Er. simpl. specialize (Hless Hv). simpl in Hless.
    unfold blocksOf. lia.
Qed.

Lemma post_processor_one_block_witness :
  exists d,
    postProcessor (Some "report.md") 6 (reportWorld previewDocument reportText)
    = (Ok tt, setDocument d (reportWorld previewDocument reportText))
    /\ countBlocks d = 1.
Proof.
  destruct (post_processor_one_block (reportWorld previewDocument reportText)
              "report.md" 6) as (d & E & Hd & _).
  - split; [reflexivity|]. split; [vm_compute; eauto|].
    split; [exists reportFrontmatter; split; [reflexivity|vm_compute; eauto]|].
    split; [reflexivity|vm_compute; eauto].
  - exact (reportWorld_tame previewDocument reportText).
  - reflexivity.
  - exists d. split; [exact E|exact Hd].
Defined.

Lemma handle_total e w :
  exists w', handle e w = (Ok tt, w')
    /\ sameNotes w w'
    /\ (tame w -> blocksOf w <= 1 -> blocksOf w' <= 1).
Proof.
  destruct e as [o|sp el]; simpl; [apply perform_total|].
  pose proof (postProcessor_frame sp el w) as Hf.
  destruct (postProcessor_total sp el w) as (w' & E & H). exists w'.
  rewrite E in Hf. split; [exact E|]. split; [exact Hf|]. intros Ht.
  destruct H as [->|(Hn & d & path & fm & html & Hfm & Hh & -> & Hd)]; [auto|].
  pose proof (query_none_count _ _ Hn) as Hz.
  unfold blocksOf. simpl. unfold countBlocks.
  rewrite (Hd isBlock (shallow_hasClass _)), Hz.
  pose proof (oneMarker_count _ (proj2 (Ht path fm Hfm) html Hh)) as H1.
  unfold countBlocks in H1. lia.
Qed.

(** X15. The commands and the renderer together, for notes whose values
    [String] prints and whose fragments the parser turns into one marker
    element: from a document with at most one block, after any sequence of
    injections, removals and calls of the post-processor (for any elements
    and notes) the document holds at most one block. *)
Theorem events_at_most_one_block (w : World) (evs : list event) :
  tame w ->
  blocksOf w <= 1 ->
  blocksOf (handleAll evs w) <= 1.
Proof.
  revert w. induction evs as [|e evs IH]; simpl; intros w Ht H; [exact H|].
  destruct (handle_total e w) as (w' & E & Hs & Hw). rewrite E. simpl.
  apply IH; [exact (tame_sameNotes w w' Hs Ht)|auto].
Qed.

Lemma events_at_most_one_block_witness :
  blocksOf (handleAll [Rendered (Some "report.md") 4; Operation Inject;
                       Rendered (Some "report.md") 6; Operation Remove;
                       Rendered (Some "report.md") 9]
              (reportWorld previewDocument reportText)) <= 1.
Proof.
  apply (events_at_most_one_block (reportWorld previewDocument reportText)
           [Rendered (Some "report.md") 4; Operation Inject;
            Rendered (Some "report.md") 6; Operation Remove;
            Rendered (Some "report.md") 9]).
  - exact (reportWorld_tame previewDocument reportText).
  - vm_compute. lia.
Defined.

(** * Further properties: the formatter of the second program of [main.ts] *)

Lemma luxon_wikiMatch_plain c r :
  Ascii.eqb c "["%char = false -> Luxon.wikiMatch (String c r) = None.
Proof.
  intros Hc. unfold Luxon.wikiMatch.
  change (startsWith "[[" (String c r))
    with (Ascii.eqb "["%char c && startsWith "[" r).
  rewrite Ascii.eqb_sym, Hc. reflexivity.
Qed.

Lemma luxon_replaceWiki_plain n s : noBracket s = true -> Luxon.replaceWiki n s = s.
Proof.
  revert s. induction n as [|n IH]; intros s H; [reflexivity|].
  destruct s as [|c r]; [reflexivity|].
  simpl in H. apply andb_true_iff in H as [Hc Hr].
  apply negb_true_iff in Hc.
  unfold Luxon.replaceWiki; fold Luxon.replaceWiki.
  rewrite (luxon_wikiMatch_plain c r Hc), (IH r Hr). reflexivity.
Qed.

Lemma splitAnchors_step fuel acc c r :
  Luxon.splitAnchors (S fuel) acc (String c r)
  = match Luxon.anchorMatch (String c r) with
    | Some (a, rest) => acc :: a :: Luxon.splitAnchors fuel EmptyString rest
    | None => Luxon.splitAnchors fuel (acc +:+ String c EmptyString) r
    end.
Proof. reflexivity. Qed.

Lemma noAnchor_cons c r :
  noAnchor (String c r)
  = match Luxon.anchorMatch (String c r) with
    | Some _ => false
    | None => noAnchor r
    end.
Proof. reflexivity. Qed.

(** Without a match of the expression of the anchors, the split gives the
    text as one piece. *)
Lemma splitAnchors_clean fuel acc s :
  noAnchor s = true -> Luxon.splitAnchors fuel acc s = [acc +:+ s].
Proof.
  revert acc s. induction fuel as [|fuel IH]; intros acc s H; [reflexivity|].
  destruct s as [|c r]; [simpl; rewrite append_nil_r; reflexivity|].
  rewrite noAnchor_cons in H. rewrite splitAnchors_step.
  destruct (Luxon.anchorMatch (String c r)); [discriminate|].
  rewrite (IH _ _ H), append_assoc. reflexivity.
Qed.

Lemma luxon_text stringify luxonFormat st s :
  (Luxon.isDateString s = true -> luxonFormat s (Luxon.dateFormat st) = None) ->
  noBracket s = true ->
  noAnchor s = true ->
  Luxon.valueToHtml stringify luxonFormat st (VStr s)
  = if startsWith "<a " s then s else escapeHtml s.
Proof.
  intros Hdate Hb Ha.
  change (Luxon.valueToHtml stringify luxonFormat st (VStr s))
    with (Luxon.scalarToHtml stringify luxonFormat st (VStr s)).
  unfold Luxon.scalarToHtml.
  change (Luxon.isDateValue (VStr s)) with (Luxon.isDateString s).
  change (toStr (VStr s)) with s.
  assert (Hnone : (if Luxon.isDateString s then luxonFormat s (Luxon.dateFormat st)
                   else None) = None)
    by (destruct (Luxon.isDateString s); [apply Hdate; reflexivity|reflexivity]).
  rewrite Hnone. cbn [Luxon.isObject].
  rewrite (luxon_replaceWiki_plain _ _ Hb), (splitAnchors_clean _ _ _ Ha).
  change (EmptyString +:+ s) with s. cbn [map str_concat fold_right].
  unfold Luxon.escapeHtml. apply append_nil_r.
Qed.

(** X16. The formatter of the second program of [main.ts] on a text without
    an opening bracket, in which the expression of the anchors matches
    nowhere, and which Luxon does not format as a date: the text is escaped
    as a whole, except when it begins with [<a ], in which case it is
    written as it is, markup included. *)
Theorem luxon_text_escaped_unless_anchor_start
  (stringify : value -> string) (luxonFormat : string -> string -> option string)
  (st : Luxon.PluginSettings) (s : string) :
  (Luxon.isDateString s = true -> luxonFormat s (Luxon.dateFormat st) = None) ->
  noBracket s = true ->
  noAnchor s = true ->
  Luxon.valueToHtml stringify luxonFormat st (VStr s)
  = (if startsWith "<a " s then s else escapeHtml s)
  /\ (startsWith "<a " s = false ->
      allChars (fun c => negb (isAngleOrQuote c))
        (Luxon.valueToHtml stringify luxonFormat st (VStr s)) = true).
Proof.
  intros Hdate Hb Ha.
  pose proof (luxon_text stringify luxonFormat st s Hdate Hb Ha) as E.
  split; [exact E|]. intros Hs. rewrite E, Hs. apply escapeHtml_no_markup.
Qed.

Lemma luxon_text_escaped_unless_anchor_start_witness :
  Luxon.valueToHtml stringifyEmpty luxonIsoDate Luxon.DEFAULT_SETTINGS
    (VStr "<a x><script>alert(1)</script>")
  = "<a x><script>alert(1)</script>"
  /\ Luxon.valueToHtml stringifyEmpty luxonIsoDate Luxon.DEFAULT_SETTINGS
       (VStr "<b>bold</b>")
     = "&lt;b&gt;bold&lt;/b&gt;".
Proof.
  split.
  - apply (luxon_text_escaped_unless_anchor_start stringifyEmpty luxonIsoDate
             Luxon.DEFAULT_SETTINGS "<a x><script>alert(1)</script>");
      [discriminate|reflexivity|reflexivity].
  - apply (luxon_text_escaped_unless_anchor_start stringifyEmpty luxonIsoDate
             Luxon.DEFAULT_SETTINGS "<b>bold</b>");
      [discriminate|reflexivity|reflexivity].
Defined.

Lemma span_inv p s a b : span p s = (a, b) -> s = a +:+ b /\ allChars p a = true.
Proof.
  revert a b. induction s as [|c s IH]; simpl; intros a b.
  - intros [= <- <-]. split; reflexivity.
  - destruct (p c) eqn:Ec.
    + destruct (span p s) as [a' b'] eqn:E. intros [= <- <-].
      destruct (IH _ _ eq_refl) as [-> Ha]. split; [reflexivity|].
      simpl. rewrite Ec, Ha. reflexivity.
    + intros [= <- <-]. split; reflexivity.
Qed.

Lemma digits_isoChars d : allChars isDigit d = true -> allChars isIsoChar d = true.
Proof.
  apply allChars_weaken. intros c H. unfold isIsoChar. rewrite H. reflexivity.
Qed.

Lemma zoneOrEnd_chars s : Luxon.zoneOrEnd s = true -> allChars isIsoChar s = true.
Proof.
  unfold Luxon.zoneOrEnd. destruct s as [|c r]; [reflexivity|].
  destruct (Ascii.eqb c "Z"%char) eqn:Ez.
  - apply Ascii.eqb_eq in Ez. subst c. destruct r; [reflexivity|discriminate].
  - destruct (Ascii.eqb c "+"%char || Ascii.eqb c "-"%char) eqn:Es; [|discriminate].
    assert (Hc : isIsoChar c = true).
    { unfold isIsoChar. apply orb_true_iff in Es as [-> | ->];
        rewrite ?orb_true_r; reflexivity. }
    destruct (digits 2 r) as [[h r1]|] eqn:E1; [|discriminate]. cbn -[digits].
    destruct (lit ":"%char r1) as [r2|] eqn:E2; [|discriminate]. cbn -[digits].
    destruct (digits 2 r2) as [[m r3]|] eqn:E3; [|discriminate].
    destruct r3; [|discriminate]. intros _.
    apply digits_inv in E1 as [-> Hh], E3 as [-> Hm]. apply lit_inv in E2 as ->.
    simpl allChars. rewrite Hc.
    repeat (rewrite allChars_app || simpl allChars).
    rewrite (digits_isoChars _ Hh), (digits_isoChars _ Hm). reflexivity.
Qed.

Lemma secondsThenZone_chars s :
  Luxon.secondsThenZone s = true -> allChars isIsoChar s = true.
Proof.
  unfold Luxon.secondsThenZone.
  destruct (lit ":"%char s) as [s1|] eqn:E1; cbn -[digits]; [|apply zoneOrEnd_chars].
  destruct (digits 2 s1) as [[ss r]|] eqn:E2; cbn -[digits]; [|apply zoneOrEnd_chars].
  apply lit_inv in E1 as ->. apply digits_inv in E2 as [-> Hss].
  assert (Hfront : forall tail, allChars isIsoChar tail = true ->
             allChars isIsoChar (String ":"%char (ss +:+ tail)) = true).
  { intros tail Ht. simpl allChars. rewrite allChars_app, (digits_isoChars _ Hss), Ht.
    reflexivity. }
  destruct (lit "."%char r) as [f|] eqn:E3.
  - destruct (span isDigit f) as [ds rest] eqn:E4.
    destruct (nonEmpty ds).
    + intros Hz. apply Hfront. apply lit_inv in E3 as ->.
      apply span_inv in E4 as [-> Hds]. simpl allChars.
      rewrite allChars_app, (digits_isoChars _ Hds), (zoneOrEnd_chars _ Hz). reflexivity.
    + intros Hz. apply Hfront, zoneOrEnd_chars, Hz.
  - intros Hz. apply Hfront, zoneOrEnd_chars, Hz.
Qed.

(** A text [isDateValue] accepts is made of digits, [-], [T], [:], [.], [Z]
    and [+]. *)
Lemma isDateString_chars s : Luxon.isDateString s = true -> allChars isIsoChar s = true.
Proof.
  unfold Luxon.isDateString.
  destruct (digits 4 s) as [[y s1]|] eqn:E1; [|discriminate]. cbn -[digits].
  destruct (lit "-"%char s1) as [s2|] eqn:E2; [|discriminate]. cbn -[digits].
  destruct (digits 2 s2) as [[mo s3]|] eqn:E3; [|discriminate]. cbn -[digits].
  destruct (lit "-"%char s3) as [s4|] eqn:E4; [|discriminate]. cbn -[digits].
  destruct (digits 2 s4) as [[d s5]|] eqn:E5; [|discriminate]. cbn -[digits].
  apply digits_inv in E1 as [-> Hy], E3 as [-> Hmo], E5 as [-> Hd].
  apply lit_inv in E2 as ->, E4 as ->.
  assert (Hfront : forall tail, allChars isIsoChar tail = true ->
             allChars isIsoChar
               (y +:+ String "-"%char (mo +:+ String "-"%char (d +:+ tail))) = true).
  { intros tail Ht.
    repeat (rewrite allChars_app || simpl allChars);
      rewrite ?(digits_isoChars _ Hy), ?(digits_isoChars _ Hmo),
        ?(digits_isoChars _ Hd), ?Ht; reflexivity. }
  destruct s5 as [|c5 s5]; [intros _; apply Hfront; reflexivity|].
  destruct (lit "T"%char (String c5 s5)) as [s6|] eqn:E6; [|discriminate].
  cbn -[digits].
  destruct (digits 2 s6) as [[hh s7]|] eqn:E7; [|discriminate]. cbn -[digits].
  destruct (lit ":"%char s7) as [s8|] eqn:E8; [|discriminate]. cbn -[digits].
  destruct (digits 2 s8) as [[mi s9]|] eqn:E9; [|discriminate]. cbn -[digits].
  intros Hz. apply Hfront. apply lit_inv in E6. rewrite E6.
  apply digits_inv in E7 as [-> Hhh], E9 as [-> Hmi]. apply lit_inv in E8 as ->.
  repeat (rewrite allChars_app || simpl allChars).
  rewrite (digits_isoChars _ Hhh), (digits_isoChars _ Hmi),
    (secondsThenZone_chars _ Hz).
  reflexivity.
Qed.

Lemma isoChar_plain c :
  isIsoChar c = true ->
  negb (isMeta c) = true /\ negb (Ascii.eqb c "["%char) = true.
Proof.
  unfold isIsoChar. intros H.
  repeat (apply orb_true_iff in H as [H|H]);
    try (apply Ascii.eqb_eq in H; subst c; split; reflexivity).
  split; [apply digit_not_meta, H|].
  apply negb_true_iff, Ascii.eqb_neq. intros ->. vm_compute in H. discriminate.
Qed.

Lemma anchorMatch_other c r :
  Ascii.eqb c "<"%char = false -> Luxon.anchorMatch (String c r) = None.
Proof.
  intros Hc. unfold Luxon.anchorMatch.
  change (startsWith "<a " (String c r))
    with (Ascii.eqb "<"%char c && startsWith "a " r).
  rewrite Ascii.eqb_sym, Hc. reflexivity.
Qed.

Lemma noLt_noAnchor s : noLt s = true -> noAnchor s = true.
Proof.
  unfold noLt. induction s as [|c r IH]; [reflexivity|].
  simpl allChars. intros H. apply andb_true_iff in H as [Hc Hr].
  apply negb_true_iff in Hc.
  rewrite noAnchor_cons, (anchorMatch_other c r Hc). apply IH, Hr.
Qed.

Lemma noLt_start s : noLt s = true -> startsWith "<a " s = false.
Proof.
  unfold noLt. destruct s as [|c r]; [reflexivity|].
  simpl allChars. intros H. apply andb_true_iff in H as [Hc _].
  apply negb_true_iff in Hc.
  change (startsWith "<a " (String c r))
    with (Ascii.eqb "<"%char c && startsWith "a " r).
  rewrite Ascii.eqb_sym, Hc. reflexivity.
Qed.

Lemma not_meta_noLt s : allChars (fun c => negb (isMeta c)) s = true -> noLt s = true.
Proof.
  apply allChars_weaken. intros c H. apply negb_true_iff in H. unfold isMeta in H.
  repeat (apply orb_false_iff in H as [H ?]).
  match goal with E : Ascii.eqb c "<"%char = false |- _ => rewrite E end. reflexivity.
Qed.

Lemma allChars_noBracket s :
  allChars (fun c => negb (Ascii.eqb c "["%char)) s = true -> noBracket s = true.
Proof.
  induction s as [|c r IH]; [reflexivity|]. simpl. intros H.
  apply andb_true_iff in H as [Hc Hr]. rewrite Hc, (IH Hr). reflexivity.
Qed.

(** X17. A text [isDateValue] of the second program accepts comes out of the
    formatter as what Luxon makes of it, escaped; when Luxon finds the date
    invalid (or throws), the text comes out as it is: it is made of digits,
    [-], [T], [:], [.], [Z] and [+] only, so nothing in it is a link or needs
    escaping. *)
Theorem luxon_date_values
  (stringify : value -> string) (luxonFormat : string -> string -> option string)
  (st : Luxon.PluginSettings) (s : string) :
  Luxon.isDateString s = true ->
  allChars isIsoChar s = true
  /\ Luxon.valueToHtml stringify luxonFormat st (VStr s)
     = match luxonFormat s (Luxon.dateFormat st) with
       | Some d => escapeHtml d
       | None => s
       end.
Proof.
  intros Hd. pose proof (isDateString_chars s Hd) as Hc. split; [exact Hc|].
  destruct (luxonFormat s (Luxon.dateFormat st)) as [d|] eqn:E.
  - change (Luxon.valueToHtml stringify luxonFormat st (VStr s))
      with (Luxon.scalarToHtml stringify luxonFormat st (VStr s)).
    unfold Luxon.scalarToHtml.
    change (Luxon.isDateValue (VStr s)) with (Luxon.isDateString s).
    change (toStr (VStr s)) with s. rewrite Hd, E. reflexivity.
  - assert (Hplain : allChars (fun c => negb (isMeta c)) s = true)
      by (apply (allChars_weaken isIsoChar); [intros c H; apply isoChar_plain, H|exact Hc]).
    assert (Hb : noBracket s = true).
    { apply allChars_noBracket, (allChars_weaken isIsoChar); [|exact Hc].
      intros c H. apply isoChar_plain, H. }
    pose proof (not_meta_noLt s Hplain) as Hlt.
    rewrite (luxon_text stringify luxonFormat st s (fun _ => E) Hb (noLt_noAnchor s Hlt)).
    rewrite (noLt_start s Hlt). apply escapeHtml_plain, Hplain.
Qed.

Lemma luxon_date_values_witness :
  Luxon.valueToHtml stringifyEmpty (fun _ _ => None) Luxon.DEFAULT_SETTINGS
    (VStr "2024-13-45T25:61:00.5+02:00")
  = "2024-13-45T25:61:00.5+02:00".
Proof.
  apply (luxon_date_values stringifyEmpty (fun _ _ => None) Luxon.DEFAULT_SETTINGS
           "2024-13-45T25:61:00.5+02:00" eq_refl).
Defined.

Lemma luxon_wikiMatch_link link display post :
  link <> EmptyString ->
  allChars Luxon.notCloseNorPipe link = true ->
  (forall d, display = Some d -> d <> EmptyString /\ allChars notClose d = true) ->
  Luxon.wikiMatch (wikiSource link display +:+ post) = Some (link, display, post).
Proof.
  intros Hne Hl Hd. unfold Luxon.wikiMatch, wikiSource.
  destruct display as [d|].
  - destruct (Hd d eq_refl) as [Hdne Hdc].
    replace (("[[" +:+ link +:+ ("|" +:+ d) +:+ "]]") +:+ post)
      with (String "["%char (String "["%char
              (link +:+ String "|"%char (d +:+ String "]"%char (String "]"%char post))))).
    2:{ rewrite ?append_assoc. cbn [String.append]. rewrite ?append_assoc.
        reflexivity. }
    cbn [startsWith Ascii.eqb Bool.eqb andb drop_str].
    rewrite (span_stop Luxon.notCloseNorPipe link "|"%char _ Hl eq_refl).
    destruct link as [|l0 link]; [congruence|].
    cbn [nonEmpty startsWith Ascii.eqb Bool.eqb andb drop_str].
    rewrite (span_stop notClose d "]"%char _ Hdc eq_refl).
    destruct d as [|d0 d]; [congruence|]. reflexivity.
  - replace (("[[" +:+ link +:+ EmptyString +:+ "]]") +:+ post)
      with (String "["%char (String "["%char
              (link +:+ String "]"%char (String "]"%char post)))).
    2:{ rewrite ?append_assoc. cbn [String.append]. rewrite ?append_assoc.
        reflexivity. }
    cbn [startsWith Ascii.eqb Bool.eqb andb drop_str].
    rewrite (span_stop Luxon.notCloseNorPipe link "]"%char _ Hl eq_refl).
    destruct link as [|l0 link]; [congruence|]. reflexivity.
Qed.

Lemma luxon_replaceWiki_skip pre n rest :
  noBracket pre = true ->
  Luxon.replaceWiki (String.length pre + n) (pre +:+ rest)
  = pre +:+ Luxon.replaceWiki n rest.
Proof.
  induction pre as [|c pre IH]; intros H; [reflexivity|].
  simpl in H. apply andb_true_iff in H as [Hc Hp]. apply negb_true_iff in Hc.
  rewrite !append_cons. simpl String.length. simpl Nat.add.
  unfold Luxon.replaceWiki; fold Luxon.replaceWiki.
  rewrite (luxon_wikiMatch_plain c _ Hc), (IH Hp). reflexivity.
Qed.

Lemma splitAnchors_skip pre n acc rest :
  noLt pre = true ->
  Luxon.splitAnchors (String.length pre + n) acc (pre +:+ rest)
  = Luxon.splitAnchors n (acc +:+ pre) rest.
Proof.
  unfold noLt. revert acc. induction pre as [|c pre IH]; intros acc H.
  - rewrite append_nil_r. reflexivity.
  - simpl in H. apply andb_true_iff in H as [Hc Hp]. apply negb_true_iff in Hc.
    rewrite append_cons. simpl String.length. simpl Nat.add.
    rewrite splitAnchors_step, (anchorMatch_other c _ Hc), (IH _ Hp), append_assoc.
    reflexivity.
Qed.

Lemma anchorMatch_shape attrs text rest :
  attrs <> EmptyString ->
  allChars (fun c => negb (Ascii.eqb c ">"%char)) attrs = true ->
  noLt text = true ->
  Luxon.anchorMatch (("<a " +:+ attrs +:+ ">" +:+ text +:+ "</a>") +:+ rest)
  = Some ("<a " +:+ attrs +:+ ">" +:+ text +:+ "</a>", rest).
Proof.
  intros Hne Ha Ht. unfold Luxon.anchorMatch.
  replace (("<a " +:+ attrs +:+ ">" +:+ text +:+ "</a>") +:+ rest)
    with (String "<"%char (String "a"%char (String " "%char
            (attrs +:+ String ">"%char
               (text +:+ String "<"%char
                  (String "/"%char (String "a"%char (String ">"%char rest)))))))).
  2:{ rewrite ?append_assoc. cbn [String.append]. rewrite ?append_assoc.
      cbn [String.append]. rewrite ?append_assoc. reflexivity. }
  cbn [startsWith Ascii.eqb Bool.eqb andb drop_str].
  rewrite (span_stop _ attrs ">"%char _ Ha eq_refl).
  destruct attrs as [|a0 attrs]; [congruence|].
  cbn [nonEmpty startsWith Ascii.eqb Bool.eqb andb drop_str].
  rewrite (span_stop _ text "<"%char _ Ht eq_refl).
  cbn [startsWith Ascii.eqb Bool.eqb andb drop_str]. reflexivity.
Qed.

Lemma wikiAnchor_shape link display :
  Luxon.wikiAnchor link display
  = "<a " +:+ luxonAttrs link +:+ ">" +:+ escapeHtml (default link display) +:+ "</a>".
Proof.
  unfold Luxon.wikiAnchor, luxonAttrs, Luxon.escapeHtml.
  rewrite !append_assoc. reflexivity.
Qed.

Lemma no_angle_no_gt s :
  allChars (fun c => negb (isAngleOrQuote c)) s = true ->
  allChars (fun c => negb (Ascii.eqb c ">"%char)) s = true.
Proof.
  apply allChars_weaken. intros c H. apply negb_true_iff in H. unfold isAngleOrQuote in H.
  repeat (apply orb_false_iff in H as [H ?]).
  match goal with E : Ascii.eqb c ">"%char = false |- _ => rewrite E end. reflexivity.
Qed.

Lemma luxonAttrs_closed link :
  luxonAttrs link <> EmptyString
  /\ allChars (fun c => negb (Ascii.eqb c ">"%char)) (luxonAttrs link) = true.
Proof.
  split; [discriminate|].
  change (luxonAttrs link)
    with (String "h"%char (String "r"%char (String "e"%char (String "f"%char
           (String "="%char (String "034"%char (String "#"%char
             (escapeHtml link +:+ (dq +:+ " class=" +:+ dq +:+ "internal-link" +:+ dq))))))))).
  cbn [allChars Ascii.eqb Bool.eqb negb andb].
  rewrite allChars_app, (no_angle_no_gt _ (escapeHtml_no_markup link)).
  reflexivity.
Qed.

Lemma splitAnchors_anchor fuel acc a rest :
  a <> EmptyString ->
  Luxon.anchorMatch (a +:+ rest) = Some (a, rest) ->
  Luxon.splitAnchors (S fuel) acc (a +:+ rest)
  = acc :: a :: Luxon.splitAnchors fuel EmptyString rest.
Proof.
  intros Hne H. destruct a as [|c a]; [congruence|].
  rewrite append_cons in *. rewrite splitAnchors_step, H. reflexivity.
Qed.

(** X18. A wikilink in a text, for the formatter of the second program: with
    no bracket and no [<] before and after the link, a link name without
    [\]] and [|], and a text to display (if any) without [\]], the link
    becomes one hyperlink whose address is [#] and the escaped name and whose
    text is the escaped display text, or the escaped name when there is none;
    what stands before and after is escaped. *)
Theorem luxon_wikilink_in_text
  (stringify : value -> string) (luxonFormat : string -> string -> option string)
  (st : Luxon.PluginSettings) (pre link post : string) (display : option string) :
  noBracket pre = true -> noLt pre = true ->
  noBracket post = true -> noLt post = true ->
  link <> EmptyString ->
  allChars Luxon.notCloseNorPipe link = true ->
  (forall d, display = Some d -> d <> EmptyString /\ allChars notClose d = true) ->
  Luxon.valueToHtml stringify luxonFormat st
    (VStr (pre +:+ wikiSource link display +:+ post))
  = escapeHtml pre
    +:+ ("<a " +:+ luxonAttrs link +:+ ">" +:+ escapeHtml (default link display)
         +:+ "</a>")
    +:+ escapeHtml post.
Proof.
  intros Hpb Hpl Hqb Hql Hne Hl Hd.
  set (s := pre +:+ wikiSource link display +:+ post).
  assert (Hnot : Luxon.isDateString s = false).
  { destruct (Luxon.isDateString s) eqn:E; [|reflexivity].
    apply isDateString_chars in E. unfold s, wikiSource in E.
    rewrite allChars_app in E. apply andb_true_iff in E as [_ E].
    rewrite !append_assoc in E. discriminate E. }
  change (Luxon.valueToHtml stringify luxonFormat st (VStr s))
    with (Luxon.scalarToHtml stringify luxonFormat st (VStr s)).
  unfold Luxon.scalarToHtml.
  change (Luxon.isDateValue (VStr s)) with (Luxon.isDateString s).
  change (toStr (VStr s)) with s. rewrite Hnot. cbn [Luxon.isObject].
  set (a := "<a " +:+ luxonAttrs link +:+ ">" +:+ escapeHtml (default link display)
            +:+ "</a>").
  assert (Hlen : exists n, String.length s = String.length pre + S n).
  { unfold s, wikiSource. rewrite !length_append. simpl String.length. eauto. }
  destruct Hlen as [n Hn].
  assert (Hrep : Luxon.replaceWiki (String.length s) s = pre +:+ a +:+ post).
  { rewrite Hn. unfold s. rewrite (luxon_replaceWiki_skip pre _ _ Hpb).
    unfold Luxon.replaceWiki; fold Luxon.replaceWiki.
    rewrite (luxon_wikiMatch_link link display post Hne Hl Hd).
    rewrite (luxon_replaceWiki_plain n post Hqb), wikiAnchor_shape. reflexivity. }
  rewrite Hrep.
  assert (Ha : a <> EmptyString) by discriminate.
  destruct (luxonAttrs_closed link) as [Hattrs Hclosed].
  assert (Hm : Luxon.anchorMatch (a +:+ post) = Some (a, post)).
  { apply anchorMatch_shape; [exact Hattrs|exact Hclosed|].
    apply no_angle_no_lt, escapeHtml_no_markup. }
  replace (S (String.length (pre +:+ a +:+ post)))
    with (String.length pre + S (String.length (a +:+ post)))
    by (rewrite (length_append pre); lia).
  rewrite (splitAnchors_skip pre _ _ _ Hpl).
  rewrite (splitAnchors_anchor _ _ a post Ha Hm).
  rewrite (splitAnchors_clean _ _ post (noLt_noAnchor post Hql)).
  change (EmptyString +:+ pre) with pre. change (EmptyString +:+ post) with post.
  cbn [map str_concat fold_right].
  rewrite (noLt_start pre Hpl), (noLt_start post Hql).
  change (startsWith "<a " a) with true. cbv iota.
  unfold Luxon.escapeHtml. rewrite append_nil_r. reflexivity.
Qed.

Lemma luxon_wikilink_in_text_witness :
  Luxon.valueToHtml stringifyEmpty luxonIsoDate Luxon.DEFAULT_SETTINGS
    (VStr "see [[Q&A|a>b]] & more")
  = "see <a href=" +:+ dq +:+ "#Q&amp;A" +:+ dq +:+ " class=" +:+ dq
    +:+ "internal-link" +:+ dq +:+ ">a&gt;b</a> &amp; more".
Proof.
  apply (luxon_wikilink_in_text stringifyEmpty luxonIsoDate Luxon.DEFAULT_SETTINGS
           "see " "Q&A" " & more" (Some "a>b"));
    try reflexivity; try discriminate.
  intros d [= <-]. split; [discriminate|reflexivity].
Defined.

(** * Further properties: the first program of [main.ts] *)

Lemma rewriteWithin_none r g doc :
  g (childrenOf r doc) = None -> rewriteWithin r g doc = None.
Proof.
  unfold rewriteWithin, childrenOf, rewriteFirst. intros H.
  destruct (querySelector (hasRef r) doc) as [[r' t c ks|h]|]; try reflexivity.
  rewrite H. reflexivity.
Qed.

Lemma placeFirst_undo b ks ks' :
  isBlock b = true ->
  countIn isBlock ks = 0 ->
  rewriteFirst isSection (Basic.placeFirst [b]) ks = Some ks' ->
  removeFirstBlock ks' = Some ks.
Proof.
  intros Hb Hc E. apply rewriteFirst_first in E. apply first_rewrite_detach.
  eapply first_rewrite_undo; [| | |exact Hc|exact E].
  - apply detach_none.
  - intros r t c k k' _. apply detach_elem.
  - intros [r t c k|h] l _ Hn Hl rest; [|discriminate Hn].
    unfold Basic.placeFirst in Hl.
    destruct (querySelector isBlock k); [discriminate|]. injection Hl as <-.
    simpl app. rewrite first_rewrite_cons.
    rewrite (detach_elem r t c k (b :: k) Hn); [reflexivity|].
    rewrite first_rewrite_cons, (detach_marker b Hb). reflexivity.
Qed.

(** X19. The injection of the first program of [main.ts], with a fragment
    [html] to show that the parser turns into one marker element [b], an
    active view and, inside the view, a first preview section that holds no
    block: [b] becomes the first child of that section, whatever the setting
    [insertAfterHeading] says and whatever blocks the rest of the document
    holds; a second injection changes nothing; and in a document that had no
    block the removal gives back the world of before the injection. *)
Theorem basic_inject_top_of_section (w : World) (file : string) (fm : props)
  (html : string) (b : node) (view r : nat) (t : string) (c : list string)
  (ks : list node) :
  currentFile (plugin w) = Some file ->
  frontmatter (host w) !! file = Some fm ->
  displayProperties (settings (plugin w)) = true ->
  snd (getPropertiesHtml (settings (plugin w)) (deleteKey "position" fm)) = Some html ->
  parseHTML (host w) html = [b] ->
  isBlock b = true ->
  countNode isBlock b = 1 ->
  activeView (host w) = Some view ->
  querySelector isSection (childrenOf view (document (host w))) = Some (Elem r t c ks) ->
  querySelector isBlock ks = None ->
  exists d,
    Basic.injectRenderedProperties w = (Ok tt, setDocument d w)
    /\ querySelector isSection (childrenOf view d) = Some (Elem r t c (b :: ks))
    /\ countBlocks d = countBlocks (document (host w)) + 1
    /\ Basic.injectRenderedProperties (setDocument d w) = (Ok tt, setDocument d w)
    /\ (blocksOf w = 0 -> Basic.removeInjectedProperties (setDocument d w) = (Ok tt, w)).
Proof.
  intros Hf Hfm Hd Hh Hparse Hmark Hone Hv Ht Hb.
  set (doc := document (host w)) in *.
  set (g := rewriteFirst isSection (Basic.placeFirst [b])).
  assert (Hplace : Basic.placeFirst [b] (Elem r t c ks)
                   = Some [Elem r t c (b :: ks)])
    by (unfold Basic.placeFirst; rewrite Hb; reflexivity).
  assert (Hg : is_Some (g (childrenOf view doc))).
  { eapply query_some_rewrite; [exact Ht|]. rewrite Hplace. eauto. }
  destruct (rewriteWithin_some view g doc Hg) as [d Ed].
  { intros k [k' Hk] ->. discriminate. }
  destruct (rewriteWithin_children _ _ _ _ Ed) as (ks' & Eg & Ech).
  assert (Hq : querySelector isSection (childrenOf view d)
               = Some (Elem r t c (b :: ks))).
  { rewrite Ech.
    apply (rewriteFirst_query isSection (shallow_hasClass _) (Basic.placeFirst [b])
             (childrenOf view doc) ks' (Elem r t c ks) _ Ht Hplace);
      [exact (query_some_sat _ _ _ Ht)|exact Eg]. }
  assert (Hinj : forall w0 : World,
             currentFile (plugin w0) = Some file ->
             frontmatter (host w0) !! file = Some fm ->
             settings (plugin w0) = settings (plugin w) ->
             parseHTML (host w0) = parseHTML (host w) ->
             activeView (host w0) = Some view ->
             Basic.injectRenderedProperties w0
             = match rewriteWithin view g (document (host w0)) with
               | Some doc' => (Ok tt, setDocument doc' w0)
               | None => (Ok tt, w0)
               end).
  { intros w0 H1 H2 H3 H5 H4. unfold Basic.injectRenderedProperties.
    rewrite H1, H2, H3, H5, Hd. simpl negb. cbv iota.
    destruct (getPropertiesHtml (settings (plugin w)) (deleteKey "position" fm))
      as [p o]. simpl in Hh. subst o. rewrite H4, Hparse. reflexivity. }
  exists d. split; [|split; [exact Hq|split; [|split]]].
  - rewrite (Hinj w Hf Hfm eq_refl eq_refl Hv). fold doc. rewrite Ed. reflexivity.
  - unfold g in Ed.
    apply (rewriteWithin_count isBlock (fun x y => y = x + 1) _ _ _ _
             (shallow_hasClass _)) in Ed; [exact Ed|intros; lia|].
    intros k k' Hk.
    apply (rewriteFirst_count isBlock (shallow_hasClass _) (fun x y => y = x + 1)) in Hk;
      [exact Hk|intros; lia|].
    intros n ns _ Hn. destruct n as [r0 t0 c0 k0|h]; [|discriminate].
    unfold Basic.placeFirst in Hn. destruct (querySelector isBlock k0); [discriminate|].
    injection Hn as <-. simpl app.
    rewrite countIn_single, !countNode_elem, countIn_cons, Hone.
    change (isBlock (Elem r0 t0 c0 (b :: k0))) with (isBlock (Elem r0 t0 c0 k0)).
    lia.
  - rewrite (Hinj (setDocument d w) Hf Hfm eq_refl eq_refl Hv).
    change (document (host (setDocument d w))) with d.
    rewrite rewriteWithin_none; [reflexivity|].
    unfold g. eapply query_some_rewrite_fails; [exact Hq|].
    unfold Basic.placeFirst.
    assert (Hsome : is_Some (querySelector isBlock (b :: ks))).
    { apply count_pos_query. rewrite countIn_cons, Hone. lia. }
    destruct Hsome as [m ->]. reflexivity.
  - intros Hzero. unfold Basic.removeInjectedProperties.
    change (activeView (host (setDocument d w))) with (activeView (host w)).
    rewrite Hv. change (document (host (setDocument d w))) with d.
    rewrite (within_undo g view doc d (fun k k' => placeFirst_undo b k k' Hmark) Hzero Ed).
    destruct w as [[cm af av dc fr va re we ph] pl co ca]. reflexivity.
Qed.

Lemma basic_inject_top_of_section_witness :
  exists d,
    Basic.injectRenderedProperties (reportWorld previewDocument reportText)
    = (Ok tt, setDocument d (reportWorld previewDocument reportText))
    /\ Basic.removeInjectedProperties (setDocument d (reportWorld previewDocument reportText))
       = (Ok tt, reportWorld previewDocument reportText).
Proof.
  assert (Hh : { html | snd (getPropertiesHtml
                               (settings (plugin (reportWorld previewDocument reportText)))
                               (deleteKey "position" reportFrontmatter)) = Some html }).
  { vm_compute. eexists. reflexivity. }
  destruct Hh as [html Hh].
  destruct (basic_inject_top_of_section (reportWorld previewDocument reportText)
              "report.md" reportFrontmatter html (Block html) 2 3 "div"
              ["markdown-preview-section"]
              [Elem 4 "p" [] []; Elem 5 "h1" [] []; Elem 6 "p" [] []]
              eq_refl eq_refl eq_refl Hh eq_refl eq_refl eq_refl eq_refl eq_refl eq_refl)
    as (d & E & _ & _ & _ & Hback).
  exists d. split; [exact E|]. apply Hback. reflexivity.
Defined.

(** * Further properties: the post-processor of the second program *)

Lemma insertBeforeFirst_count q p b ks ks' :
  insertBeforeFirst p b ks = Some ks' -> countIn q ks' = countIn q ks + countNode q b.
Proof.
  revert ks'. induction ks as [|k ks IH]; simpl; intros ks'; [discriminate|].
  destruct (p k).
  - intros [= <-]. rewrite !countIn_cons. lia.
  - destruct (queryNode p k); [discriminate|].
    destruct (insertBeforeFirst p b ks) as [rest'|]; [|discriminate].
    intros [= <-]. rewrite !countIn_cons, (IH rest' eq_refl). lia.
Qed.

Lemma insertBeforeFirst_top p b pre k post :
  countIn p pre = 0 -> p k = true ->
  insertBeforeFirst p b (pre ++ k :: post) = Some (pre ++ b :: k :: post).
Proof.
  intros Hpre Hk. induction pre as [|x pre IH]; simpl; [rewrite Hk; reflexivity|].
  rewrite countIn_cons in Hpre.
  destruct (p x) eqn:Ex; [pose proof (countNode_pos p x Ex); lia|].
  rewrite (count_zero_queryNode p x) by lia. rewrite IH by lia. reflexivity.
Qed.

Lemma insertBeforeFirst_nested p b pre k post :
  countIn p pre = 0 -> p k = false -> 1 <= countNode p k ->
  insertBeforeFirst p b (pre ++ k :: post) = None.
Proof.
  intros Hpre Hk Hin. induction pre as [|x pre IH]; simpl.
  - rewrite Hk. destruct (queryNode p k) eqn:E; [reflexivity|].
    pose proof (queryNode_none_count p k E). lia.
  - rewrite countIn_cons in Hpre.
    destruct (p x) eqn:Ex; [pose proof (countNode_pos p x Ex); lia|].
    rewrite (count_zero_queryNode p x) by lia. rewrite IH by lia. reflexivity.
Qed.

Lemma insertAfterHeading_count table ks ks' :
  insertAfterFirstHeading (Block table) ks = Some ks' ->
  countIn isBlock ks' = countIn isBlock ks + 1.
Proof.
  apply (rewriteFirst_count isBlock (shallow_hasClass _) (fun a b => b = a + 1));
    [intros; lia|].
  intros n ns _ [= <-]. rewrite countIn_cons, countIn_single. simpl. lia.
Qed.

(** A call that has a table to show and returns adds one block to the
    element, and keeps its classes. *)
Lemma luxonPostProcessor_count stringify luxonFormat st cf af cache element e' :
  shows stringify luxonFormat st cf af cache element ->
  luxonPostProcessor stringify luxonFormat st cf af cache element = Ok e' ->
  countNode isBlock e' = countNode isBlock element + 1
  /\ forall cl, hasClass cl e' = hasClass cl element.
Proof.
  intros (H1 & H2 & H3 & file & fm & Hfile & Hfm & [table Ht]).
  unfold luxonPostProcessor. rewrite H1, H2, H3, Hfile, Hfm, Ht. simpl negb. cbv iota.
  destruct element as [r t c ks|h]; [|discriminate H1].
  assert (Hdone : forall ks', countIn isBlock ks' = countIn isBlock ks + 1 ->
            countNode isBlock (Elem r t c ks') = countNode isBlock (Elem r t c ks) + 1
            /\ forall cl, hasClass cl (Elem r t c ks') = hasClass cl (Elem r t c ks)).
  { intros ks' Hc. split; [|reflexivity]. rewrite !countNode_elem.
    change (isBlock (Elem r t c ks')) with (isBlock (Elem r t c ks)). lia. }
  cbv zeta.
  match goal with
  | |- match ?x with _ => _ end = _ -> _ => destruct x as [ks'|] eqn:Eafter
  end.
  - intros [= <-]. apply Hdone.
    destruct (Luxon.addPropertiesBlockAfterHeading st); [|discriminate].
    destruct (querySelector isContainer ks) as [cnt|].
    + apply (rewriteFirst_count isBlock (shallow_hasClass _) (fun a b => b = a + 1))
        in Eafter; [exact Eafter|intros; lia|].
      intros m ns _ Hn. destruct m as [r' t' c' k'|h']; [|discriminate].
      destruct (insertAfterFirstHeading (Block table) k') as [k''|] eqn:Ek; [|discriminate].
      injection Hn as <-. rewrite countIn_single, !countNode_elem.
      change (isBlock (Elem r' t' c' k'')) with (isBlock (Elem r' t' c' k')).
      rewrite (insertAfterHeading_count _ _ _ Ek). lia.
    + apply (insertAfterHeading_count _ _ _ Eafter).
  - destruct (querySelector isContainer ks).
    + destruct (insertBeforeFirst isContainer (Block table) ks) as [ks'|] eqn:Ei;
        [|discriminate].
      intros [= <-]. apply Hdone.
      rewrite (insertBeforeFirst_count isBlock _ _ _ _ Ei). reflexivity.
    + intros [= <-]. apply Hdone. rewrite countIn_cons. simpl. lia.
Qed.

(** X20. The post-processor of the second program has no test for a block
    that is already there: called for an element it has a table to show in,
    every call that returns adds one block to the element, so two calls
    leave two blocks more than there were. *)
Theorem luxon_processor_adds_block
  (stringify : value -> string) (luxonFormat : string -> string -> option string)
  (st : Luxon.PluginSettings) (cf af : option string) (cache : gmap string props)
  (element e1 e2 : node) :
  shows stringify luxonFormat st cf af cache element ->
  luxonPostProcessor stringify luxonFormat st cf af cache element = Ok e1 ->
  luxonPostProcessor stringify luxonFormat st cf af cache e1 = Ok e2 ->
  countNode isBlock e1 = countNode isBlock element + 1
  /\ countNode isBlock e2 = countNode isBlock element + 2.
Proof.
  intros Hs E1 E2.
  destruct (luxonPostProcessor_count _ _ _ _ _ _ _ _ Hs E1) as [H1 Hcl].
  assert (Hs1 : shows stringify luxonFormat st cf af cache e1).
  { destruct Hs as (A & B & C). split; [rewrite Hcl; exact A|].
    split; [rewrite Hcl; exact B|exact C]. }
  destruct (luxonPostProcessor_count _ _ _ _ _ _ _ _ Hs1 E2) as [H2 _].
  split; [exact H1|]. lia.
Qed.

Lemma luxon_processor_adds_block_witness :
  exists e1 e2,
    luxonPostProcessor stringifyEmpty luxonIsoDate Luxon.DEFAULT_SETTINGS
      (Some "report.md") None (<["report.md" := reportFrontmatter]> ∅)
      (renderedView [Elem 2 "h1" [] []; Elem 3 "p" [] []]) = Ok e1
    /\ luxonPostProcessor stringifyEmpty luxonIsoDate Luxon.DEFAULT_SETTINGS
         (Some "report.md") None (<["report.md" := reportFrontmatter]> ∅) e1 = Ok e2
    /\ countNode isBlock e2 = 2.
Proof.
  assert (H1 : { e1 | luxonPostProcessor stringifyEmpty luxonIsoDate Luxon.DEFAULT_SETTINGS
                        (Some "report.md") None (<["report.md" := reportFrontmatter]> ∅)
                        (renderedView [Elem 2 "h1" [] []; Elem 3 "p" [] []]) = Ok e1 }).
  { vm_compute. eexists. reflexivity. }
  destruct H1 as [e1 H1].
  assert (H2 : { e2 | luxonPostProcessor stringifyEmpty luxonIsoDate Luxon.DEFAULT_SETTINGS
                        (Some "report.md") None (<["report.md" := reportFrontmatter]> ∅)
                        e1 = Ok e2 }).
  { revert H1. vm_compute. intros [= <-]. eexists. reflexivity. }
  destruct H2 as [e2 H2].
  exists e1, e2. split; [exact H1|]. split; [exact H2|].
  apply (luxon_processor_adds_block stringifyEmpty luxonIsoDate Luxon.DEFAULT_SETTINGS
           (Some "report.md") None (<["report.md" := reportFrontmatter]> ∅)
           (renderedView [Elem 2 "h1" [] []; Elem 3 "p" [] []]) e1 e2);
    [|exact H1|exact H2].
  split; [reflexivity|]. split; [reflexivity|]. split; [reflexivity|].
  exists "report.md", reportFrontmatter. split; [reflexivity|].
  split; [reflexivity|]. vm_compute. eauto.
Defined.

(** X21. Where the post-processor of the second program puts its block when
    the option of the heading is off and it has a table to show, by the place
    of the first [.cm-contentContainer] below the element: before it when it
    is a child of the element; an exception of [insertBefore], which nothing
    catches, when it lies deeper; as the first child when there is none. *)
Theorem luxon_processor_container
  (stringify : value -> string) (luxonFormat : string -> string -> option string)
  (st : Luxon.PluginSettings) (cf af : option string) (cache : gmap string props)
  (r : nat) (t : string) (c : list string) (table : string)
  (pre post : list node) (k : node) (file : string) (fm : props) :
  let run := luxonPostProcessor stringify luxonFormat st cf af cache in
  existsb (String.eqb "markdown-preview-view") c = true ->
  existsb (String.eqb "show-properties") c = true ->
  Luxon.displayProperties st = true ->
  match cf with Some f => Some f | None => af end = Some file ->
  cache !! file = Some fm ->
  Luxon.propertiesTable stringify luxonFormat st fm = Some table ->
  Luxon.addPropertiesBlockAfterHeading st = false ->
  countIn isContainer pre = 0 ->
  (isContainer k = true ->
     run (Elem r t c (pre ++ k :: post))
     = Ok (Elem r t c (pre ++ Block table :: k :: post)))
  /\ (isContainer k = false -> 1 <= countNode isContainer k ->
      run (Elem r t c (pre ++ k :: post)) = Throw "NotFoundError")
  /\ run (Elem r t c pre) = Ok (Elem r t c (Block table :: pre)).
Proof.
  intros run H1 H2 H3 Hfile Hfm Ht Hoff Hpre.
  assert (Hrun : forall ks,
             run (Elem r t c ks)
             = match querySelector isContainer ks with
               | Some _ =>
                   match insertBeforeFirst isContainer (Block table) ks with
                   | Some ks' => Ok (Elem r t c ks')
                   | None => Throw "NotFoundError"
                   end
               | None => Ok (Elem r t c (Block table :: ks))
               end).
  { intros ks. unfold run, luxonPostProcessor.
    change (hasClass "markdown-preview-view" (Elem r t c ks))
      with (existsb (String.eqb "markdown-preview-view") c).
    change (hasClass "show-properties" (Elem r t c ks))
      with (existsb (String.eqb "show-properties") c).
    rewrite H1, H2, H3, Hfile, Hfm, Ht, Hoff. reflexivity. }
  assert (Hsome : 1 <= countNode isContainer k ->
                  is_Some (querySelector isContainer (pre ++ k :: post))).
  { intros Hk. apply count_pos_query. rewrite countIn_app, countIn_cons. lia. }
  split; [|split].
  - intros Hk. rewrite Hrun.
    destruct (Hsome (countNode_pos _ _ Hk)) as [m ->].
    rewrite (insertBeforeFirst_top _ _ pre k post Hpre Hk). reflexivity.
  - intros Hk Hin. rewrite Hrun. destruct (Hsome Hin) as [m ->].
    rewrite (insertBeforeFirst_nested _ _ pre k post Hpre Hk Hin). reflexivity.
  - rewrite Hrun, (count_zero_query _ _ Hpre). reflexivity.
Qed.

Lemma luxon_processor_container_witness :
  luxonPostProcessor stringifyEmpty luxonIsoDate Luxon.DEFAULT_SETTINGS
    (Some "report.md") None (<["report.md" := reportFrontmatter]> ∅)
    (renderedView [Elem 2 "div" ["cm-sizer"] [Elem 3 "div" ["cm-contentContainer"] []]])
  = Throw "NotFoundError".
Proof.
  assert (Ht : { table | Luxon.propertiesTable stringifyEmpty luxonIsoDate
                           Luxon.DEFAULT_SETTINGS reportFrontmatter = Some table }).
  { vm_compute. eexists. reflexivity. }
  destruct Ht as [table Ht].
  apply (luxon_processor_container stringifyEmpty luxonIsoDate Luxon.DEFAULT_SETTINGS
           (Some "report.md") None (<["report.md" := reportFrontmatter]> ∅)
           1 "div" ["markdown-preview-view"; "markdown-rendered"; "show-properties"]
           table [] [] (Elem 2 "div" ["cm-sizer"] [Elem 3 "div" ["cm-contentContainer"] []])
           "report.md" reportFrontmatter);
    try reflexivity; exact Ht.
Defined.

(** * Further properties: errors that stay inside the operations *)

(** X22. An injection that falls back on the file and whose write the vault
    rejects does not throw: the error is logged by the patch and again by the
    injection, the file is left as it was, no backup is left under the path,
    and the listener of [beforeprint] ends the same way without a log of its
    own. *)
Theorem inject_swallows_patch_failure (w : World) (file : string) (fm : props)
  (T e : string) :
  currentFile (plugin w) = Some file ->
  frontmatter (host w) !! file = Some fm ->
  displayProperties (settings (plugin w)) = true ->
  deleteOmitted (settings (plugin w)) (deleteKey "position" fm) <> [] ->
  is_Some (activeView (host w)) ->
  querySelector isSection (document (host w)) = None ->
  vault (host w) !! file = Some T ->
  readError (host w) = None ->
  writeError (host w) = Some e ->
  exists w',
    injectRenderedProperties w = (Ok tt, w')
    /\ beforeprint w = (Ok tt, w')
    /\ vault (host w') = vault (host w)
    /\ fileBackups (plugin w') !! file = None
    /\ console w'
       = console w
         ++ [LogError "Properties-on-export: error patching file for export" e;
             LogError "Properties-on-export: failed to patch file for export" e].
Proof.
  intros Hf Hfm Hd Hrows Hv Hs HT Hr Hw.
  destruct (patch_write_rejected file
              (deleteOmitted (settings (plugin w)) (deleteKey "position" fm))
              (markdownOf (deleteOmitted (settings (plugin w)) (deleteKey "position" fm)))
              T e w) as (w1 & E & Hb & Hvault & Hlog); try assumption.
  { rewrite getPropertiesMarkdown_rows; rewrite deleteOmitted_twice;
      [reflexivity|exact Hrows]. }
  assert (Hinj : injectRenderedProperties w
                 = consoleError "Properties-on-export: failed to patch file for export"
                     e w1).
  { rewrite (inject_falls_back w file fm Hf Hfm Hd Hrows Hv Hs).
    unfold tryCatch. rewrite E. reflexivity. }
  eexists. split; [rewrite Hinj; reflexivity|].
  split; [unfold beforeprint, tryCatch; rewrite Hinj; reflexivity|].
  simpl. split; [exact Hvault|]. split; [exact Hb|].
  rewrite Hlog, <- app_assoc. reflexivity.
Qed.

Lemma inject_swallows_patch_failure_witness :
  exists w',
    injectRenderedProperties
      (withHost (reportHost emptyDocument reportText (Some "EACCES"))
         (reportWorld emptyDocument reportText)) = (Ok tt, w')
    /\ vault (host w') !! "report.md" = Some reportText.
Proof.
  destruct (inject_swallows_patch_failure
              (withHost (reportHost emptyDocument reportText (Some "EACCES"))
                 (reportWorld emptyDocument reportText))
              "report.md" reportFrontmatter reportText "EACCES")
    as (w' & E & _ & Hv & _); try reflexivity.
  - vm_compute. discriminate.
  - vm_compute. eauto.
  - exists w'. split; [exact E|]. rewrite Hv. reflexivity.
Defined.

(** X23. The patch is made on the current file of the plugin, the restore on
    the active file of the workspace. When the two differ (or no file is
    active) and the active file has no backup of its own, a removal that
    follows a patch returns with the patched file still patched and its
    backup still kept: nothing is restored. *)
Theorem restore_looks_at_active_file (w : World) (file : string) (fm : props)
  (T : string) :
  let st := settings (plugin w) in
  let md := markdownOf (deleteOmitted st (deleteKey "position" fm)) in
  currentFile (plugin w) = Some file ->
  frontmatter (host w) !! file = Some fm ->
  displayProperties st = true ->
  deleteOmitted st (deleteKey "position" fm) <> [] ->
  is_Some (activeView (host w)) ->
  querySelector isSection (document (host w)) = None ->
  querySelector isBlock (document (host w)) = None ->
  vault (host w) !! file = Some T ->
  readError (host w) = None ->
  writeError (host w) = None ->
  activeFile (host w) <> Some file ->
  (forall other, activeFile (host w) = Some other ->
                 fileBackups (plugin w) !! other = None) ->
  exists w1,
    injectRenderedProperties w = (Ok tt, w1)
    /\ removeInjectedProperties w1 = (Ok tt, w1)
    /\ vault (host w1) !! file = Some (patchedContent st md T)
    /\ fileBackups (plugin w1) !! file = Some T.
Proof.
  intros st md Hf Hfm Hd Hrows Hv Hs Hb HT Hr Hw Hother Hnone.
  pose proof (inject_patch_written w file fm T Hf Hfm Hd Hrows Hv Hs HT Hr Hw) as E1.
  fold st in E1. fold md in E1.
  eexists. split; [exact E1|].
  split; [|split; [apply lookup_insert_eq|apply lookup_insert_eq]].
  destruct Hv as [view Hv].
  unfold removeInjectedProperties. simpl. rewrite Hv.
  assert (Hview : querySelector isBlock (childrenOf view (document (host w))) = None).
  { apply count_zero_query.
    pose proof (childrenOf_count isBlock view (document (host w))).
    pose proof (query_none_count _ _ Hb). lia. }
  rewrite (no_block_in_view view _ Hview).
  unfold removeFirstBlock. rewrite (query_none_rewrite _ _ _ Hb).
  unfold tryCatch, restoreBackup. simpl.
  destruct (activeFile (host w)) as [other|] eqn:Ea; [|reflexivity].
  rewrite lookup_insert_ne by congruence.
  rewrite (Hnone other eq_refl). reflexivity.
Qed.

Lemma restore_looks_at_active_file_witness :
  exists w1,
    injectRenderedProperties
      (setCurrentFile (Some "report.md")
         (withHost
            {| commands := None; activeFile := Some "other.md"; activeView := Some 2;
               document := emptyDocument;
               frontmatter := <["report.md" := reportFrontmatter]> ∅;
               vault := <["report.md" := reportText]> ∅;
               readError := None; writeError := None;
               parseHTML := fun html => [Block html] |}
            (reportWorld emptyDocument reportText))) = (Ok tt, w1)
    /\ removeInjectedProperties w1 = (Ok tt, w1)
    /\ fileBackups (plugin w1) !! "report.md" = Some reportText.
Proof.
  destruct (restore_looks_at_active_file
              (setCurrentFile (Some "report.md")
                 (withHost
                    {| commands := None; activeFile := Some "other.md";
                       activeView := Some 2; document := emptyDocument;
                       frontmatter := <["report.md" := reportFrontmatter]> ∅;
                       vault := <["report.md" := reportText]> ∅;
                       readError := None; writeError := None;
               parseHTML := fun html => [Block html] |}
                    (reportWorld emptyDocument reportText)))
              "report.md" reportFrontmatter reportText)
    as (w1 & E1 & E2 & _ & Hb); try reflexivity.
  - vm_compute. discriminate.
  - vm_compute. eauto.
  - discriminate.
  - exists w1. split; [exact E1|]. split; [exact E2|exact Hb].
Defined.
